(** * Solo Bitcoin mining coordinator: the worker, the Stratum client, the
    configuration, the statistics collector, the worker manager and the
    WebSocket hub, embedded from the Go sources.

    Conventions of the embedding:
    - a Go [byte] is a [Z] in [0, 256); a [uint32] a [Z] in [0, 2^32), with
      the wrap-around written out where the code relies on it;
    - a [*big.Int] is a [Z];
    - a Go [string] is a [string]; a [[]byte] a [list Z];
    - a Go panic is the [None] of an [option], or the [Panics] of an
      [outcome] where a call may also block;
    - [sha256.Sum256] is a parameter of the worker's definitions, and
      [SHA256.Sum256] below is the function itself, for running them;
    - what Go draws from [math/rand] is an explicit argument
      [rnd : nat -> Z] (the successive draws);
    - the choice Go's [select] makes among ready cases is an explicit
      argument of the loop iteration, and so is the order in which a
      [range] meets the keys of a map;
    - what [time.Now()] gives is an argument of the call that asks for it. *)

From stdpp Require Import gmap strings list.
From Stdlib Require Import ZArith Lia Ascii SpecFloat Sorted.
From Stdlib Require String QArith Qpower.

Local Open Scope Z_scope.

(** ** encoding/hex *)

Module Hex.

Inductive hex_error :=
| InvalidByteError (c : ascii)
| ErrLength.

(** [reverseHexTable]: the value of a hexadecimal digit, either case. *)
Definition fromHexChar (c : ascii) : option Z :=
  let n := Z.of_N (N_of_ascii c) in
  if (48 <=? n) && (n <=? 57) then Some (n - 48)
  else if (97 <=? n) && (n <=? 102) then Some (n - 87)
  else if (65 <=? n) && (n <=? 70) then Some (n - 55)
  else None.

(** [hex.Decode]: the bytes decoded before the first error come back
    together with the error. *)
Fixpoint Decode (src : list ascii) : list Z * option hex_error :=
  match src with
  | [] => ([], None)
  | [p] =>
      match fromHexChar p with
      | None => ([], Some (InvalidByteError p))
      | Some _ => ([], Some ErrLength)
      end
  | p :: q :: rest =>
      match fromHexChar p, fromHexChar q with
      | None, _ => ([], Some (InvalidByteError p))
      | Some _, None => ([], Some (InvalidByteError q))
      | Some a, Some b =>
          let r := Decode rest in
          (Z.lor (Z.shiftl a 4) b :: fst r, snd r)
      end
  end.

Definition DecodeString (s : string) : list Z * option hex_error :=
  Decode (String.list_ascii_of_string s).

Definition hextable : list ascii :=
  String.list_ascii_of_string "0123456789abcdef".

Definition hexdigit (v : Z) : ascii :=
  nth (Z.to_nat v) hextable "0"%char.

(** [hex.Encode]: two lowercase digits per byte. *)
Fixpoint Encode (src : list Z) : list ascii :=
  match src with
  | [] => []
  | v :: rest =>
      hexdigit (Z.shiftr v 4) :: hexdigit (Z.land v 15) :: Encode rest
  end.

Definition EncodeToString (src : list Z) : string :=
  String.string_of_list_ascii (Encode src).

End Hex.

(** ** crypto/sha256 (FIPS 180-4), on 32-bit words held in [Z] *)

Module SHA256.

Definition w32 (x : Z) : Z := x mod 2 ^ 32.
Definition add32 (x y : Z) : Z := w32 (x + y).
Definition rotr (n x : Z) : Z :=
  Z.lor (Z.shiftr x n) (w32 (Z.shiftl x (32 - n))).
Definition not32 (x : Z) : Z := 2 ^ 32 - 1 - x.

Definition Ch (x y z : Z) : Z := Z.lxor (Z.land x y) (Z.land (not32 x) z).
Definition Maj (x y z : Z) : Z :=
  Z.lxor (Z.lxor (Z.land x y) (Z.land x z)) (Z.land y z).
Definition Sigma0 (x : Z) : Z := Z.lxor (Z.lxor (rotr 2 x) (rotr 13 x)) (rotr 22 x).
Definition Sigma1 (x : Z) : Z := Z.lxor (Z.lxor (rotr 6 x) (rotr 11 x)) (rotr 25 x).
Definition sigma0 (x : Z) : Z := Z.lxor (Z.lxor (rotr 7 x) (rotr 18 x)) (Z.shiftr x 3).
Definition sigma1 (x : Z) : Z := Z.lxor (Z.lxor (rotr 17 x) (rotr 19 x)) (Z.shiftr x 10).

(** The round constants, as the 256 bytes of their big-endian words. *)
Definition K_hex : list string :=
  [ "428a2f9871374491b5c0fbcfe9b5dba53956c25b59f111f1923f82a4ab1c5ed5";
    "d807aa9812835b01243185be550c7dc372be5d7480deb1fe9bdc06a7c19bf174";
    "e49b69c1efbe47860fc19dc6240ca1cc2de92c6f4a7484aa5cb0a9dc76f988da";
    "983e5152a831c66db00327c8bf597fc7c6e00bf3d5a7914706ca635114292967";
    "27b70a852e1b21384d2c6dfc53380d13650a7354766a0abb81c2c92e92722c85";
    "a2bfe8a1a81a664bc24b8b70c76c51a3d192e819d6990624f40e3585106aa070";
    "19a4c1161e376c082748774c34b0bcb5391c0cb34ed8aa4a5b9cca4f682e6ff3";
    "748f82ee78a5636f84c878148cc7020890befffaa4506cebbef9a3f7c67178f2" ]%string.

Record digest_state := State {
  sa : Z; sb : Z; sc : Z; sd : Z; se : Z; sf : Z; sg : Z; sh : Z }.

Definition init : digest_state :=
  State 0x6a09e667 0xbb67ae85 0x3c6ef372 0xa54ff53a
        0x510e527f 0x9b05688c 0x1f83d9ab 0x5be0cd19.

(** One round on the working variables, with the round constant [k] and
    the schedule word [w]. *)
Definition round (s : digest_state) (k w : Z) : digest_state :=
  let t1 := add32 (add32 (add32 (add32 (sh s) (Sigma1 (se s)))
                                (Ch (se s) (sf s) (sg s))) k) w in
  let t2 := add32 (Sigma0 (sa s)) (Maj (sa s) (sb s) (sc s)) in
  State (add32 t1 t2) (sa s) (sb s) (sc s) (add32 (sd s) t1) (se s) (sf s) (sg s).

(** The next schedule word from the window [w_t .. w_(t+15)]. *)
Definition next_word (win : list Z) : Z :=
  add32 (add32 (add32 (sigma1 (nth 14 win 0)) (nth 9 win 0))
               (sigma0 (nth 1 win 0))) (nth 0 win 0).

Fixpoint rounds (ks : list Z) (win : list Z) (s : digest_state) : digest_state :=
  match ks with
  | [] => s
  | k :: ks' =>
      rounds ks' (tl win ++ [next_word win]) (round s k (nth 0 win 0))
  end.

Fixpoint be_words (bs : list Z) (n : nat) : list Z :=
  match n with
  | O => []
  | S n' =>
      (nth 0 bs 0 * 2 ^ 24 + nth 1 bs 0 * 2 ^ 16 + nth 2 bs 0 * 2 ^ 8 + nth 3 bs 0)
        :: be_words (drop 4 bs) n'
  end.

Definition K : list Z :=
  flat_map (fun row => be_words (fst (Hex.DecodeString row)) 8) K_hex.

Definition block (s : digest_state) (bs : list Z) : digest_state :=
  let r := rounds K (be_words bs 16) s in
  State (add32 (sa s) (sa r)) (add32 (sb s) (sb r)) (add32 (sc s) (sc r))
        (add32 (sd s) (sd r)) (add32 (se s) (se r)) (add32 (sf s) (sf r))
        (add32 (sg s) (sg r)) (add32 (sh s) (sh r)).

Fixpoint blocks (n : nat) (s : digest_state) (bs : list Z) : digest_state :=
  match n with
  | O => s
  | S n' => blocks n' (block s (take 64 bs)) (drop 64 bs)
  end.

Definition be_bytes (n : nat) (x : Z) : list Z :=
  map (fun i => Z.land (Z.shiftr x (8 * Z.of_nat i)) 255) (rev (seq 0 n)).

(** Padding: a 1 bit, zeros up to 56 mod 64, the bit length on 8 bytes. *)
Definition pad (msg : list Z) : list Z :=
  let len := Z.of_nat (length msg) in
  let zeros := Z.to_nat ((55 - len) mod 64) in
  msg ++ [128] ++ replicate zeros 0 ++ be_bytes 8 (8 * len).

Definition Sum256 (msg : list Z) : list Z :=
  let p := pad msg in
  let s := blocks (Nat.div (length p) 64) init p in
  be_bytes 4 (sa s) ++ be_bytes 4 (sb s) ++ be_bytes 4 (sc s) ++ be_bytes 4 (sd s) ++
  be_bytes 4 (se s) ++ be_bytes 4 (sf s) ++ be_bytes 4 (sg s) ++ be_bytes 4 (sh s).

End SHA256.

(** ** math/big on [Z], and the integer conversions the worker uses *)

Module Big.

(** [int64(u)] and [uint(x)] on a 64-bit platform: the value modulo 2^64,
    read as signed or unsigned. *)
Definition to_int64 (x : Z) : Z := (x + 2 ^ 63) mod 2 ^ 64 - 2 ^ 63.
Definition to_uint (x : Z) : Z := x mod 2 ^ 64.

(** [SetBytes]: the bytes read as a big-endian unsigned integer. *)
Definition SetBytes (buf : list Z) : Z :=
  fold_left (fun acc b => acc * 256 + b) buf 0.

(** The number of 64-bit words of the magnitude of [x]. *)
Definition words (x : Z) : Z :=
  if x =? 0 then 0 else Z.log2 (Z.abs x) / 64 + 1.

(** The largest allocation the runtime grants on a 64-bit platform, and
    the longest [[]Word] that fits it. *)
Definition maxAlloc : Z := 2 ^ 48.
Definition maxWords : Z := maxAlloc / 8.

(** [z.Lsh(x, n)] for [x >= 0]. A zero [x] comes back at once; otherwise
    [nat.shl] first makes a slice of [words x + n/64 + 1] words, and
    [make] panics (makeslice: len out of range) when that is more than
    the runtime grants. *)
Definition Lsh (x n : Z) : option Z :=
  if x =? 0 then Some 0
  else if maxWords <? words x + n / 64 + 1 then None
  else Some (Z.shiftl x n).

(** [x.Int64()]: the low 64 bits of the magnitude as an [int64], negated
    for a negative [x]. *)
Definition Int64 (x : Z) : Z :=
  let v := to_int64 (Z.abs x mod 2 ^ 64) in
  if x <? 0 then to_int64 (- v) else v.

(** [a] rounded to a multiple of 2^e, to the nearest, ties to the even
    multiple. *)
Definition round_even (e a : Z) : Z :=
  let q := a / 2 ^ e in
  let r := a mod 2 ^ e in
  let h := 2 ^ (e - 1) in
  (if r <? h then q
   else if h <? r then q + 1
   else if Z.even q then q else q + 1) * 2 ^ e.

(** [float64(v)] for an [int64]: the nearest double, ties to even. Such a
    double is an integer, and is held here as that integer: [v] itself
    below 2^53 in magnitude, otherwise [v] rounded to 53 significant
    bits. Comparing two such doubles is comparing these integers. *)
Definition float64_of_int64 (v : Z) : Z :=
  let a := Z.abs v in
  if a <? 2 ^ 53 then v
  else Z.sgn v * round_even (Z.log2 a - 52) a.

End Big.

(** ** encoding/json: decoded values *)

Module Json.

(** A [float64] that is not an integer-valued conversion is held as the
    Standard Library's specification float. *)
Definition float64 := spec_float.

(** A number carries both readings Go makes of its literal: [f], the
    double it decodes to (into an [interface{}]), and [i], the [int] it
    decodes to, which exists only for a literal without fraction or
    exponent that fits 64 bits. *)
#[warnings="-register-all"]
Inductive value :=
| JNull
| JBool (b : bool)
| JNumber (f : float64) (i : option Z)
| JString (s : string)
| JArray (l : list value)
| JObject (m : list (string * value)).

(** [int(f)] as the amd64 back end computes it: truncation toward zero,
    and the "integer indefinite" value -2^63 outside the [int64] range,
    for infinities and for NaN. *)
Definition int_of_float64 (f : float64) : Z :=
  match f with
  | S754_zero _ => 0
  | S754_finite s m e =>
      let a := if 0 <=? e then Z.pos m * 2 ^ e else Z.pos m / 2 ^ (- e) in
      let v := if s then - a else a in
      if (- 2 ^ 63 <=? v) && (v <? 2 ^ 63) then v else - 2 ^ 63
  | _ => - 2 ^ 63
  end.

(** [json.Unmarshal(raw, &p)] with [p []json.RawMessage]: the elements of
    an array; [null] leaves [p] nil; anything else, and an absent or empty
    raw message, is an error. *)
Definition unmarshal_array (raw : option value) : option (list value) :=
  match raw with
  | Some (JArray l) => Some l
  | Some JNull => Some []
  | _ => None
  end.

(** [json.Unmarshal(raw, &s)] with [s] a string holding [old]: a JSON
    string is stored; for anything else the error is dropped by the
    callers below and [s] keeps its value. *)
Definition unmarshal_string (raw : value) (old : string) : string :=
  match raw with
  | JString s => s
  | _ => old
  end.

Definition unmarshal_bool (raw : value) (old : bool) : bool :=
  match raw with
  | JBool b => b
  | _ => old
  end.

Definition unmarshal_int (raw : value) (old : Z) : Z :=
  match raw with
  | JNumber _ (Some i) => i
  | _ => old
  end.

(** [json.Unmarshal(raw, &b)] with the error looked at: a boolean, or
    [null], which leaves the zero value without an error. *)
Definition unmarshal_bool_checked (raw : option value) : option bool :=
  match raw with
  | Some (JBool b) => Some b
  | Some JNull => Some false
  | _ => None
  end.

(** Into a [[]string]: an array gives a slice of its length, where an
    element that is not a string leaves the zero value (the type error
    is recorded and decoding goes on); [null] gives nil. *)
Definition unmarshal_strings (raw : value) (old : list string) : list string :=
  match raw with
  | JArray l => map (fun v => unmarshal_string v String.EmptyString) l
  | JNull => []
  | _ => old
  end.

End Json.

(** ** package config *)

Module Config.

Record Config := mkConfig {
  PoolURL : string;
  PoolPort : Z;
  WalletAddress : string;
  MaxCPUPercent : Z;
  NumWorkers : Z }.

Definition DefaultConfig : Config :=
  mkConfig "solo.ckpool.org" 3333 "1FngDUBvDhPh9z3paCRHFEtHjnUMAFacn9" 80 4.

(** The type assertions [updates[k].(string)] and [updates[k].(float64)]:
    they hold only for a key that is present with a value of that dynamic
    type. *)
Definition as_string (v : option Json.value) : option string :=
  match v with
  | Some (Json.JString s) => Some s
  | _ => None
  end.

Definition as_float64 (v : option Json.value) : option Json.float64 :=
  match v with
  | Some (Json.JNumber f _) => Some f
  | _ => None
  end.

(** The keys [Update] looks up. *)
Definition keys : list string :=
  ["pool_url"; "pool_port"; "wallet_address"; "max_cpu_percent"; "num_workers"]%string.

Definition Update (updates : gmap string Json.value) (c : Config) : Config :=
  let c :=
    match as_string (updates !! "pool_url"%string) with
    | Some v => mkConfig v (PoolPort c) (WalletAddress c) (MaxCPUPercent c) (NumWorkers c)
    | None => c
    end in
  let c :=
    match as_float64 (updates !! "pool_port"%string) with
    | Some v => mkConfig (PoolURL c) (Json.int_of_float64 v) (WalletAddress c)
                         (MaxCPUPercent c) (NumWorkers c)
    | None => c
    end in
  let c :=
    match as_string (updates !! "wallet_address"%string) with
    | Some v => mkConfig (PoolURL c) (PoolPort c) v (MaxCPUPercent c) (NumWorkers c)
    | None => c
    end in
  let c :=
    match as_float64 (updates !! "max_cpu_percent"%string) with
    | Some v => mkConfig (PoolURL c) (PoolPort c) (WalletAddress c)
                         (Json.int_of_float64 v) (NumWorkers c)
    | None => c
    end in
  match as_float64 (updates !! "num_workers"%string) with
  | Some v => mkConfig (PoolURL c) (PoolPort c) (WalletAddress c)
                       (MaxCPUPercent c) (Json.int_of_float64 v)
  | None => c
  end.

End Config.

(** ** How a call ends *)

Inductive outcome (A : Type) :=
| Returns (a : A)
| Blocks
| Panics.
Arguments Returns {A} a.
Arguments Blocks {A}.
Arguments Panics {A}.

(** ** package stratum *)

Module Stratum.

Record Job := mkJob {
  ID : string;
  PrevHash : string;
  Coinbase1 : string;
  Coinbase2 : string;
  MerkleBranch : list string;
  Version : string;
  NBits : string;
  NTime : string;
  CleanJobs : bool }.

Record Request := mkRequest {
  ReqID : Z;
  ReqMethod : string;
  ReqParams : list Json.value }.

(** [Result] is a raw message ([None]: absent); [Error] an [interface{}]
    ([None]: nil, for an absent or [null] error). *)
Record Response := mkResponse {
  RespID : Z;
  Result : option Json.value;
  Error : option Json.value }.

Record Notification := mkNotification {
  Method : string;
  Params : option Json.value }.

(** The socket behind [c.conn]. *)
Inductive socket := SockOpen | SockClosed.

Inductive send_error := ErrNotConnected | ErrWrite.

(** What a call does to the outside: a request written to the socket, or
    a callback invoked (callbacks are taken as installed). *)
Inductive effect :=
| Sent (req : Request)
| OnConnected
| OnDisconnected
| OnSubscribed (extranonce1 : string) (extranonce2Size : Z)
| OnAuthorized (ok : bool)
| OnJobReceived (job : Job).

(** [shutdown] holds whether the channel of that name is closed;
    [readLoops] counts the goroutines running [readLoop]. *)
Record Client := mkClient {
  conn : option socket;
  extranonce1 : string;
  extranonce2Size : Z;
  subscribed : bool;
  authorized : bool;
  currentJob : option Job;
  requestID : Z;
  shutdown : bool;
  running : bool;
  readLoops : nat }.

Definition NewClient : Client :=
  mkClient None String.EmptyString 0 false false None 0 false false 0.

(** [Connect]: [dialed] says whether the dial succeeded. *)
Definition Connect (dialed : bool) (c : Client) : Client * list effect * bool :=
  if dialed then
    (mkClient (Some SockOpen) (extranonce1 c) (extranonce2Size c) (subscribed c)
              (authorized c) (currentJob c) (requestID c) false true
              (S (readLoops c)),
     [OnConnected], true)
  else (c, [], false).

Definition nextID (c : Client) : Z * Client :=
  let id := Big.to_int64 (requestID c + 1) in
  (id,
   mkClient (conn c) (extranonce1 c) (extranonce2Size c) (subscribed c)
            (authorized c) (currentJob c) id (shutdown c) (running c) (readLoops c)).

Definition send (req : Request) (c : Client) : list effect * option send_error :=
  match conn c with
  | None => ([], Some ErrNotConnected)
  | Some SockOpen => ([Sent req], None)
  | Some SockClosed => ([], Some ErrWrite)
  end.

Definition Subscribe (c : Client) : Client * list effect * option send_error :=
  let '(id, c) := nextID c in
  let req := mkRequest id "mining.subscribe" [] in
  (c, fst (send req c), snd (send req c)).

Definition Authorize (walletAddress password : string) (c : Client)
  : Client * list effect * option send_error :=
  let password := if String.eqb password String.EmptyString then "x"%string else password in
  let '(id, c) := nextID c in
  let req := mkRequest id "mining.authorize"
               [Json.JString walletAddress; Json.JString password] in
  (c, fst (send req c), snd (send req c)).

Definition Submit (walletAddress jobID extranonce2 ntime nonce : string) (c : Client)
  : Client * list effect * option send_error :=
  let '(id, c) := nextID c in
  let req := mkRequest id "mining.submit"
               [Json.JString walletAddress; Json.JString jobID;
                Json.JString extranonce2; Json.JString ntime; Json.JString nonce] in
  (c, fst (send req c), snd (send req c)).


(** [Close]: closing a channel that is closed already panics. *)
Definition Close (c : Client) : outcome Client :=
  if shutdown c then Panics
  else
    Returns (mkClient (match conn c with Some _ => Some SockClosed | None => None end)
                      (extranonce1 c) (extranonce2Size c) (subscribed c)
                      (authorized c) (currentJob c) (requestID c) true false
                      (readLoops c)).

(** The read loop meeting a read error: the peer or [Close] ended the
    connection. *)
Definition readLoop_error (c : Client) : Client * list effect :=
  (mkClient (match conn c with Some _ => Some SockClosed | None => None end)
            (extranonce1 c) (extranonce2Size c) false false (currentJob c)
            (requestID c) (shutdown c) false (Nat.pred (readLoops c)),
   [OnDisconnected]).

Definition handleResponse (resp : Response) (c : Client) : Client * list effect :=
  match Error resp with
  | Some _ => (c, [])
  | None =>
      let '(c, eff1) :=
        if RespID resp =? 1 then
          match Json.unmarshal_array (Result resp) with
          | Some result =>
              if (3 <=? length result)%nat then
                let e1 := Json.unmarshal_string (nth 1 result Json.JNull) String.EmptyString in
                let size := Json.unmarshal_int (nth 2 result Json.JNull) 0 in
                (mkClient (conn c) e1 size true (authorized c) (currentJob c)
                          (requestID c) (shutdown c) (running c) (readLoops c),
                 [OnSubscribed e1 size])
              else (c, [])
          | None => (c, [])
          end
        else (c, []) in
      let '(c, eff2) :=
        if RespID resp =? 2 then
          match Json.unmarshal_bool_checked (Result resp) with
          | Some result =>
              (mkClient (conn c) (extranonce1 c) (extranonce2Size c) (subscribed c)
                        result (currentJob c) (requestID c) (shutdown c) (running c)
                        (readLoops c),
               [OnAuthorized result])
          | None => (c, [])
          end
        else (c, []) in
      (c, eff1 ++ eff2)
  end.

Definition handleMiningNotify (params : option Json.value) (c : Client)
  : Client * list effect :=
  match Json.unmarshal_array params with
  | None => (c, [])
  | Some p =>
      if (length p <? 9)%nat then (c, [])
      else
        let at_ i := nth i p Json.JNull in
        let job :=
          mkJob (Json.unmarshal_string (at_ 0%nat) String.EmptyString)
                (Json.unmarshal_string (at_ 1%nat) String.EmptyString)
                (Json.unmarshal_string (at_ 2%nat) String.EmptyString)
                (Json.unmarshal_string (at_ 3%nat) String.EmptyString)
                (Json.unmarshal_strings (at_ 4%nat) [])
                (Json.unmarshal_string (at_ 5%nat) String.EmptyString)
                (Json.unmarshal_string (at_ 6%nat) String.EmptyString)
                (Json.unmarshal_string (at_ 7%nat) String.EmptyString)
                (Json.unmarshal_bool (at_ 8%nat) false) in
        (mkClient (conn c) (extranonce1 c) (extranonce2Size c) (subscribed c)
                  (authorized c) (Some job) (requestID c) (shutdown c) (running c)
                  (readLoops c),
         [OnJobReceived job])
  end.

Definition handleNotification (notif : Notification) (c : Client)
  : Client * list effect :=
  if String.eqb (Method notif) "mining.notify" then handleMiningNotify (Params notif) c
  else if String.eqb (Method notif) "mining.set_difficulty" then (c, [])
  else (c, []).

(** The calls made on a client, and a run of them with everything written
    and every callback invoked on the way. *)
Inductive call :=
| CConnect (dialed : bool)
| CSubscribe
| CAuthorize (walletAddress password : string)
| CSubmit (walletAddress jobID extranonce2 ntime nonce : string)
| CClose
| CReadError
| CResponse (resp : Response)
| CNotification (notif : Notification).

Definition step (k : call) (c : Client) : outcome (Client * list effect) :=
  match k with
  | CConnect dialed => let '(c, eff, _) := Connect dialed c in Returns (c, eff)
  | CSubscribe => let '(c, eff, _) := Subscribe c in Returns (c, eff)
  | CAuthorize w p => let '(c, eff, _) := Authorize w p c in Returns (c, eff)
  | CSubmit w j e n x => let '(c, eff, _) := Submit w j e n x c in Returns (c, eff)
  | CClose => match Close c with
              | Returns c => Returns (c, [])
              | Blocks => Blocks
              | Panics => Panics
              end
  | CReadError => Returns (readLoop_error c)
  | CResponse resp => Returns (handleResponse resp c)
  | CNotification notif => Returns (handleNotification notif c)
  end.

Fixpoint run (ks : list call) (c : Client) : outcome (Client * list effect) :=
  match ks with
  | [] => Returns (c, [])
  | k :: ks' =>
      match step k c with
      | Returns (c1, eff1) =>
          match run ks' c1 with
          | Returns (c2, eff2) => Returns (c2, eff1 ++ eff2)
          | Blocks => Blocks
          | Panics => Panics
          end
      | Blocks => Blocks
      | Panics => Panics
      end
  end.

End Stratum.

(** ** package miner: the worker *)

Module Miner.

Import Stratum.

(** [result[len(data)-1-i] = b] for every [i]: the reversed copy. *)
Definition reverseBytes (data : list Z) : list Z := rev data.

(** [copy(dst[off:off+n], src)]: as many bytes as both sides have. *)
Definition copy_at (off n : nat) (dst src : list Z) : list Z :=
  let k := Nat.min n (length src) in
  take off dst ++ take k src ++ drop (off + k) dst.

(** What [copy] leaves in a zeroed slot of [n] bytes: the first [n] bytes
    of [src], and zeros after a shorter [src]. *)
Definition slot (n : nat) (src : list Z) : list Z :=
  take n src ++ replicate (n - length src) 0.

(** [binary.LittleEndian.PutUint32(b[off:off+4], v)]. *)
Definition PutUint32 (off : nat) (b : list Z) (v : Z) : list Z :=
  take off b ++
  [Z.land v 255; Z.land (Z.shiftr v 8) 255;
   Z.land (Z.shiftr v 16) 255; Z.land (Z.shiftr v 24) 255] ++
  drop (off + 4) b.

(** [fmt.Sprintf("%08x", nonce)] for a [uint32]: its eight lowercase
    hexadecimal digits. *)
Definition Sprintf_08x (nonce : Z) : string :=
  Hex.EncodeToString
    [Z.land (Z.shiftr nonce 24) 255; Z.land (Z.shiftr nonce 16) 255;
     Z.land (Z.shiftr nonce 8) 255; Z.land nonce 255].

(** [rand.Uint32()] and [rand.Read(bytes)] from the draws. *)
Definition Uint32 (rnd : nat -> Z) (i : nat) : Z := rnd i mod 2 ^ 32.
Definition Read (rnd : nat -> Z) (n : nat) : list Z :=
  map (fun i => rnd i mod 256) (seq 0 n).

(** [make([]byte, size)] panics for a negative size and for one beyond
    what the runtime grants. *)
Definition generateExtranonce2 (size : Z) (rnd : nat -> Z) : option string :=
  if (size <? 0) || (Big.maxAlloc <? size) then None
  else Some (Hex.EncodeToString (Read rnd (Z.to_nat size))).

Definition difficulty1Target : Z :=
  0x00000000FFFF0000000000000000000000000000000000000000000000000000.

Definition calculateTarget (nbits : string) : option Z :=
  let nbitsBytes := fst (Hex.DecodeString nbits) in
  if negb (length nbitsBytes =? 4)%nat then Some 0
  else
    let exp := nth 0 nbitsBytes 0 in
    let coeff := Big.SetBytes (drop 1 (take 4 nbitsBytes)) in
    Big.Lsh coeff (Big.to_uint (8 * (exp - 3))).

Section WithDigest.

(** [sha256.Sum256]. *)
Variable Sum256 : list Z -> list Z.

Definition doubleSHA256 (data : list Z) : list Z :=
  Sum256 (Sum256 data).

Definition coinbaseBytes (job : Job) (extranonce1 extranonce2 : string) : list Z :=
  fst (Hex.DecodeString
         (String.append (Coinbase1 job)
            (String.append extranonce1
               (String.append extranonce2 (Coinbase2 job))))).

Definition merkleRoot (job : Job) (extranonce1 extranonce2 : string) : list Z :=
  fold_left
    (fun root branch => doubleSHA256 (root ++ fst (Hex.DecodeString branch)))
    (MerkleBranch job)
    (doubleSHA256 (coinbaseBytes job extranonce1 extranonce2)).

(** The header of [mineBatch] once the five fields are copied in, the
    nonce not written yet. *)
Definition blockHeader (job : Job) (extranonce1 extranonce2 : string) : list Z :=
  let merkleRootHex := reverseBytes (merkleRoot job extranonce1 extranonce2) in
  let version := fst (Hex.DecodeString (Version job)) in
  let prevHash := fst (Hex.DecodeString (PrevHash job)) in
  let ntime := fst (Hex.DecodeString (NTime job)) in
  let nbits := fst (Hex.DecodeString (NBits job)) in
  let header := replicate 80 0 in
  let header := copy_at 0 4 header version in
  let header := copy_at 4 32 header prevHash in
  let header := copy_at 36 32 header merkleRootHex in
  let header := copy_at 68 4 header ntime in
  copy_at 72 4 header nbits.

(** The integer the batch compares with the target, for a header. *)
Definition hashInt (header : list Z) : Z :=
  Big.SetBytes (reverseBytes (doubleSHA256 header)).

(** The integer of attempt [k] of a batch over [header]: the header
    with the [k]-th nonce drawn written at [76, 80). *)
Definition attemptHash (header : list Z) (rnd : nat -> Z) (k : nat) : Z :=
  hashInt (PutUint32 76 header (Uint32 rnd k)).

(** The difficulty the batch takes for a hash: none for zero. *)
Definition attemptDifficulty (h : Z) : Z :=
  if 0 <? h then Big.float64_of_int64 (Big.Int64 (difficulty1Target / h)) else 0.

(** The best difficulty among the attempts [0 .. k-1] of a batch. *)
Definition bestBefore (header : list Z) (rnd : nat -> Z) (k : nat) : Z :=
  fold_left (fun best j => Z.max best (attemptDifficulty (attemptHash header rnd j)))
            (seq 0 k) 0.

Record batch_result := mkBatch {
  found : bool;
  nonceHex : string;
  difficulty : Z;
  hashes : Z }.

(** The loop of [mineBatch]: [i] is the iteration, [n] what is left of
    the batch, [hs] the hashes counted so far. *)
Fixpoint batchLoop (target : Z) (rnd : nat -> Z) (n i : nat) (header : list Z)
    (bestDifficulty : Z) (bestNonce : string) (hs : Z) : batch_result :=
  match n with
  | O => mkBatch false bestNonce bestDifficulty hs
  | S n' =>
      let nonce := Uint32 rnd i in
      let header := PutUint32 76 header nonce in
      let h := hashInt header in
      let hs := hs + 1 in
      let '(bestDifficulty, bestNonce) :=
        if 0 <? h then
          let diff := difficulty1Target / h in
          let diffFloat := Big.float64_of_int64 (Big.Int64 diff) in
          if bestDifficulty <? diffFloat then (diffFloat, Sprintf_08x nonce)
          else (bestDifficulty, bestNonce)
        else (bestDifficulty, bestNonce) in
      if h <=? target then mkBatch true (Sprintf_08x nonce) bestDifficulty hs
      else batchLoop target rnd n' (S i) header bestDifficulty bestNonce hs
  end.

Definition mineBatch (job : Job) (extranonce1 extranonce2 : string)
    (batchSize : Z) (rnd : nat -> Z) : option batch_result :=
  match calculateTarget (NBits job) with
  | None => None
  | Some target =>
      Some (batchLoop target rnd (Z.to_nat batchSize) 0
              (blockHeader job extranonce1 extranonce2) 0 String.EmptyString 0)
  end.

(** *** The worker and its goroutine *)

(** [shutdown] holds whether the channel of that name is closed;
    [jobChannel] the jobs buffered in the channel, oldest first;
    [loops] counts the goroutines running [mineLoop]. *)
Record Worker := mkWorker {
  WID : Z;
  Name : string;
  running : bool;
  hashCount : Z;
  job : option Job;
  extranonce1 : string;
  extranonce2 : string;
  cpuPercent : Z;
  shutdown : bool;
  jobChannel : list Job;
  loops : nat }.

(** The capacity [make(chan *stratum.Job, 10)] gives the channel. *)
Definition jobChannelCap : nat := 10.

Definition NewWorker (id : Z) (name : string) (cpuPercent : Z) : Worker :=
  mkWorker id name false 0 None String.EmptyString String.EmptyString
           cpuPercent false [] 0.

Definition set_jobChannel (w : Worker) (ch : list Job) : Worker :=
  mkWorker (WID w) (Name w) (running w) (hashCount w) (job w) (extranonce1 w)
           (extranonce2 w) (cpuPercent w) (shutdown w) ch (loops w).

Definition Start (e1 : string) (extranonce2Size : Z) (rnd : nat -> Z) (w : Worker)
  : outcome Worker :=
  if running w then Returns w
  else
    match generateExtranonce2 extranonce2Size rnd with
    | None => Panics
    | Some e2 =>
        Returns (mkWorker (WID w) (Name w) true (hashCount w) (job w) e1 e2
                          (cpuPercent w) (shutdown w) (jobChannel w) (S (loops w)))
    end.

(** [Stop]: closing a channel that is closed already panics. *)
Definition Stop (w : Worker) : outcome Worker :=
  if negb (running w) then Returns w
  else if shutdown w then Panics
  else
    Returns (mkWorker (WID w) (Name w) false (hashCount w) (job w) (extranonce1 w)
                      (extranonce2 w) (cpuPercent w) true (jobChannel w) (loops w)).

Definition IsRunning (w : Worker) : bool := running w.

(** A send that does not wait: [None] when the buffer is full. *)
Definition try_send (ch : list Job) (j : Job) : option (list Job) :=
  if (length ch <? jobChannelCap)%nat then Some (ch ++ [j]) else None.

Definition UpdateJob (j : Job) (w : Worker) : outcome Worker :=
  match try_send (jobChannel w) j with
  | Some ch => Returns (set_jobChannel w ch)
  | None =>
      let ch := match jobChannel w with
                | [] => []
                | _ :: rest => rest
                end in
      match try_send ch j with
      | Some ch => Returns (set_jobChannel w ch)
      | None => Blocks
      end
  end.

(** A producer that calls [UpdateJob] with each job in turn. *)
Fixpoint UpdateJobs (js : list Job) (w : Worker) : outcome Worker :=
  match js with
  | [] => Returns w
  | j :: rest =>
      match UpdateJob j w with
      | Returns w1 => UpdateJobs rest w1
      | Blocks => Blocks
      | Panics => Panics
      end
  end.

Definition SetCPUPercent (percent : Z) (w : Worker) : Worker :=
  mkWorker (WID w) (Name w) (running w) (hashCount w) (job w) (extranonce1 w)
           (extranonce2 w) percent (shutdown w) (jobChannel w) (loops w).

(** What [onShareFound] receives. *)
Record Share := mkShare {
  shWorkerID : Z;
  shJobID : string;
  shExtranonce2 : string;
  shNTime : string;
  shNonce : string;
  shDifficulty : Z }.

(** What one iteration of [mineLoop] does. *)
Inductive loop_event :=
| Exit
| JobTaken (j : Job)
| Idle
| Batch (share : option Share).

(** The case [select] takes when both channels are ready. *)
Inductive select_case := CaseShutdown | CaseJob.

(** One iteration of [mineLoop], taken as one step. [select] takes a
    ready case, [pick] when both are ready, and the default only when
    none is. *)
Definition mineLoop_iter (pick : select_case) (rnd : nat -> Z) (w : Worker)
  : outcome (Worker * loop_event) :=
  let take_shutdown :=
    Returns (mkWorker (WID w) (Name w) (running w) (hashCount w) (job w)
                      (extranonce1 w) (extranonce2 w) (cpuPercent w) (shutdown w)
                      (jobChannel w) (Nat.pred (loops w)), Exit) in
  let take_job (j : Job) (rest : list Job) :=
    match generateExtranonce2 (Z.of_nat (String.length (extranonce2 w)) / 2) rnd with
    | None => Panics
    | Some e2 =>
        Returns (mkWorker (WID w) (Name w) (running w) (hashCount w) (Some j)
                          (extranonce1 w) e2 (cpuPercent w) (shutdown w) rest
                          (loops w), JobTaken j)
    end in
  match shutdown w, jobChannel w with
  | true, [] => take_shutdown
  | true, j :: rest =>
      match pick with
      | CaseShutdown => take_shutdown
      | CaseJob => take_job j rest
      end
  | false, j :: rest => take_job j rest
  | false, [] =>
      match job w with
      | None => Returns (w, Idle)
      | Some j =>
          match mineBatch j (extranonce1 w) (extranonce2 w) 1000 rnd with
          | None => Panics
          | Some r =>
              let w' := mkWorker (WID w) (Name w) (running w)
                                 (Big.to_uint (hashCount w + hashes r)) (job w)
                                 (extranonce1 w) (extranonce2 w) (cpuPercent w)
                                 (shutdown w) (jobChannel w) (loops w) in
              Returns (w', Batch (if found r
                                  then Some (mkShare (WID w) (ID j) (extranonce2 w)
                                                     (NTime j) (nonceHex r) (difficulty r))
                                  else None))
          end
      end
  end.

(** What happens to a worker: the calls of its interface, and the
    iterations of a goroutine running [mineLoop]. *)
Inductive action :=
| AStart (e1 : string) (extranonce2Size : Z)
| AStop
| AUpdateJob (j : Job)
| ASetCPUPercent (percent : Z)
| ALoop (pick : select_case).

(** The action is not a [Start] with a size other than [n]. *)
Definition start_size_is (n : Z) (a : action) : Prop :=
  match a with
  | AStart _ size => size = n
  | _ => True
  end.

(** The worker holds an extranonce2 of 2n characters, for a size [n] the
    runtime grants. *)
Definition extranonce2_ok (n : Z) (w : Worker) : Prop :=
  Z.of_nat (String.length (extranonce2 w)) = 2 * n /\ 0 <= n <= Big.maxAlloc.

Definition lift {A B} (f : A -> B) (o : outcome A) : outcome B :=
  match o with
  | Returns a => Returns (f a)
  | Blocks => Blocks
  | Panics => Panics
  end.

(** One action, with the draws it may use. An iteration needs a live
    goroutine; without one nothing happens. *)
Definition act (a : action) (rnd : nat -> Z) (w : Worker)
  : outcome (Worker * list loop_event) :=
  match a with
  | AStart e1 size => lift (fun w => (w, [])) (Start e1 size rnd w)
  | AStop => lift (fun w => (w, [])) (Stop w)
  | AUpdateJob j => lift (fun w => (w, [])) (UpdateJob j w)
  | ASetCPUPercent p => Returns (SetCPUPercent p w, [])
  | ALoop pick =>
      match loops w with
      | O => Returns (w, [])
      | S _ => lift (fun r => (fst r, [snd r])) (mineLoop_iter pick rnd w)
      end
  end.

Fixpoint run (acts : list (action * (nat -> Z))) (w : Worker)
  : outcome (Worker * list loop_event) :=
  match acts with
  | [] => Returns (w, [])
  | (a, rnd) :: rest =>
      match act a rnd w with
      | Returns (w1, ev1) =>
          match run rest w1 with
          | Returns (w2, ev2) => Returns (w2, ev1 ++ ev2)
          | Blocks => Blocks
          | Panics => Panics
          end
      | Blocks => Blocks
      | Panics => Panics
      end
  end.

End WithDigest.

End Miner.

(** ** Concrete runs *)

Module Scenario.

Import Stratum Miner.

(** A job with the largest target ("207fffff"), so that a batch finds a
    share within a few attempts. *)
Definition jobA : Job :=
  mkJob "jobA"
        "00000000000000000000b4f5c1e2a3d4e5f60718293a4b5c6d7e8f9012345678"
        "01000000010000000000000000000000000000000000000000000000000000000000000000ffffffff"
        "ffffffff0100f2052a010000001976a914000000000000000000000000000000000000000088ac00000000"
        ["e3b0c44298fc1c149afbf4c8996fb92427ae41e4649b934ca495991b7852b855"]
        "20000000" "207fffff" "5f5e1000" true.

(** The draws of the run: 3, 10, 17, ... *)
Definition draws : nat -> Z := fun i => 7 * Z.of_nat i + 3.

Definition worker0 : Worker := NewWorker 1 "Worker A" 80.

(** The worker started with [extranonce2Size = 4] that has taken [jobA]
    from its mailbox, and the same worker after its first batch. *)
Definition workerA : Worker :=
  mkWorker 1 "Worker A" true 0 (Some jobA) "81000001" "030a1118" 80 false [] 1.

Definition workerA' : Worker :=
  mkWorker 1 "Worker A" true 2 (Some jobA) "81000001" "030a1118" 80 false [] 1.

Definition shareA : Share :=
  mkShare 1 "jobA" "030a1118" "5f5e1000" "0000000a" 0.

(** The header of Bitcoin's first block, without its nonce, and the nonce
    that block was found with. *)
Definition genesisHeader : list Z :=
  fst (Hex.DecodeString
    (String.append
       "0100000000000000000000000000000000000000000000000000000000000000000000003ba3edfd7a7b12b27ac72c3e67768f617fc81bc3888a51323a9fb8aa4b1e5e4a"
       "29ab5f49ffff001d00000000")).

Definition genesisNonce : Z := 0x7c2bac1d.

(** A job with no Merkle branch, whose target ("1c00ffff") is the
    difficulty-1 target over 256. *)
Definition jobB : Job :=
  mkJob "jobB"
        "00000000000000000000b4f5c1e2a3d4e5f60718293a4b5c6d7e8f9012345678"
        "01000000" "ffffffff" [] "20000000" "1c00ffff" "5f5e1000" false.

(** The draws 1, 2, 3, ... *)
Definition drawsB : nat -> Z := fun i => Z.of_nat i + 1.

(** Job number [i], told from the others by its id, the four hexadecimal
    digits of [i]; and the jobs 1 to 1000, in that order. *)
Definition jobN (i : nat) : Job :=
  mkJob (Hex.EncodeToString (SHA256.be_bytes 2 (Z.of_nat i)))
        "00000000000000000000b4f5c1e2a3d4e5f60718293a4b5c6d7e8f9012345678"
        "01000000" "ffffffff" [] "20000000" "207fffff" "5f5e1000" false.

Definition jobs1000 : list Job := map jobN (seq 1 1000).

(** The worker started with [extranonce2Size = 4], its mailbox empty; the
    same worker stopped; and started again. *)
Definition workerS : Worker :=
  mkWorker 1 "Worker A" true 0 None "81000001" "030a1118" 80 false [] 1.

(** A notify with eight parameters, one short. *)
Definition shortParams : list Json.value :=
  [Json.JString "jobA"; Json.JString "00"; Json.JString "01"; Json.JString "ff";
   Json.JArray []; Json.JString "20000000"; Json.JString "207fffff";
   Json.JString "5f5e1000"].

(** The calls of two mining sessions on one client: connect, subscribe,
    authorize and a share submitted; the stop, which closes the client and
    ends its read loop; the same handshake again. *)
Definition twoSessions (wallet : string) : list Stratum.call :=
  [CConnect true; CSubscribe; CAuthorize wallet "x";
   CSubmit wallet "jobA" "030a1118" "5f5e1000" "0000000a";
   CClose; CReadError;
   CConnect true; CSubscribe; CAuthorize wallet "x"].

(** The pool's answers to the second handshake. *)
Definition subscribeResult : Json.value :=
  Json.JArray [Json.JArray []; Json.JString "81000002"; Json.JNumber (S754_finite false 1 2) (Some 4)].

(** A configuration update with a port given as a string, a key the
    configuration does not have, and a CPU percentage of 50. *)
Definition updatesA : gmap string Json.value :=
  <["pool_port" := Json.JString "3334"]>
    (<["max_cpu_percent" := Json.JNumber (S754_finite false 25 1) (Some 50)]>
       (<["pool_url" := Json.JString "pool.example.org"]>
          (<["theme" := Json.JString "dark"]> ∅)))%string.

Definition workerStopped : Worker :=
  mkWorker 1 "Worker A" false 0 None "81000001" "030a1118" 80 true [] 1.

Definition workerRestarted : Worker :=
  mkWorker 1 "Worker A" true 0 None "81000001" "030a1118" 80 true [] 2.

End Scenario.

(** ** Reference readings of bytes *)

Module Endian.

(** The bytes read as a little-endian unsigned integer. *)
Definition littleEndian (buf : list Z) : Z :=
  fold_right (fun b acc => b + 256 * acc) 0 buf.

(** The bytes 0 to 255. *)
Definition allBytes : list Z := map Z.of_nat (seq 0 256).

End Endian.

(** ** Concrete inputs for the properties beyond the claims *)

Module Cases.

Import Stratum Miner.

(** A job whose coinbase1 holds an invalid digit after its first byte. *)
Definition jobBadCoinbase : Job :=
  mkJob "jobC"
        "00000000000000000000b4f5c1e2a3d4e5f60718293a4b5c6d7e8f9012345678"
        "01zz0000" "ffffffff" [] "20000000" "207fffff" "5f5e1000" false.

(** A job at difficulty 1, for batches that find nothing, and a job whose
    nbits is empty. *)
Definition jobHard : Job :=
  mkJob "jobD"
        "00000000000000000000b4f5c1e2a3d4e5f60718293a4b5c6d7e8f9012345678"
        "01000000" "ffffffff" [] "20000000" "1d00ffff" "5f5e1000" false.

Definition jobNoBits : Job :=
  mkJob "jobE"
        "00000000000000000000b4f5c1e2a3d4e5f60718293a4b5c6d7e8f9012345678"
        "01000000" "ffffffff" [] "20000000" "" "5f5e1000" false.


End Cases.

(** ** What a run of the client puts on the wire *)

Module Wire.

Import Stratum.

(** The calls that number a request. *)
Definition is_request (k : call) : bool :=
  match k with
  | CSubscribe | CAuthorize _ _ | CSubmit _ _ _ _ _ => true
  | _ => false
  end.

Definition requests (ks : list call) : Z :=
  Z.of_nat (length (List.filter is_request ks)).

(** The ids of the requests written, in the order they were written. *)
Definition sent_ids (effs : list effect) : list Z :=
  flat_map (fun e => match e with Sent req => [ReqID req] | _ => [] end) effs.


Definition closed : Client :=
  mkClient (Some SockClosed) "81000002" 4 true true None 2 true false 1.

(** Nine notify parameters, and two more. *)
Definition nineParams : list Json.value :=
  Scenario.shortParams ++ [Json.JBool true].

Definition moreParams : list Json.value :=
  [Json.JString "extra"; Json.JNull].

End Wire.

(** ** Reference reading of a float64 *)

Module Float64.

Import QArith.

(** What a [float64] stands for: a rational number or an infinity. *)
Inductive number :=
| NegInf
| Num (q : Q)
| PosInf.

(** The number of a [float64], [m * 2^e] for a finite one; none for what
    is not a number. *)
Definition value (x : Json.float64) : option number :=
  match x with
  | S754_nan => None
  | S754_infinity s => Some (if s then NegInf else PosInf)
  | S754_zero _ => Some (Num 0)
  | S754_finite s m e =>
      Some (Num (inject_Z (if s then Z.neg m else Z.pos m) * 2 ^ e))
  end.

Definition below (a b : number) : Prop :=
  match a, b with
  | NegInf, NegInf => False
  | NegInf, _ => True
  | Num p, Num q => p < q
  | Num _, PosInf => True
  | _, _ => False
  end.

(** The order of the numbers two [float64] stand for. *)
Definition lt (x y : Json.float64) : Prop :=
  match value x, value y with
  | Some a, Some b => below a b
  | _, _ => False
  end.

End Float64.

(** ** package stats: the collector *)

Module Stats.

(** The number a finite [float64] stands for, as a signed mantissa [m] and
    an exponent [e]: [m * 2^e]. *)
Definition mantissa_exponent (x : Json.float64) : Z * Z :=
  match x with
  | S754_finite s m e => (if s then Z.neg m else Z.pos m, e)
  | _ => (0, 0)
  end.

(** [x < y] as Go compares two [float64]: by the numbers they stand for,
    whatever the exponents they are written with; the two zeros are equal,
    the infinities are below and above every number, and nothing is below
    or above what is not a number. *)
Definition float64_lt (x y : Json.float64) : bool :=
  match x, y with
  | S754_nan, _ | _, S754_nan => false
  | S754_infinity sx, S754_infinity sy => sx && negb sy
  | S754_infinity sx, _ => sx
  | _, S754_infinity sy => negb sy
  | _, _ =>
      let (mx, ex) := mantissa_exponent x in
      let (my, ey) := mantissa_exponent y in
      let k := Z.min ex ey in
      mx * 2 ^ (ex - k) <? my * 2 ^ (ey - k)
  end.

Section WithTime.

(** [time.Time]: the instants come from outside, with the texts
    [EndSession] makes of them. *)
Variable time : Type.

Record ShareEntry := mkShareEntry {
  seTimestamp : time;
  seWorkerID : Z;
  seWorkerName : string;
  seJobID : string;
  seNonce : string;
  seDifficulty : Json.float64;
  seAccepted : bool }.

Record BlockEntry := mkBlockEntry {
  beTimestamp : time;
  beHeight : Z;
  bePrevHash : string }.

Record Session := mkSession {
  sID : string;
  sStartTime : time;
  sEndTime : time;
  sDuration : string;
  sTotalHashes : Z;
  sBestDifficulty : Json.float64 }.

Record PersistentData := mkPersistentData {
  pTotalHashes : Z;
  pTotalShares : Z;
  pAcceptedShares : Z;
  pRejectedShares : Z;
  pBestDifficulty : Json.float64;
  pTotalMiningSeconds : Json.float64;
  pShareHistory : list ShareEntry;
  pBlockHistory : list BlockEntry;
  pSessionHistory : list Session }.

Record Collector := mkCollector {
  totalHashes : Z;
  totalShares : Z;
  acceptedShares : Z;
  rejectedShares : Z;
  bestDifficulty : Json.float64;
  startTime : time;
  startHashes : Z;
  previousMiningSeconds : Json.float64;
  shareHistory : list ShareEntry;
  blockHistory : list BlockEntry;
  sessionHistory : list Session;
  maxHistorySize : Z }.

(** [Load] once the file is read: [None] stands for a file that is missing
    or does not decode, which leaves the collector as it is. *)
Definition Load (file : option PersistentData) (c : Collector) : Collector :=
  match file with
  | None => c
  | Some data =>
      mkCollector (pTotalHashes data) (pTotalShares data) (pAcceptedShares data)
                  (pRejectedShares data) (pBestDifficulty data) (startTime c)
                  (startHashes c) (pTotalMiningSeconds data) (pShareHistory data)
                  (pBlockHistory data) (pSessionHistory data) (maxHistorySize c)
  end.

Definition NewCollector (size : Z) (now : time)
    (file : option PersistentData) : Collector :=
  let size := if size <=? 0 then 1000 else size in
  let c := mkCollector 0 0 0 0 (S754_zero false) now 0 (S754_zero false)
                       [] [] [] size in
  let c := Load file c in
  mkCollector (totalHashes c) (totalShares c) (acceptedShares c) (rejectedShares c)
              (bestDifficulty c) (startTime c) (totalHashes c)
              (previousMiningSeconds c) (shareHistory c) (blockHistory c)
              (sessionHistory c) (maxHistorySize c).

(** [h = append(h, entry); if len(h) > max { h = h[1:] }]. *)
Definition push {A} (max : Z) (h : list A) (entry : A) : list A :=
  let h := h ++ [entry] in
  if max <? Z.of_nat (length h) then drop 1 h else h.

Definition AddShare (now : time) (workerID : Z) (workerName jobID nonce : string)
    (difficulty : Json.float64) (accepted : bool) (c : Collector) : Collector :=
  let entry := mkShareEntry now workerID workerName jobID nonce difficulty accepted in
  mkCollector (totalHashes c)
              (Big.to_int64 (totalShares c + 1))
              (if accepted then Big.to_int64 (acceptedShares c + 1) else acceptedShares c)
              (if accepted then rejectedShares c else Big.to_int64 (rejectedShares c + 1))
              (if float64_lt (bestDifficulty c) difficulty then difficulty
               else bestDifficulty c)
              (startTime c) (startHashes c) (previousMiningSeconds c)
              (push (maxHistorySize c) (shareHistory c) entry)
              (blockHistory c) (sessionHistory c) (maxHistorySize c).

Definition AddBlock (now : time) (height : Z) (prevHash : string) (c : Collector)
  : Collector :=
  mkCollector (totalHashes c) (totalShares c) (acceptedShares c) (rejectedShares c)
              (bestDifficulty c) (startTime c) (startHashes c)
              (previousMiningSeconds c) (shareHistory c)
              (push (maxHistorySize c) (blockHistory c)
                    (mkBlockEntry now height prevHash))
              (sessionHistory c) (maxHistorySize c).

Definition UpdateHashes (count : Z) (c : Collector) : Collector :=
  mkCollector count (totalShares c) (acceptedShares c) (rejectedShares c)
              (bestDifficulty c) (startTime c) (startHashes c)
              (previousMiningSeconds c) (shareHistory c) (blockHistory c)
              (sessionHistory c) (maxHistorySize c).

(** [EndSession]: [id] and [duration] are the texts made of the end time
    and of the time elapsed. *)
Definition EndSession (endTime : time) (id duration : string) (c : Collector)
  : Collector :=
  let sessionHashes := Big.to_uint (totalHashes c - startHashes c) in
  let session := mkSession id (startTime c) endTime duration sessionHashes
                           (bestDifficulty c) in
  mkCollector (totalHashes c) (totalShares c) (acceptedShares c) (rejectedShares c)
              (bestDifficulty c) (startTime c) (startHashes c)
              (previousMiningSeconds c) (shareHistory c) (blockHistory c)
              (push 50 (sessionHistory c) session) (maxHistorySize c).

(** [result[i], result[j] = result[j], result[i]]. *)
Definition swap {A} (i j : nat) (l : list A) : list A :=
  match l !! i, l !! j with
  | Some x, Some y => <[j := x]> (<[i := y]> l)
  | _, _ => l
  end.

(** [for i, j := 0, len(result)-1; i < j; i, j = i+1, j-1 { swap }]. *)
Fixpoint reverse_loop {A} (fuel : nat) (i j : Z) (l : list A) : list A :=
  match fuel with
  | O => l
  | S fuel' =>
      if i <? j
      then reverse_loop fuel' (i + 1) (j - 1) (swap (Z.to_nat i) (Z.to_nat j) l)
      else l
  end.

(** The body the three history getters share: the [limit] latest entries,
    copied and reversed in place. The copy fills the whole result, whose
    length is that of the slice copied from. *)
Definition recent {A} (limit : Z) (h : list A) : list A :=
  let len := Z.of_nat (length h) in
  let limit := if (limit <=? 0) || (len <? limit) then len else limit in
  let start := len - limit in
  let start := if start <? 0 then 0 else start in
  let result := take (Z.to_nat limit) (drop (Z.to_nat start) h) in
  reverse_loop (length result) 0 (Z.of_nat (length result) - 1) result.

Definition GetShareHistory (limit : Z) (c : Collector) : list ShareEntry :=
  recent limit (shareHistory c).

Definition GetBlockHistory (limit : Z) (c : Collector) : list BlockEntry :=
  recent limit (blockHistory c).

Definition GetSessionHistory (limit : Z) (c : Collector) : list Session :=
  recent limit (sessionHistory c).

Definition GetBestDifficulty (c : Collector) : Json.float64 := bestDifficulty c.

Definition Reset (now : time) (c : Collector) : Collector :=
  mkCollector 0 0 0 0 (S754_zero false) now (startHashes c) (S754_zero false)
              [] [] (sessionHistory c) (maxHistorySize c).

(** The shares of a run, as [AddShare] takes them, and the run. *)
Record share_call := mkShareCall {
  scNow : time;
  scWorkerID : Z;
  scWorkerName : string;
  scJobID : string;
  scNonce : string;
  scDifficulty : Json.float64;
  scAccepted : bool }.

Definition entry_of (s : share_call) : ShareEntry :=
  mkShareEntry (scNow s) (scWorkerID s) (scWorkerName s) (scJobID s) (scNonce s)
               (scDifficulty s) (scAccepted s).

Definition AddShares (ss : list share_call) (c : Collector) : Collector :=
  fold_left
    (fun c s => AddShare (scNow s) (scWorkerID s) (scWorkerName s) (scJobID s)
                         (scNonce s) (scDifficulty s) (scAccepted s) c)
    ss c.

End WithTime.

Arguments mkShareEntry {time}.
Arguments mkBlockEntry {time}.
Arguments mkSession {time}.
Arguments mkPersistentData {time}.
Arguments mkCollector {time}.
Arguments mkShareCall {time}.
Arguments seTimestamp {time}.
Arguments seAccepted {time}.
Arguments seDifficulty {time}.
Arguments sTotalHashes {time}.
Arguments sBestDifficulty {time}.
Arguments pTotalHashes {time}.
Arguments pBestDifficulty {time}.
Arguments pShareHistory {time}.
Arguments pSessionHistory {time}.
Arguments totalHashes {time}.
Arguments totalShares {time}.
Arguments acceptedShares {time}.
Arguments rejectedShares {time}.
Arguments bestDifficulty {time}.
Arguments startTime {time}.
Arguments startHashes {time}.
Arguments previousMiningSeconds {time}.
Arguments shareHistory {time}.
Arguments blockHistory {time}.
Arguments sessionHistory {time}.
Arguments maxHistorySize {time}.
Arguments scDifficulty {time}.
Arguments scAccepted {time}.
Arguments Load {time}.
Arguments NewCollector {time}.
Arguments AddShare {time}.
Arguments AddBlock {time}.
Arguments UpdateHashes {time}.
Arguments EndSession {time}.
Arguments GetShareHistory {time}.
Arguments GetBlockHistory {time}.
Arguments GetSessionHistory {time}.
Arguments GetBestDifficulty {time}.
Arguments Reset {time}.
Arguments entry_of {time}.
Arguments AddShares {time}.

End Stats.

(** ** Collectors and shares to run the statistics on *)

Module StatsCases.

(** Instants are counted in seconds. *)
Definition share (t : Z) (difficulty : Json.float64) (ok : bool)
  : Stats.share_call Z :=
  Stats.mkShareCall t 1 "Worker A" "job" "0000002a" difficulty ok.

Definition threeShares : list (Stats.share_call Z) :=
  [share 1 (S754_finite false 1 0) true;
   share 2 (S754_finite false 3 0) false;
   share 3 (S754_finite false 1 1) true].

(** A collector that keeps two entries, with no file to load. *)
Definition small : Stats.Collector Z := Stats.NewCollector 2 0 None.

(** A file of an earlier process that had counted a thousand hashes. *)
Definition saved : Stats.PersistentData Z :=
  Stats.mkPersistentData 1000 0 0 0 (S754_zero false) (S754_zero false) [] [] [].

End StatsCases.

(** ** package miner: the manager *)

Module Manager.

(** [workers] maps an id to the worker it points to. *)
Record Manager := mkManager {
  workers : gmap Z Miner.Worker;
  nextID : Z;
  cpuPercent : Z;
  extranonce1 : string;
  extranonce2Size : Z }.

Definition NewManager : Manager := mkManager ∅ 1 80 String.EmptyString 0.

Definition set_workers (m : Manager) (ws : gmap Z Miner.Worker) : Manager :=
  mkManager ws (nextID m) (cpuPercent m) (extranonce1 m) (extranonce2Size m).

Definition SetStratumData (e1 : string) (size : Z) (m : Manager) : Manager :=
  mkManager (workers m) (nextID m) (cpuPercent m) e1 size.

(** [rune(x)] of an [int]: the low 32 bits, signed. *)
Definition to_int32 (x : Z) : Z := (x + 2 ^ 31) mod 2 ^ 32 - 2 ^ 31.

(** [string(r)] of a rune: the UTF-8 encoding of the code point, and that
    of U+FFFD for a rune that is none. *)
Definition encoderune (r : Z) : list Z :=
  if (r <? 0) || (0x10FFFF <? r) || ((0xD800 <=? r) && (r <=? 0xDFFF))
  then [0xEF; 0xBF; 0xBD]
  else if r <? 0x80 then [r]
  else if r <? 0x800
  then [Z.lor 0xC0 (Z.shiftr r 6); Z.lor 0x80 (Z.land r 0x3F)]
  else if r <? 0x10000
  then [Z.lor 0xE0 (Z.shiftr r 12);
        Z.lor 0x80 (Z.land (Z.shiftr r 6) 0x3F);
        Z.lor 0x80 (Z.land r 0x3F)]
  else [Z.lor 0xF0 (Z.shiftr r 18);
        Z.lor 0x80 (Z.land (Z.shiftr r 12) 0x3F);
        Z.lor 0x80 (Z.land (Z.shiftr r 6) 0x3F);
        Z.lor 0x80 (Z.land r 0x3F)].

Definition string_of_rune (r : Z) : string :=
  String.string_of_list_ascii
    (map (fun b => ascii_of_nat (Z.to_nat b)) (encoderune r)).

(** ["Worker " + string(rune('A'+id-1))]. *)
Definition defaultName (id : Z) : string :=
  String.append "Worker "
    (string_of_rune (to_int32 (Big.to_int64 (Big.to_int64 (65 + id) - 1)))).

(** [AddWorker]: the worker is put in the map and then started, through
    the pointer the map holds too. *)
Definition AddWorker (name : string) (rnd : nat -> Z) (m : Manager)
  : outcome (Manager * Miner.Worker) :=
  let id := nextID m in
  let next := Big.to_int64 (id + 1) in
  let name := if String.eqb name String.EmptyString then defaultName id else name in
  let worker := Miner.NewWorker id name (cpuPercent m) in
  let store (w : Miner.Worker) :=
    (mkManager (<[id := w]> (workers m)) next (cpuPercent m) (extranonce1 m)
               (extranonce2Size m), w) in
  if String.eqb (extranonce1 m) String.EmptyString then Returns (store worker)
  else
    match Miner.Start (extranonce1 m) (extranonce2Size m) rnd worker with
    | Returns w => Returns (store w)
    | Blocks => Blocks
    | Panics => Panics
    end.

Definition RemoveWorker (id : Z) (m : Manager) : outcome (Manager * bool) :=
  match workers m !! id with
  | None => Returns (m, false)
  | Some worker =>
      match Miner.Stop worker with
      | Returns _ => Returns (set_workers m (delete id (workers m)), true)
      | Blocks => Blocks
      | Panics => Panics
      end
  end.

Definition GetWorker (id : Z) (m : Manager) : option Miner.Worker :=
  workers m !! id.

(** Go leaves open the order in which [range] meets the keys of a map: the
    order is an argument of what iterates, a list of the keys without
    repetition. *)
Definition iteration_order (order : list Z) (m : Manager) : Prop :=
  NoDup order /\ (list_to_set order : gset Z) = dom (workers m).


(** [for _, w := range workers { f(w) }] on the workers the ids point to. *)
Fixpoint for_workers (f : Miner.Worker -> outcome Miner.Worker) (order : list Z)
    (ws : gmap Z Miner.Worker) : outcome (gmap Z Miner.Worker) :=
  match order with
  | [] => Returns ws
  | id :: rest =>
      match ws !! id with
      | None => for_workers f rest ws
      | Some w =>
          match f w with
          | Returns w' => for_workers f rest (<[id := w']> ws)
          | Blocks => Blocks
          | Panics => Panics
          end
      end
  end.

Definition lift (m : Manager) (r : outcome (gmap Z Miner.Worker)) : outcome Manager :=
  match r with
  | Returns ws => Returns (set_workers m ws)
  | Blocks => Blocks
  | Panics => Panics
  end.

Definition SetCPUPercent (percent : Z) (order : list Z) (m : Manager)
  : outcome Manager :=
  let m := mkManager (workers m) (nextID m) percent (extranonce1 m)
                     (extranonce2Size m) in
  lift m (for_workers (fun w => Returns (Miner.SetCPUPercent percent w)) order
                      (workers m)).


(** [StartAll]: [rnd id] are the draws the worker [id] gets. *)
Definition StartAll (rnd : Z -> nat -> Z) (order : list Z) (m : Manager)
  : outcome Manager :=
  lift m (for_workers
            (fun w => if Miner.IsRunning w then Returns w
                      else Miner.Start (extranonce1 m) (extranonce2Size m)
                                       (rnd (Miner.WID w)) w)
            order (workers m)).

Definition StopAll (order : list Z) (m : Manager) : outcome Manager :=
  lift m (for_workers Miner.Stop order (workers m)).

Definition BroadcastJob (job : Stratum.Job) (order : list Z) (m : Manager)
  : outcome Manager :=
  lift m (for_workers (Miner.UpdateJob job) order (workers m)).

Definition WorkerCount (m : Manager) : Z := Z.of_nat (size (workers m)).

(** A session of calls on one manager, and the ids [AddWorker] gave out. *)
Inductive action :=
| AAddWorker (name : string) (rnd : nat -> Z)
| ARemoveWorker (id : Z)
| ASetStratumData (e1 : string) (size : Z)
| ASetCPUPercent (percent : Z) (order : list Z)
| AStartAll (rnd : Z -> nat -> Z) (order : list Z)
| AStopAll (order : list Z)
| ABroadcastJob (job : Stratum.Job) (order : list Z).

Definition given (A B : Type) (f : A -> B) (r : outcome A) : outcome B :=
  match r with
  | Returns a => Returns (f a)
  | Blocks => Blocks
  | Panics => Panics
  end.
Arguments given {A B} f r.

Definition act (a : action) (m : Manager) : outcome (Manager * list Z) :=
  match a with
  | AAddWorker name rnd =>
      given (fun r => (fst r, [Miner.WID (snd r)])) (AddWorker name rnd m)
  | ARemoveWorker id => given (fun r => (fst r, [])) (RemoveWorker id m)
  | ASetStratumData e1 size => Returns (SetStratumData e1 size m, [])
  | ASetCPUPercent percent order =>
      given (fun m => (m, [])) (SetCPUPercent percent order m)
  | AStartAll rnd order => given (fun m => (m, [])) (StartAll rnd order m)
  | AStopAll order => given (fun m => (m, [])) (StopAll order m)
  | ABroadcastJob job order => given (fun m => (m, [])) (BroadcastJob job order m)
  end.

Fixpoint run (acts : list action) (m : Manager) : outcome (Manager * list Z) :=
  match acts with
  | [] => Returns (m, [])
  | a :: rest =>
      match act a m with
      | Returns (m1, ids1) =>
          given (fun r => (fst r, ids1 ++ snd r)) (run rest m1)
      | Blocks => Blocks
      | Panics => Panics
      end
  end.

Definition is_add (a : action) : bool :=
  match a with AAddWorker _ _ => true | _ => false end.

(** The ids in use are those given out so far, and each worker is under
    its own. *)
Definition ids_below (n : Z) (m : Manager) : Prop :=
  nextID m = n + 1 /\
  forall id w, workers m !! id = Some w -> 1 <= id <= n /\ Miner.WID w = id.

End Manager.

(** ** Managers to run *)

Module ManagerCases.

Import Manager.

(** A session that subscribes, adds two workers, removes the first, adds a
    third, and stops them all. *)
Definition session : list action :=
  [ASetStratumData "ab01" 4;
   AAddWorker String.EmptyString Scenario.draws;
   AAddWorker "rig" Scenario.draws;
   ARemoveWorker 1;
   AAddWorker String.EmptyString Scenario.drawsB;
   AStopAll [3; 2]].

Definition after (acts : list action) : Manager :=
  match run acts NewManager with
  | Returns (m, _) => m
  | _ => NewManager
  end.

(** The manager after the session, and one with two workers at work. *)
Definition stopped : Manager := after session.

Definition twoWorkers : Manager :=
  after [ASetStratumData "ab01" 4;
         AAddWorker String.EmptyString Scenario.draws;
         AAddWorker "rig" Scenario.drawsB].

End ManagerCases.

(** ** package api: the WebSocket hub *)

Module Hub.

Section WithJSON.

(** What an event carries, and [json.Marshal] on an event: [None] when the
    data cannot be encoded. *)
Variable data : Type.

Record event := mkEvent {
  evType : string;
  evData : data;
  evTimestamp : Z }.

Variable Marshal : event -> option (list Z).

(** A client is its [send] channel: the messages buffered, oldest first,
    and whether the channel is closed. *)
Record WSClient := mkClient {
  send : list (list Z);
  closed : bool }.

(** The capacity [make(chan []byte, 256)] gives the channel. *)
Definition sendCap : nat := 256.

(** [heap] holds the clients the pointers point to; [clients] the pointers
    the hub has in its map. *)
Record WSHub := mkHub {
  heap : gmap Z WSClient;
  clients : gset Z;
  logHistory : list event }.

Definition NewWSHub : WSHub := mkHub ∅ ∅ [].

(** [ch <- m]: waits while the buffer is full, panics on a closed channel. *)
Definition chan_send (cl : WSClient) (m : list Z) : outcome WSClient :=
  if closed cl then Panics
  else if (length (send cl) <? sendCap)%nat
       then Returns (mkClient (send cl ++ [m]) false)
       else Blocks.

(** [select { case ch <- m: default: }]. *)
Definition chan_try_send (cl : WSClient) (m : list Z) : outcome WSClient :=
  if closed cl then Panics
  else if (length (send cl) <? sendCap)%nat
       then Returns (mkClient (send cl ++ [m]) false)
       else Returns cl.

(** The loop of [AddClient] over the log history. *)
Fixpoint replay (entries : list event) (cl : WSClient) : outcome WSClient :=
  match entries with
  | [] => Returns cl
  | e :: rest =>
      match Marshal e with
      | None => replay rest cl
      | Some m =>
          match chan_send cl m with
          | Returns cl' => replay rest cl'
          | Blocks => Blocks
          | Panics => Panics
          end
      end
  end.

(** [AddClient]: the pointer goes into the map first. With nothing to
    send the client is not touched. *)
Definition AddClient (c : Z) (h : WSHub) : outcome WSHub :=
  match omap Marshal (logHistory h), heap h !! c with
  | [], _ => Returns (mkHub (heap h) ({[c]} ∪ clients h) (logHistory h))
  | _, None => Panics
  | _, Some cl =>
      match replay (logHistory h) cl with
      | Returns cl' =>
          Returns (mkHub (<[c := cl']> (heap h)) ({[c]} ∪ clients h) (logHistory h))
      | Blocks => Blocks
      | Panics => Panics
      end
  end.

(** [RemoveClient]: closing a channel that is closed panics. *)
Definition RemoveClient (c : Z) (h : WSHub) : outcome WSHub :=
  if decide (c ∈ clients h)
  then match heap h !! c with
       | None => Panics
       | Some cl =>
           if closed cl then Panics
           else Returns (mkHub (<[c := mkClient (send cl) true]> (heap h))
                               (clients h ∖ {[c]}) (logHistory h))
       end
  else Returns h.

(** The loop of [Broadcast] over the clients in the order met. *)
Fixpoint broadcast_to (m : list Z) (order : list Z) (hp : gmap Z WSClient)
  : outcome (gmap Z WSClient) :=
  match order with
  | [] => Returns hp
  | c :: rest =>
      match hp !! c with
      | None => Panics
      | Some cl =>
          match chan_try_send cl m with
          | Returns cl' => broadcast_to m rest (<[c := cl']> hp)
          | Blocks => Blocks
          | Panics => Panics
          end
      end
  end.

(** [Broadcast]: Go leaves open the order in which [range] meets the keys
    of the map; [pick] makes it of the keys. *)
Definition Broadcast (m : list Z) (pick : list Z -> list Z) (h : WSHub)
  : outcome WSHub :=
  match broadcast_to m (pick (elements (clients h))) (heap h) with
  | Returns hp => Returns (mkHub hp (clients h) (logHistory h))
  | Blocks => Blocks
  | Panics => Panics
  end.

(** [BroadcastEvent]: [now] is [time.Now().UnixMilli()]. *)
Definition BroadcastEvent (eventType : string) (d : data) (now : Z)
    (pick : list Z -> list Z) (h : WSHub) : outcome WSHub :=
  let ev := mkEvent eventType d now in
  let h :=
    if String.eqb eventType "log"
    then mkHub (heap h) (clients h) (Stats.push 50 (logHistory h) ev)
    else h in
  match Marshal ev with
  | None => Returns h
  | Some m => Broadcast m pick h
  end.

Definition ClientCount (h : WSHub) : Z := Z.of_nat (size (clients h)).

(** [HandleWebSocket]: [upgraded] tells whether the upgrade of the
    connection went through; the client made then is at a pointer that is
    not in use. *)
Definition HandleWebSocket (upgraded : bool) (h : WSHub)
  : outcome (WSHub * option Z) :=
  if upgraded
  then
    let c := fresh (dom (heap h)) in
    let h := mkHub (<[c := mkClient [] false]> (heap h)) (clients h)
                   (logHistory h) in
    match AddClient c h with
    | Returns h' => Returns (h', Some c)
    | Blocks => Blocks
    | Panics => Panics
    end
  else Returns (h, None).

(** [writePump] taking a message from the channel of its client. *)
Definition receive (c : Z) (h : WSHub) : WSHub :=
  match heap h !! c with
  | Some cl =>
      mkHub (<[c := mkClient (drop 1 (send cl)) (closed cl)]> (heap h))
            (clients h) (logHistory h)
  | None => h
  end.

(** What happens to a hub: a connection comes in, [readPump] ends and
    removes its client, an event or a message is broadcast, [writePump]
    takes a message. *)
Inductive action :=
| AConnect (upgraded : bool)
| ADisconnect (c : Z)
| AEvent (eventType : string) (d : data) (now : Z) (pick : list Z -> list Z)
| AMessage (m : list Z) (pick : list Z -> list Z)
| AReceive (c : Z).

Definition act (a : action) (h : WSHub) : outcome WSHub :=
  match a with
  | AConnect upgraded =>
      match HandleWebSocket upgraded h with
      | Returns (h', _) => Returns h'
      | Blocks => Blocks
      | Panics => Panics
      end
  | ADisconnect c => RemoveClient c h
  | AEvent eventType d now pick => BroadcastEvent eventType d now pick h
  | AMessage m pick => Broadcast m pick h
  | AReceive c => Returns (receive c h)
  end.

Fixpoint run (acts : list action) (h : WSHub) : outcome WSHub :=
  match acts with
  | [] => Returns h
  | a :: rest =>
      match act a h with
      | Returns h' => run rest h'
      | Blocks => Blocks
      | Panics => Panics
      end
  end.

(** The log events of a run, in order. *)
Definition logs_of (acts : list action) : list event :=
  omap (fun a => match a with
                 | AEvent eventType d now _ =>
                     if String.eqb eventType "log"
                     then Some (mkEvent eventType d now) else None
                 | _ => None
                 end) acts.

(** The orders a run iterates in are orders of the keys. *)
Definition picks_permute (acts : list action) : Prop :=
  Forall (fun a => match a with
                   | AEvent _ _ _ pick | AMessage _ pick =>
                       forall l : list Z, pick l ≡ₚ l
                   | _ => True
                   end) acts.

(** Every client of the map has an open channel, and the log history is
    within its bound. *)
Definition sound (h : WSHub) : Prop :=
  (forall c, c ∈ clients h ->
     exists cl, heap h !! c = Some cl /\ closed cl = false) /\
  (length (logHistory h) <= 50)%nat.

End WithJSON.

Arguments mkEvent {data}.
Arguments evType {data}.
Arguments NewWSHub {data}.
Arguments mkHub {data}.
Arguments heap {data}.
Arguments clients {data}.
Arguments logHistory {data}.
Arguments AddClient {data}.
Arguments RemoveClient {data}.
Arguments Broadcast {data}.
Arguments BroadcastEvent {data}.
Arguments ClientCount {data}.
Arguments HandleWebSocket {data}.
Arguments receive {data}.
Arguments replay {data}.
Arguments AConnect {data}.
Arguments ADisconnect {data}.
Arguments AEvent {data}.
Arguments AMessage {data}.
Arguments AReceive {data}.
Arguments act {data}.
Arguments run {data}.
Arguments logs_of {data}.
Arguments picks_permute {data}.
Arguments sound {data}.

End Hub.

(** ** Hubs to run *)

Module HubCases.

(** Events whose data is a text; an event encodes to the codes of its
    type, and an event with no type to nothing. *)
Definition Marshal (e : Hub.event string) : option (list Z) :=
  if String.eqb (Hub.evType e) String.EmptyString then None
  else Some (map (fun a => Z.of_nat (nat_of_ascii a))
                 (String.list_ascii_of_string (Hub.evType e))).

(** A hub with one client, whose channel is empty, and one log entry. *)
Definition oneClient : Hub.WSHub string :=
  Hub.mkHub {[ 7 := Hub.mkClient [] false ]} {[ 7 ]}
            [Hub.mkEvent "log" "started" 1000].

(** A connection, a log event, a statistics event, and the client gone. *)
Definition session : list (Hub.action string) :=
  [Hub.AConnect true;
   Hub.AEvent "log" "started" 1000 (fun l => l);
   Hub.AEvent "stats" "12 H/s" 2000 (fun l => l);
   Hub.AReceive 0;
   Hub.ADisconnect 0;
   Hub.AConnect true].

End HubCases.

(** * Properties *)

(** ** Hexadecimal text *)

Section HexFacts.

Lemma fromHexChar_range c v :
  Hex.fromHexChar c = Some v -> 0 <= v < 16.
Proof.
  unfold Hex.fromHexChar.
  repeat (case_match; [intros [= <-]; lia|]).
  discriminate.
Qed.

Lemma nibbles_byte a b :
  0 <= a < 16 -> 0 <= b < 16 -> 0 <= Z.lor (Z.shiftl a 4) b < 256.
Proof.
  intros Ha Hb.
  assert (Hs : 0 <= Z.shiftl a 4 < 256).
  { rewrite Z.shiftl_mul_pow2 by lia. lia. }
  split.
  - apply Z.lor_nonneg. lia.
  - destruct (Z.eq_dec (Z.lor (Z.shiftl a 4) b) 0) as [->|Hne]; [lia|].
    apply (Z.log2_lt_pow2 _ 8); [|].
    + assert (0 <= Z.lor (Z.shiftl a 4) b) by (apply Z.lor_nonneg; lia). lia.
    + rewrite Z.log2_lor by lia.
      apply Z.max_lub_lt.
      * destruct (Z.eq_dec (Z.shiftl a 4) 0) as [->|]; [reflexivity|].
        apply Z.log2_lt_pow2; lia.
      * destruct (Z.eq_dec b 0) as [->|]; [reflexivity|].
        apply Z.log2_lt_pow2; lia.
Qed.

Lemma Decode_bytes src :
  Forall (fun b => 0 <= b < 256) (fst (Hex.Decode src)).
Proof.
  remember (length src) as n eqn:Hn. revert src Hn.
  induction n as [n IH] using lt_wf_ind. intros src ->.
  destruct src as [|p [|q rest]]; simpl.
  - constructor.
  - destruct (Hex.fromHexChar p); constructor.
  - destruct (Hex.fromHexChar p) as [a|] eqn:Ha; [|constructor].
    destruct (Hex.fromHexChar q) as [b|] eqn:Hb; [|constructor].
    simpl. constructor.
    + apply nibbles_byte; eauto using fromHexChar_range.
    + apply (IH (length rest)); [simpl; lia | reflexivity].
Qed.

Lemma Encode_length src :
  length (Hex.Encode src) = (2 * length src)%nat.
Proof. induction src as [|v rest IH]; simpl; lia. Qed.

Lemma string_of_list_length l :
  String.length (String.string_of_list_ascii l) = length l.
Proof. induction l as [|c l IH]; simpl; congruence. Qed.

Lemma EncodeToString_length src :
  String.length (Hex.EncodeToString src) = (2 * length src)%nat.
Proof.
  unfold Hex.EncodeToString. now rewrite string_of_list_length, Encode_length.
Qed.

End HexFacts.

(** ** The digest *)

(** Known answers: FIPS 180-4 "abc", and the double digest of the empty
    input. *)
Example sha256_abc :
  Hex.EncodeToString (SHA256.Sum256 [97; 98; 99]) =
  "ba7816bf8f01cfea414140de5dae2223b00361a396177a9cb410ff61f20015ad"%string.
Proof. vm_compute. reflexivity. Qed.

Example double_sha256_empty :
  Hex.EncodeToString (SHA256.Sum256 (SHA256.Sum256 [])) =
  "5df6e0e2761359d30a8275058e299fcc0381534545f55cf43e41983f5d4c9456"%string.
Proof. vm_compute. reflexivity. Qed.

Lemma be_bytes_length n x : length (SHA256.be_bytes n x) = n.
Proof. unfold SHA256.be_bytes. now rewrite length_map, length_rev, length_seq. Qed.

Lemma Sum256_length msg : length (SHA256.Sum256 msg) = 32%nat.
Proof.
  unfold SHA256.Sum256. cbv zeta.
  rewrite !length_app, !be_bytes_length. reflexivity.
Qed.

(** ** Integer conversions *)

Section BigFacts.

Lemma Int64_small x : 0 <= x < 2 ^ 63 -> Big.Int64 x = x.
Proof.
  intros Hx. unfold Big.Int64, Big.to_int64.
  rewrite Z.abs_eq by lia.
  destruct (Z.ltb_spec x 0); [lia|].
  rewrite (Z.mod_small x) by lia.
  rewrite Z.mod_small by lia. lia.
Qed.

Lemma float64_of_int64_exact x : Z.abs x < 2 ^ 53 -> Big.float64_of_int64 x = x.
Proof.
  intros Hx. unfold Big.float64_of_int64.
  destruct (Z.ltb_spec (Z.abs x) (2 ^ 53)); [reflexivity | lia].
Qed.

(** The rounded quotient is the quotient or the next integer. *)
Lemma round_even_cases e a :
  Big.round_even e a = a / 2 ^ e * 2 ^ e \/
  Big.round_even e a = (a / 2 ^ e + 1) * 2 ^ e.
Proof. unfold Big.round_even. repeat case_match; auto. Qed.

(** Rounding at one scale is monotone. *)
Lemma round_even_mono e a b :
  0 <= e -> a <= b -> Big.round_even e a <= Big.round_even e b.
Proof.
  intros He Hab.
  assert (Hp : 0 < 2 ^ e) by (apply Z.pow_pos_nonneg; lia).
  assert (Hq : a / 2 ^ e <= b / 2 ^ e) by (apply Z.div_le_mono; lia).
  apply Z.mul_le_mono_nonneg_r; [lia|].
  destruct (Z.eq_dec (a / 2 ^ e) (b / 2 ^ e)) as [Heq|Hne].
  - assert (Hr : a mod 2 ^ e <= b mod 2 ^ e).
    { pose proof (Z.div_mod a (2 ^ e)). pose proof (Z.div_mod b (2 ^ e)).
      rewrite Heq in *. lia. }
    rewrite Heq.
    repeat case_match; lia.
  - assert (a / 2 ^ e + 1 <= b / 2 ^ e) by lia.
    repeat case_match; lia.
Qed.

(** From 2^53 on, rounding to 53 bits stays between the powers of two
    around the argument. *)
Lemma round_even_bounds a :
  2 ^ 53 <= a ->
  2 ^ Z.log2 a <= Big.round_even (Z.log2 a - 52) a <= 2 ^ (Z.log2 a + 1).
Proof.
  intros Ha.
  assert (HL : 53 <= Z.log2 a) by (apply Z.log2_le_pow2; lia).
  pose proof (Z.log2_spec a ltac:(lia)) as [Hlo Hhi].
  set (e := Z.log2 a - 52) in *.
  assert (Hp : 0 < 2 ^ e) by (apply Z.pow_pos_nonneg; lia).
  assert (E1 : 2 ^ Z.log2 a = 2 ^ 52 * 2 ^ e).
  { rewrite <- Z.pow_add_r by lia. f_equal. lia. }
  assert (E2 : 2 ^ (Z.log2 a + 1) = 2 ^ 53 * 2 ^ e).
  { rewrite <- Z.pow_add_r by lia. f_equal. lia. }
  replace (Z.succ (Z.log2 a)) with (Z.log2 a + 1) in Hhi by lia.
  assert (Hq1 : 2 ^ 52 <= a / 2 ^ e).
  { apply Z.div_le_lower_bound; lia. }
  assert (Hq2 : a / 2 ^ e < 2 ^ 53).
  { apply Z.div_lt_upper_bound; lia. }
  rewrite E1, E2.
  destruct (round_even_cases e a) as [-> | ->]; split;
    apply Z.mul_le_mono_nonneg_r; lia.
Qed.

(** The conversion to a double is monotone on the nonnegative integers. *)
Lemma float64_of_int64_mono x y :
  0 <= x <= y -> Big.float64_of_int64 x <= Big.float64_of_int64 y.
Proof.
  intros [Hx Hxy]. unfold Big.float64_of_int64.
  rewrite !Z.abs_eq by lia.
  destruct (Z.ltb_spec x (2 ^ 53)) as [Hx53|Hx53];
    destruct (Z.ltb_spec y (2 ^ 53)) as [Hy53|Hy53]; try lia.
  - pose proof (round_even_bounds y Hy53) as [Hlo _].
    assert (53 <= Z.log2 y) by (apply Z.log2_le_pow2; lia).
    assert (2 ^ 53 <= 2 ^ Z.log2 y) by (apply Z.pow_le_mono_r; lia).
    rewrite Z.sgn_pos by lia. lia.
  - rewrite !Z.sgn_pos by lia. rewrite !Z.mul_1_l.
    pose proof (Z.log2_le_mono x y Hxy) as HL.
    destruct (Z.eq_dec (Z.log2 x) (Z.log2 y)) as [Heq|Hne].
    + rewrite Heq. apply round_even_mono; [|lia].
      assert (53 <= Z.log2 y) by (apply Z.log2_le_pow2; lia). lia.
    + pose proof (round_even_bounds x Hx53) as [_ Hhi].
      pose proof (round_even_bounds y Hy53) as [Hlo _].
      assert (2 ^ (Z.log2 x + 1) <= 2 ^ Z.log2 y) by (apply Z.pow_le_mono_r; lia).
      lia.
Qed.

Lemma float64_of_int64_nonneg x : 0 <= x -> 0 <= Big.float64_of_int64 x.
Proof.
  intros Hx. change 0 with (Big.float64_of_int64 0) at 1.
  apply float64_of_int64_mono. lia.
Qed.

End BigFacts.

(** ** The block header *)

Section HeaderFacts.

Import Stratum Miner.

Variable Sum256 : list Z -> list Z.
Hypothesis Sum256_len : forall msg, length (Sum256 msg) = 32%nat.

Lemma slot_length n src : length (slot n src) = n.
Proof. unfold slot. rewrite length_app, length_take, length_replicate. lia. Qed.

Lemma slot_exact n src : length src = n -> slot n src = src.
Proof.
  intros <-. unfold slot.
  rewrite firstn_all, Nat.sub_diag. simpl. apply app_nil_r.
Qed.

(** Copying into a zeroed slot that follows [pre]. *)
Lemma copy_at_slot pre post n src :
  copy_at (length pre) n (pre ++ replicate n 0 ++ post) src =
  pre ++ slot n src ++ post.
Proof.
  unfold copy_at, slot.
  rewrite take_app_length.
  rewrite drop_app_add.
  assert (Hk : (Nat.min n (length src) <= n)%nat) by lia.
  replace (take (Nat.min n (length src)) src) with (take n src).
  2:{ destruct (Nat.le_gt_cases n (length src)).
      - now rewrite Nat.min_l by lia.
      - rewrite Nat.min_r by lia. now rewrite !take_ge by lia. }
  f_equal. rewrite <- app_assoc. f_equal.
  rewrite drop_app_le by (rewrite length_replicate; lia).
  rewrite drop_replicate. do 2 f_equal. lia.
Qed.

Lemma merkleRoot_length job e1 e2 :
  length (merkleRoot Sum256 job e1 e2) = 32%nat.
Proof.
  unfold merkleRoot.
  assert (H0 : length (doubleSHA256 Sum256 (coinbaseBytes job e1 e2)) = 32%nat)
    by apply Sum256_len.
  revert H0. generalize (doubleSHA256 Sum256 (coinbaseBytes job e1 e2)).
  induction (MerkleBranch job) as [|b bs IH]; intros root Hroot; simpl.
  - exact Hroot.
  - apply IH. apply Sum256_len.
Qed.

(** The header as the concatenation of its six fields. *)
Lemma blockHeader_fields job e1 e2 :
  blockHeader Sum256 job e1 e2 =
  slot 4 (fst (Hex.DecodeString (Version job))) ++
  slot 32 (fst (Hex.DecodeString (PrevHash job))) ++
  reverseBytes (merkleRoot Sum256 job e1 e2) ++
  slot 4 (fst (Hex.DecodeString (NTime job))) ++
  slot 4 (fst (Hex.DecodeString (NBits job))) ++
  [0; 0; 0; 0].
Proof.
  unfold blockHeader. cbv zeta.
  set (version := fst (Hex.DecodeString (Version job))).
  set (prevHash := fst (Hex.DecodeString (PrevHash job))).
  set (ntime := fst (Hex.DecodeString (NTime job))).
  set (nbits := fst (Hex.DecodeString (NBits job))).
  set (root := reverseBytes (merkleRoot Sum256 job e1 e2)).
  assert (Hroot : slot 32 root = root).
  { apply slot_exact. unfold root, reverseBytes.
    rewrite length_rev. apply merkleRoot_length. }
  change (replicate 80 0) with
    ([] ++ replicate 4 0 ++ (replicate 32 0 ++ replicate 32 0 ++
                             replicate 4 0 ++ replicate 4 0 ++ replicate 4 0)).
  rewrite (copy_at_slot [] _ 4 version), app_nil_l.
  pose proof (copy_at_slot (slot 4 version)
                (replicate 32 0 ++ replicate 4 0 ++ replicate 4 0 ++ replicate 4 0)
                32 prevHash) as E1.
  rewrite slot_length in E1. rewrite E1. clear E1.
  pose proof (copy_at_slot (slot 4 version ++ slot 32 prevHash)
                (replicate 4 0 ++ replicate 4 0 ++ replicate 4 0)
                32 root) as E2.
  rewrite length_app, !slot_length in E2. simpl Nat.add in E2.
  rewrite <- !app_assoc in E2. rewrite E2. clear E2.
  pose proof (copy_at_slot (slot 4 version ++ slot 32 prevHash ++ slot 32 root)
                (replicate 4 0 ++ replicate 4 0)
                4 ntime) as E3.
  rewrite !length_app, !slot_length in E3. simpl Nat.add in E3.
  rewrite <- !app_assoc in E3. rewrite E3. clear E3.
  pose proof (copy_at_slot
                (slot 4 version ++ slot 32 prevHash ++ slot 32 root ++ slot 4 ntime)
                (replicate 4 0)
                4 nbits) as E4.
  rewrite !length_app, !slot_length in E4. simpl Nat.add in E4.
  rewrite <- !app_assoc in E4. rewrite E4. clear E4.
  rewrite Hroot. reflexivity.
Qed.

End HeaderFacts.

(** ** The batch *)

Section BatchFacts.

Import Stratum Miner.

Variable Sum256 : list Z -> list Z.

Lemma copy_at_length off n dst src :
  (off + n <= length dst)%nat -> length (copy_at off n dst src) = length dst.
Proof.
  intros H. unfold copy_at.
  rewrite !length_app, !length_take, length_drop. lia.
Qed.

(** The header is 80 bytes whatever the job holds. *)
Lemma header_length job e1 e2 :
  length (blockHeader Sum256 job e1 e2) = 80%nat.
Proof.
  assert (Hcopy : forall off n dst src,
             length dst = 80%nat -> (off + n <= 80)%nat ->
             length (copy_at off n dst src) = 80%nat).
  { intros off n dst src Hd Hon. rewrite copy_at_length; lia. }
  unfold blockHeader. cbv zeta.
  repeat (apply Hcopy; [|lia]).
  apply length_replicate.
Qed.

(** Writing a nonce over a header that holds one already. *)
Lemma PutUint32_absorb hdr0 hdr v :
  length hdr0 = 80%nat ->
  hdr = hdr0 \/ (exists u, hdr = PutUint32 76 hdr0 u) ->
  PutUint32 76 hdr v = PutUint32 76 hdr0 v.
Proof.
  intros Hlen [-> | [u ->]]; [reflexivity|].
  unfold PutUint32.
  assert (H76 : length (take 76 hdr0) = 76%nat) by (rewrite length_take; lia).
  f_equal.
  - rewrite <- H76 at 1. apply take_app_length.
  - f_equal.
    change (76 + 4)%nat with (76 + 4)%nat.
    rewrite <- H76 at 1.
    rewrite drop_app_add. reflexivity.
Qed.

Lemma best_update best h nonce bn :
  0 <= best ->
  (if 0 <? h
   then if best <? Big.float64_of_int64 (Big.Int64 (difficulty1Target / h))
        then (Big.float64_of_int64 (Big.Int64 (difficulty1Target / h)), Sprintf_08x nonce)
        else (best, bn)
   else (best, bn)).1 = Z.max best (attemptDifficulty h).
Proof.
  intros Hb. unfold attemptDifficulty.
  destruct (Z.ltb_spec 0 h); [|simpl; lia].
  destruct (Z.ltb_spec best (Big.float64_of_int64 (Big.Int64 (difficulty1Target / h))));
    simpl; lia.
Qed.

(** A batch that finds a share stopped at the first attempt whose integer
    is within the target; it reports that nonce, and the best difficulty
    of the attempts up to it. *)
Lemma batchLoop_found target rnd hdr0 :
  length hdr0 = 80%nat ->
  forall n i hdr best bn hs,
    hdr = hdr0 \/ (exists u, hdr = PutUint32 76 hdr0 u) ->
    0 <= best ->
    found (batchLoop Sum256 target rnd n i hdr best bn hs) = true ->
    exists k,
      (i <= k < i + n)%nat /\
      nonceHex (batchLoop Sum256 target rnd n i hdr best bn hs)
        = Sprintf_08x (Uint32 rnd k) /\
      attemptHash Sum256 hdr0 rnd k <= target /\
      (forall j, (i <= j < k)%nat -> target < attemptHash Sum256 hdr0 rnd j) /\
      difficulty (batchLoop Sum256 target rnd n i hdr best bn hs)
        = Z.max
            (fold_left
               (fun b j => Z.max b (attemptDifficulty (attemptHash Sum256 hdr0 rnd j)))
               (seq i (k - i)) best)
            (attemptDifficulty (attemptHash Sum256 hdr0 rnd k)).
Proof.
  intros Hlen. induction n as [|n IH]; intros i hdr best bn hs Hhdr Hbest Hfound.
  - discriminate.
  - cbn [batchLoop] in Hfound |- *.
    rewrite (PutUint32_absorb hdr0 hdr _ Hlen Hhdr) in Hfound |- *.
    fold (attemptHash Sum256 hdr0 rnd i) in Hfound |- *.
    set (h := attemptHash Sum256 hdr0 rnd i) in *.
    pose proof (best_update best h (Uint32 rnd i) bn Hbest) as Hupd.
    destruct (if 0 <? h
              then if best <? Big.float64_of_int64 (Big.Int64 (difficulty1Target / h))
                   then (Big.float64_of_int64 (Big.Int64 (difficulty1Target / h)),
                         Sprintf_08x (Uint32 rnd i))
                   else (best, bn)
              else (best, bn)) as [best' bn'].
    simpl in Hupd. subst best'.
    destruct (Z.leb_spec h target) as [Hle|Hgt].
    + exists i. simpl. rewrite Nat.sub_diag. simpl.
      repeat split; try lia.
    + destruct (IH (S i) (PutUint32 76 hdr0 (Uint32 rnd i))
                   (Z.max best (attemptDifficulty h)) bn' (hs + 1))
        as (k & Hk & Hnonce & Hwin & Hlose & Hdiff); [eauto | lia | exact Hfound |].
      exists k. repeat split; try lia; try assumption.
      * intros j Hj. destruct (Nat.eq_dec j i) as [->|Hne]; [exact Hgt|].
        apply Hlose. lia.
      * rewrite Hdiff.
        replace (k - i)%nat with (S (k - S i)) by lia.
        reflexivity.
Qed.

(** The attempts that lost to the target cannot beat the difficulty of a
    hash within it. *)
Lemma losers_below target hdr0 rnd H :
  0 < H <= target ->
  difficulty1Target / H < 2 ^ 63 ->
  forall l best,
    (forall j, In j l -> target < attemptHash Sum256 hdr0 rnd j) ->
    0 <= best <= Big.float64_of_int64 (difficulty1Target / H) ->
    0 <= fold_left
           (fun b j => Z.max b (attemptDifficulty (attemptHash Sum256 hdr0 rnd j)))
           l best
      <= Big.float64_of_int64 (difficulty1Target / H).
Proof.
  intros HH Hfit. induction l as [|j l IH]; intros best Hl Hb; simpl.
  - exact Hb.
  - apply IH; [intros; apply Hl; now right|].
    assert (Hj : target < attemptHash Sum256 hdr0 rnd j) by (apply Hl; now left).
    unfold attemptDifficulty.
    destruct (Z.ltb_spec 0 (attemptHash Sum256 hdr0 rnd j)); [|lia].
    assert (Hq : 0 <= difficulty1Target / attemptHash Sum256 hdr0 rnd j
                 <= difficulty1Target / H).
    { split.
      - apply Z.div_pos; [unfold difficulty1Target|]; lia.
      - apply Z.div_le_compat_l; [unfold difficulty1Target|]; lia. }
    rewrite Int64_small by lia.
    pose proof (float64_of_int64_mono _ _ Hq).
    pose proof (float64_of_int64_nonneg _ (proj1 Hq)).
    lia.
Qed.

End BatchFacts.

(** ** Shares *)

Section ShareFacts.

Import Stratum Miner.

Variable Sum256 : list Z -> list Z.

(** Everything an emitted share says about the batch it comes from. *)
Lemma mineLoop_share pick rnd w w' sh :
  mineLoop_iter Sum256 pick rnd w = Returns (w', Batch (Some sh)) ->
  exists j T k,
    job w = Some j /\
    calculateTarget (NBits j) = Some T /\
    (k < 1000)%nat /\
    sh = mkShare (WID w) (ID j) (extranonce2 w) (NTime j)
                 (Sprintf_08x (Uint32 rnd k)) (shDifficulty sh) /\
    attemptHash Sum256 (blockHeader Sum256 j (extranonce1 w) (extranonce2 w)) rnd k <= T /\
    (forall i, (i < k)%nat ->
       T < attemptHash Sum256 (blockHeader Sum256 j (extranonce1 w) (extranonce2 w)) rnd i) /\
    shDifficulty sh =
      Z.max (bestBefore Sum256 (blockHeader Sum256 j (extranonce1 w) (extranonce2 w)) rnd k)
            (attemptDifficulty
               (attemptHash Sum256 (blockHeader Sum256 j (extranonce1 w) (extranonce2 w)) rnd k)).
Proof.
  unfold mineLoop_iter.
  destruct (shutdown w), (jobChannel w) as [|j0 rest].
  1: discriminate.
  1: destruct pick; [discriminate|].
  1, 3: destruct (generateExtranonce2 _ rnd); discriminate.
  destruct (job w) as [j|]; [|discriminate].
  unfold mineBatch.
  destruct (calculateTarget (NBits j)) as [T|] eqn:HT; [|discriminate].
  set (hdr := blockHeader Sum256 j (extranonce1 w) (extranonce2 w)).
  set (r := batchLoop Sum256 T rnd (Z.to_nat 1000) 0 hdr 0 String.EmptyString 0).
  destruct (found r) eqn:Hfound; [|discriminate].
  intros [= _ <-].
  destruct (batchLoop_found Sum256 T rnd hdr (header_length Sum256 _ _ _)
              (Z.to_nat 1000) 0 hdr 0 String.EmptyString 0)
    as (k & Hk & Hnonce & Hwin & Hlose & Hdiff); [auto | lia | exact Hfound |].
  fold r in Hnonce, Hdiff.
  exists j, T, k. simpl.
  rewrite Nat.sub_0_r in Hdiff.
  repeat split; try assumption.
  - change (Z.to_nat 1000) with 1000%nat in Hk. lia.
  - now rewrite Hnonce.
  - intros i Hi. apply Hlose. lia.
Qed.

(** The same for the difficulty alone, for a hash that is positive and
    whose quotient fits an [int64]. *)
Lemma best_is_winner hdr rnd T k :
  let H := attemptHash Sum256 hdr rnd k in
  0 < H <= T ->
  difficulty1Target / H < 2 ^ 63 ->
  (forall i, (i < k)%nat -> T < attemptHash Sum256 hdr rnd i) ->
  Z.max (bestBefore Sum256 hdr rnd k) (attemptDifficulty H) =
  Big.float64_of_int64 (difficulty1Target / H).
Proof.
  intros H HH Hfit Hlose.
  assert (Hq : 0 <= difficulty1Target / H).
  { apply Z.div_pos; [unfold difficulty1Target|]; lia. }
  pose proof (float64_of_int64_nonneg _ Hq) as Hnn.
  pose proof (losers_below Sum256 T hdr rnd H HH Hfit (seq 0 k) 0) as Hb.
  unfold bestBefore. unfold attemptDifficulty at 2.
  destruct (Z.ltb_spec 0 H); [|lia].
  rewrite Int64_small by lia.
  apply Z.max_r. apply Hb; [|lia].
  intros j Hj. apply Hlose. apply in_seq in Hj. lia.
Qed.

Lemma bestBefore_nonneg hdr rnd k : 0 <= bestBefore Sum256 hdr rnd k.
Proof.
  unfold bestBefore. generalize (seq 0 k). intros l.
  assert (G : forall b, 0 <= b ->
    0 <= fold_left
           (fun best j => Z.max best (attemptDifficulty (attemptHash Sum256 hdr rnd j)))
           l b).
  { induction l as [|j l IH]; intros b Hb; simpl; [exact Hb|]. apply IH. lia. }
  apply G. lia.
Qed.

End ShareFacts.

Lemma PutUint32_length hdr v :
  length hdr = 80%nat -> length (Miner.PutUint32 76 hdr v) = 80%nat.
Proof.
  intros H. unfold Miner.PutUint32.
  rewrite !length_app, length_take, length_drop, H. reflexivity.
Qed.

(** C6. Every share a worker emits comes from a header of 80 bytes, the
    header of its job with the winning nonce at [76, 80), whose hash, read
    as the big-endian integer of the reversed double SHA-256 digest, is at
    most the target decoded from the job's nbits. *)
Theorem share_within_target Sum256 pick rnd w w' sh :
  Miner.mineLoop_iter Sum256 pick rnd w = Returns (w', Miner.Batch (Some sh)) ->
  exists j T k,
    Miner.job w = Some j /\
    Miner.shJobID sh = Stratum.ID j /\
    Miner.calculateTarget (Stratum.NBits j) = Some T /\
    Miner.shNonce sh = Miner.Sprintf_08x (Miner.Uint32 rnd k) /\
    let header :=
      Miner.PutUint32 76
        (Miner.blockHeader Sum256 j (Miner.extranonce1 w) (Miner.shExtranonce2 sh))
        (Miner.Uint32 rnd k) in
    length header = 80%nat /\
    Big.SetBytes (Miner.reverseBytes (Miner.doubleSHA256 Sum256 header)) <= T.
Proof.
  intros Hrun.
  destruct (mineLoop_share Sum256 pick rnd w w' sh Hrun)
    as (j & T & k & Hjob & HT & Hk & Hsh & Hwin & _ & _).
  exists j, T, k. rewrite Hsh. simpl.
  repeat split; try assumption.
  apply PutUint32_length, header_length.
Qed.

Lemma share_within_target_witness :
  Miner.mineLoop_iter SHA256.Sum256 Miner.CaseJob Scenario.draws Scenario.workerA
    = Returns (Scenario.workerA', Miner.Batch (Some Scenario.shareA)) /\
  exists j T k,
    Miner.job Scenario.workerA = Some j /\
    Miner.shJobID Scenario.shareA = Stratum.ID j /\
    Miner.calculateTarget (Stratum.NBits j) = Some T /\
    Miner.shNonce Scenario.shareA = Miner.Sprintf_08x (Miner.Uint32 Scenario.draws k) /\
    let header :=
      Miner.PutUint32 76
        (Miner.blockHeader SHA256.Sum256 j (Miner.extranonce1 Scenario.workerA)
           (Miner.shExtranonce2 Scenario.shareA))
        (Miner.Uint32 Scenario.draws k) in
    length header = 80%nat /\
    Big.SetBytes (Miner.reverseBytes (Miner.doubleSHA256 SHA256.Sum256 header)) <= T.
Proof.
  assert (Hrun : Miner.mineLoop_iter SHA256.Sum256 Miner.CaseJob Scenario.draws
                   Scenario.workerA
                 = Returns (Scenario.workerA', Miner.Batch (Some Scenario.shareA))).
  { vm_compute. reflexivity. }
  split; [exact Hrun|].
  exact (share_within_target SHA256.Sum256 Miner.CaseJob Scenario.draws
           Scenario.workerA Scenario.workerA' Scenario.shareA Hrun).
Defined.

(** The difficulty of an emitted share, whatever the digest function: it
    is never negative; when the winning hash H is positive and the
    quotient difficulty_1 / H fits an [int64], it is that quotient
    (rounded down) converted to a double, hence the quotient itself below
    2^53; when H is zero the update is skipped and the difficulty is the
    best of the attempts the batch made before. *)
Lemma share_difficulty Sum256 pick rnd w w' sh :
  Miner.mineLoop_iter Sum256 pick rnd w = Returns (w', Miner.Batch (Some sh)) ->
  exists j k,
    Miner.job w = Some j /\
    Miner.shNonce sh = Miner.Sprintf_08x (Miner.Uint32 rnd k) /\
    let hdr := Miner.blockHeader Sum256 j (Miner.extranonce1 w) (Miner.shExtranonce2 sh) in
    let H := Miner.hashInt Sum256 (Miner.PutUint32 76 hdr (Miner.Uint32 rnd k)) in
    0 <= Miner.shDifficulty sh /\
    (0 < H -> Miner.difficulty1Target / H < 2 ^ 63 ->
     Miner.shDifficulty sh = Big.float64_of_int64 (Miner.difficulty1Target / H)) /\
    (0 < H -> Miner.difficulty1Target / H < 2 ^ 53 ->
     Miner.shDifficulty sh = Miner.difficulty1Target / H) /\
    (H = 0 -> Miner.shDifficulty sh = Miner.bestBefore Sum256 hdr rnd k).
Proof.
  intros Hrun.
  destruct (mineLoop_share Sum256 pick rnd w w' sh Hrun)
    as (j & T & k & Hjob & HT & Hk & Hsh & Hwin & Hlose & Hdiff).
  exists j, k. rewrite Hsh. cbn [Miner.shNonce Miner.shExtranonce2 Miner.shDifficulty].
  set (hdr := Miner.blockHeader Sum256 j (Miner.extranonce1 w) (Miner.extranonce2 w)) in *.
  fold (Miner.attemptHash Sum256 hdr rnd k).
  set (H := Miner.attemptHash Sum256 hdr rnd k) in *.
  pose proof (bestBefore_nonneg Sum256 hdr rnd k) as Hnn.
  assert (Hpos : 0 < H -> Miner.difficulty1Target / H < 2 ^ 63 ->
                 Miner.shDifficulty sh = Big.float64_of_int64 (Miner.difficulty1Target / H)).
  { intros H0 Hfit. rewrite Hdiff.
    apply (best_is_winner Sum256 hdr rnd T k); [fold H; lia | exact Hfit | exact Hlose]. }
  repeat split; try assumption.
  - rewrite Hdiff. lia.
  - intros H0 Hfit. rewrite Hpos by lia.
    apply float64_of_int64_exact.
    assert (0 <= Miner.difficulty1Target / H).
    { apply Z.div_pos; [unfold Miner.difficulty1Target|]; lia. }
    lia.
  - intros H0. rewrite Hdiff, H0. unfold Miner.attemptDifficulty. simpl. lia.
Qed.

Lemma share_difficulty_witness :
  Miner.mineLoop_iter SHA256.Sum256 Miner.CaseJob Scenario.draws Scenario.workerA
    = Returns (Scenario.workerA', Miner.Batch (Some Scenario.shareA)) /\
  exists j k,
    Miner.job Scenario.workerA = Some j /\
    Miner.shNonce Scenario.shareA = Miner.Sprintf_08x (Miner.Uint32 Scenario.draws k) /\
    let hdr := Miner.blockHeader SHA256.Sum256 j (Miner.extranonce1 Scenario.workerA)
                 (Miner.shExtranonce2 Scenario.shareA) in
    let H := Miner.hashInt SHA256.Sum256
               (Miner.PutUint32 76 hdr (Miner.Uint32 Scenario.draws k)) in
    0 <= Miner.shDifficulty Scenario.shareA /\
    (0 < H -> Miner.difficulty1Target / H < 2 ^ 63 ->
     Miner.shDifficulty Scenario.shareA
       = Big.float64_of_int64 (Miner.difficulty1Target / H)) /\
    (0 < H -> Miner.difficulty1Target / H < 2 ^ 53 ->
     Miner.shDifficulty Scenario.shareA = Miner.difficulty1Target / H) /\
    (H = 0 ->
     Miner.shDifficulty Scenario.shareA
       = Miner.bestBefore SHA256.Sum256 hdr Scenario.draws k).
Proof.
  assert (Hrun : Miner.mineLoop_iter SHA256.Sum256 Miner.CaseJob Scenario.draws
                   Scenario.workerA
                 = Returns (Scenario.workerA', Miner.Batch (Some Scenario.shareA))).
  { vm_compute. reflexivity. }
  split; [exact Hrun|].
  exact (share_difficulty SHA256.Sum256 Miner.CaseJob Scenario.draws
           Scenario.workerA Scenario.workerA' Scenario.shareA Hrun).
Defined.

(** Why the quotient has to fit an [int64]: for the hash 2^160 the
    quotient is 65535 * 2^48, whose low 64 bits read as an [int64] are
    -2^48, and for the hash 1 they are zero. *)
Example difficulty_wraps :
  Miner.attemptDifficulty (2 ^ 160) = - 2 ^ 48 /\ Miner.attemptDifficulty 1 = 0.
Proof. vm_compute. split; reflexivity. Qed.

(** The difficulty rule on the header of Bitcoin's first block, with the
    real digest: the batch finds the block at its nonce and reports
    difficulty 2536, the quotient of the difficulty-1 target by the hash
    000000000019d668...8ce26f. *)
Example genesis_difficulty :
  Miner.batchLoop SHA256.Sum256 Miner.difficulty1Target (fun _ => Scenario.genesisNonce)
    1 0 Scenario.genesisHeader 0 String.EmptyString 0
  = Miner.mkBatch true "7c2bac1d" 2536 1 /\
  Miner.difficulty1Target /
    Miner.hashInt SHA256.Sum256 (Miner.PutUint32 76 Scenario.genesisHeader Scenario.genesisNonce)
  = 2536.
Proof. vm_compute. split; reflexivity. Qed.

(** ** The compact target *)

Section TargetFacts.

Import Miner.

Lemma SetBytes3 c1 c2 c3 :
  Big.SetBytes [c1; c2; c3] = c1 * 65536 + c2 * 256 + c3.
Proof. unfold Big.SetBytes. simpl. lia. Qed.

(** The exponent and the coefficient of an nbits that decodes to four
    bytes are bytes. *)
Lemma nbits_bytes nbits e c1 c2 c3 :
  fst (Hex.DecodeString nbits) = [e; c1; c2; c3] ->
  0 <= e < 256 /\ 0 <= c1 * 65536 + c2 * 256 + c3 < 2 ^ 24.
Proof.
  intros Hdec.
  pose proof (Decode_bytes (String.list_ascii_of_string nbits)) as Hall.
  unfold Hex.DecodeString in Hdec. rewrite Hdec in Hall.
  inversion_clear Hall as [|? ? He Hall1].
  inversion_clear Hall1 as [|? ? H1 Hall2].
  inversion_clear Hall2 as [|? ? H2 Hall3].
  inversion_clear Hall3 as [|? ? H3 _].
  lia.
Qed.

(** From exponent 3 on, the target is the coefficient shifted left. *)
Lemma calculateTarget_shift nbits e c1 c2 c3 :
  fst (Hex.DecodeString nbits) = [e; c1; c2; c3] ->
  3 <= e ->
  calculateTarget nbits = Some ((c1 * 65536 + c2 * 256 + c3) * 2 ^ (8 * (e - 3))).
Proof.
  intros Hdec He.
  destruct (nbits_bytes _ _ _ _ _ Hdec) as [Hbe Hc].
  unfold calculateTarget. rewrite Hdec.
  cbn [length Nat.eqb negb nth take drop]. rewrite SetBytes3.
  set (c := c1 * 65536 + c2 * 256 + c3) in *.
  unfold Big.Lsh, Big.to_uint.
  rewrite (Z.mod_small (8 * (e - 3))) by lia.
  destruct (Z.eqb_spec c 0) as [->|Hc0]; [reflexivity|].
  assert (Hw : Big.words c = 1).
  { unfold Big.words. destruct (Z.eqb_spec c 0); [contradiction|].
    rewrite Z.abs_eq by lia.
    assert (Z.log2 c < 24) by (apply Z.log2_lt_pow2; lia).
    pose proof (Z.log2_nonneg c).
    rewrite Z.div_small by lia. reflexivity. }
  rewrite Hw.
  assert (Hn : 0 <= 8 * (e - 3) / 64 < 32).
  { split; [apply Z.div_pos; lia | apply Z.div_lt_upper_bound; lia]. }
  destruct (Z.ltb_spec Big.maxWords (1 + 8 * (e - 3) / 64 + 1)) as [Hbig|_].
  { change Big.maxWords with (2 ^ 45) in Hbig. lia. }
  rewrite Z.shiftl_mul_pow2 by lia. reflexivity.
Qed.

(** An nbits that does not decode to four bytes gives the zero target. *)
Lemma calculateTarget_not_four nbits :
  length (fst (Hex.DecodeString nbits)) <> 4%nat ->
  calculateTarget nbits = Some 0.
Proof.
  intros Hlen. unfold calculateTarget.
  destruct (Nat.eqb_spec (length (fst (Hex.DecodeString nbits))) 4); [contradiction|].
  reflexivity.
Qed.

(** The decoding returns what it read before an error, so that an nbits
    with eight good digits and more still gives a target. *)
Example calculateTarget_trailing :
  snd (Hex.DecodeString "1d00ffffzz") = Some (Hex.InvalidByteError "z") /\
  calculateTarget "1d00ffffzz" = Some difficulty1Target.
Proof. vm_compute. split; reflexivity. Qed.

Example calculateTarget_difficulty1 :
  calculateTarget "1d00ffff" = Some difficulty1Target.
Proof. vm_compute. reflexivity. Qed.

Example calculateTarget_mainnet :
  calculateTarget "17030ecc" = Some (0x030ecc * 2 ^ (8 * (0x17 - 3))).
Proof. vm_compute. reflexivity. Qed.

End TargetFacts.

(** C2, where the code departs from it. For an nbits that decodes to four
    bytes with an exponent below 3 and a coefficient that is not zero, the
    shift count [uint(8*(exp-3))] wraps to 2^64 - 8*(3-exp) and
    [calculateTarget] panics inside [Lsh]; it does not return the
    coefficient shifted right. *)
Theorem calculateTarget_small_exponent nbits e c1 c2 c3 :
  fst (Hex.DecodeString nbits) = [e; c1; c2; c3] ->
  e < 3 ->
  c1 * 65536 + c2 * 256 + c3 <> 0 ->
  Miner.calculateTarget nbits = None.
Proof.
  intros Hdec He Hc0.
  destruct (nbits_bytes _ _ _ _ _ Hdec) as [Hbe Hc].
  unfold Miner.calculateTarget. rewrite Hdec.
  cbn [length Nat.eqb negb nth take drop]. rewrite SetBytes3.
  set (c := c1 * 65536 + c2 * 256 + c3) in *.
  unfold Big.Lsh, Big.to_uint.
  destruct (Z.eqb_spec c 0) as [|_]; [contradiction|].
  assert (Hmod : (8 * (e - 3)) mod 2 ^ 64 = 2 ^ 64 + 8 * (e - 3)).
  { symmetry. apply (Z.mod_unique_pos _ _ (-1)); lia. }
  rewrite Hmod.
  assert (Hq : 2 ^ 57 <= (2 ^ 64 + 8 * (e - 3)) / 64).
  { apply Z.div_le_lower_bound; lia. }
  assert (Hw : 0 <= Big.words c).
  { unfold Big.words. destruct (c =? 0); [lia|].
    pose proof (Z.log2_nonneg (Z.abs c)).
    assert (0 <= Z.log2 (Z.abs c) / 64) by (apply Z.div_pos; lia). lia. }
  destruct (Z.ltb_spec Big.maxWords (Big.words c + (2 ^ 64 + 8 * (e - 3)) / 64 + 1))
    as [_|Hsmall]; [reflexivity|].
  change Big.maxWords with (2 ^ 45) in Hsmall. lia.
Qed.

Lemma calculateTarget_small_exponent_witness :
  fst (Hex.DecodeString "02008000") = [2; 0; 128; 0] /\
  2 < 3 /\
  0 * 65536 + 128 * 256 + 0 <> 0 /\
  Miner.calculateTarget "02008000" = None.
Proof.
  assert (Hdec : fst (Hex.DecodeString "02008000") = [2; 0; 128; 0]) by reflexivity.
  assert (He : 2 < 3) by lia.
  assert (Hc : 0 * 65536 + 128 * 256 + 0 <> 0) by lia.
  split; [exact Hdec|]. split; [exact He|]. split; [exact Hc|].
  exact (calculateTarget_small_exponent "02008000" 2 0 128 0 Hdec He Hc).
Defined.


(** ** The layout of the header *)

Lemma take_prefix (l k : list Z) n : length l = n -> take n (l ++ k) = l.
Proof. intros <-. apply take_app_length. Qed.

Lemma drop_prefix (l k : list Z) n : length l = n -> drop n (l ++ k) = k.
Proof. intros <-. apply drop_app_length. Qed.

(** C7. For every job the header built by [mineBatch] is 80 bytes: the
    version at [0,4), the previous hash at [4,36), the Merkle root at
    [36,68) with its bytes in the reverse order (byte [36 + i] of the
    header is byte [31 - i] of the root), ntime at [68,72), nbits at
    [72,76) and zeros at [76,80) until a nonce is written. Each
    hexadecimal field fills its slot the way [copy] does (all of it when it
    has the slot's length). The root is the double digest of the decoded
    coinbase1 + extranonce1 + extranonce2 + coinbase2, hashed again with
    each branch appended in turn; with no Merkle branch it is that double
    digest itself, placed reversed. *)
Theorem blockHeader_layout Sum256 job e1 e2 :
  (forall msg, length (Sum256 msg) = 32%nat) ->
  let bytes s := fst (Hex.DecodeString s) in
  let coinbase :=
    bytes (String.append (Stratum.Coinbase1 job)
             (String.append e1 (String.append e2 (Stratum.Coinbase2 job)))) in
  let root :=
    fold_left (fun r branch => Sum256 (Sum256 (r ++ bytes branch)))
              (Stratum.MerkleBranch job) (Sum256 (Sum256 coinbase)) in
  let h := Miner.blockHeader Sum256 job e1 e2 in
  length h = 80%nat /\
  take 4 h = Miner.slot 4 (bytes (Stratum.Version job)) /\
  take 32 (drop 4 h) = Miner.slot 32 (bytes (Stratum.PrevHash job)) /\
  take 32 (drop 36 h) = rev root /\
  (forall i, (i < 32)%nat -> nth (36 + i) h 0 = nth (31 - i) root 0) /\
  take 4 (drop 68 h) = Miner.slot 4 (bytes (Stratum.NTime job)) /\
  take 4 (drop 72 h) = Miner.slot 4 (bytes (Stratum.NBits job)) /\
  drop 76 h = [0; 0; 0; 0] /\
  (forall n s, length (bytes s) = n -> Miner.slot n (bytes s) = bytes s) /\
  (Stratum.MerkleBranch job = [] ->
   take 32 (drop 36 h) = rev (Sum256 (Sum256 coinbase))).
Proof.
  intros Hlen bytes coinbase root h.
  assert (Hdef : Miner.reverseBytes (Miner.merkleRoot Sum256 job e1 e2) = rev root)
    by reflexivity.
  assert (Hroot32 : length root = 32%nat).
  { change root with (Miner.merkleRoot Sum256 job e1 e2). now apply merkleRoot_length. }
  assert (Hroot : length (rev root) = 32%nat) by now rewrite length_rev.
  assert (Hh : h = Miner.slot 4 (bytes (Stratum.Version job)) ++
                   Miner.slot 32 (bytes (Stratum.PrevHash job)) ++
                   rev root ++
                   Miner.slot 4 (bytes (Stratum.NTime job)) ++
                   Miner.slot 4 (bytes (Stratum.NBits job)) ++ [0; 0; 0; 0]).
  { rewrite <- Hdef. apply blockHeader_fields; exact Hlen. }
  assert (H36 : drop 36 h = rev root ++
                            Miner.slot 4 (bytes (Stratum.NTime job)) ++
                            Miner.slot 4 (bytes (Stratum.NBits job)) ++ [0; 0; 0; 0]).
  { rewrite Hh. rewrite (app_assoc (Miner.slot 4 _)).
    apply drop_prefix. rewrite length_app, !slot_length. reflexivity. }
  assert (H68 : drop 68 h = Miner.slot 4 (bytes (Stratum.NTime job)) ++
                            Miner.slot 4 (bytes (Stratum.NBits job)) ++ [0; 0; 0; 0]).
  { replace (drop 68 h) with (drop 32 (drop 36 h)) by (now rewrite drop_drop).
    rewrite H36. apply drop_prefix. exact Hroot. }
  assert (H72 : drop 72 h = Miner.slot 4 (bytes (Stratum.NBits job)) ++ [0; 0; 0; 0]).
  { replace (drop 72 h) with (drop 4 (drop 68 h)) by (now rewrite drop_drop).
    rewrite H68. apply drop_prefix. apply slot_length. }
  assert (H76 : drop 76 h = [0; 0; 0; 0]).
  { replace (drop 76 h) with (drop 4 (drop 72 h)) by (now rewrite drop_drop).
    rewrite H72. apply drop_prefix. apply slot_length. }
  assert (Hm : take 32 (drop 36 h) = rev root).
  { rewrite H36. apply take_prefix. exact Hroot. }
  split; [apply header_length|].
  split; [rewrite Hh; apply take_prefix, slot_length|].
  split.
  { rewrite Hh. rewrite (drop_prefix _ _ 4) by apply slot_length.
    apply take_prefix, slot_length. }
  split; [exact Hm|].
  split.
  { intros i Hi. rewrite Hh, (app_assoc (Miner.slot 4 _)).
    rewrite app_nth2 by (rewrite length_app, !slot_length; lia).
    rewrite length_app, !slot_length.
    replace (36 + i - (4 + 32))%nat with i by lia.
    rewrite app_nth1 by (rewrite Hroot; exact Hi).
    rewrite rev_nth by (rewrite Hroot32; exact Hi).
    rewrite Hroot32. f_equal; lia. }
  split; [rewrite H68; apply take_prefix, slot_length|].
  split; [rewrite H72; apply take_prefix, slot_length|].
  split; [exact H76|].
  split; [intros n s Hn; now apply slot_exact|].
  intros Hbranch. rewrite Hm. unfold root. now rewrite Hbranch.
Qed.

Lemma blockHeader_layout_witness :
  (forall msg, length (SHA256.Sum256 msg) = 32%nat) /\
  let bytes s := fst (Hex.DecodeString s) in
  let coinbase := bytes "010000008100000100000000ffffffff" in
  let root := SHA256.Sum256 (SHA256.Sum256 coinbase) in
  let h := Miner.blockHeader SHA256.Sum256 Scenario.jobB "81000001" "00000000" in
  length h = 80%nat /\
  take 4 h = [32; 0; 0; 0] /\
  take 32 (drop 4 h) = bytes (Stratum.PrevHash Scenario.jobB) /\
  take 32 (drop 36 h) = rev root /\
  (forall i, (i < 32)%nat -> nth (36 + i) h 0 = nth (31 - i) root 0) /\
  take 4 (drop 68 h) = [95; 94; 16; 0] /\
  take 4 (drop 72 h) = [28; 0; 255; 255] /\
  drop 76 h = [0; 0; 0; 0] /\
  nth 36 h 0 = nth 31 root 0 /\
  nth 36 h 0 <> nth 0 root 0.
Proof.
  split; [exact Sum256_length|].
  pose proof (blockHeader_layout SHA256.Sum256 Scenario.jobB "81000001" "00000000"
                Sum256_length) as H.
  cbv zeta in H.
  destruct H as (H1 & H2 & H3 & H4 & H5 & H6 & H7 & H8 & H9 & H10).
  cbv zeta.
  split; [exact H1|]. split; [rewrite H2; reflexivity|].
  split; [rewrite H3; reflexivity|].
  split; [exact (H10 eq_refl)|].
  split; [exact H5|].
  split; [rewrite H6; reflexivity|].
  split; [rewrite H7; reflexivity|].
  split; [exact H8|].
  split; [exact (H5 0%nat ltac:(lia))|].
  vm_compute. discriminate.
Defined.

(** The header of the job with no Merkle branch, with the real digest, as
    the pool would see it. *)
Example blockHeader_jobB :
  Hex.EncodeToString (Miner.blockHeader SHA256.Sum256 Scenario.jobB "81000001" "00000000") =
  String.append
    "2000000000000000000000000000b4f5c1e2a3d4e5f60718293a4b5c6d7e8f9012345678"
    (String.append
       (Hex.EncodeToString
          (rev (SHA256.Sum256 (SHA256.Sum256
             (fst (Hex.DecodeString "010000008100000100000000ffffffff"))))))
       "5f5e10001c00ffff00000000").
Proof. vm_compute. reflexivity. Qed.


(** ** The job mailbox *)

Section MailboxFacts.

Import Stratum Miner.

(** One call on a mailbox within its capacity keeps the ten latest jobs. *)
Lemma UpdateJob_latest j w :
  (length (jobChannel w) <= 10)%nat ->
  exists w1,
    UpdateJob j w = Returns w1 /\
    jobChannel w1 = drop (length (jobChannel w ++ [j]) - 10) (jobChannel w ++ [j]) /\
    (length (jobChannel w1) <= 10)%nat.
Proof.
  intros Hcap. unfold UpdateJob, try_send, jobChannelCap.
  destruct (Nat.ltb_spec (length (jobChannel w)) 10) as [Hlt|Hge].
  - exists (set_jobChannel w (jobChannel w ++ [j])).
    assert (E : drop (length (jobChannel w ++ [j]) - 10) (jobChannel w ++ [j])
                = jobChannel w ++ [j]).
    { rewrite length_app. cbn [length].
      replace (length (jobChannel w) + 1 - 10)%nat with 0%nat by lia. apply drop_0. }
    rewrite E. cbn [jobChannel set_jobChannel].
    repeat split. rewrite length_app. cbn [length]. lia.
  - destruct (jobChannel w) as [|x rest] eqn:Hch; [cbn [length] in Hge; lia|].
    cbn [length] in Hcap, Hge.
    destruct (Nat.ltb_spec (length rest) 10) as [_|Hbad]; [|lia].
    exists (set_jobChannel w (rest ++ [j])).
    assert (E : drop (length ((x :: rest) ++ [j]) - 10) ((x :: rest) ++ [j])
                = rest ++ [j]).
    { rewrite length_app. cbn [length].
      replace (S (length rest) + 1 - 10)%nat with 1%nat by lia. reflexivity. }
    rewrite E. cbn [jobChannel set_jobChannel].
    repeat split. rewrite length_app. cbn [length]. lia.
Qed.



(** A receive in [mineLoop] takes the oldest job of the mailbox. *)
Lemma mineLoop_takes_oldest Sum256 pick rnd w w' j :
  mineLoop_iter Sum256 pick rnd w = Returns (w', JobTaken j) ->
  jobChannel w = j :: jobChannel w' /\ job w' = Some j.
Proof.
  unfold mineLoop_iter.
  destruct (shutdown w), (jobChannel w) as [|j0 rest].
  - discriminate.
  - destruct pick; [discriminate|].
    destruct (generateExtranonce2 _ rnd); [|discriminate].
    intros [= <- <-]. split; reflexivity.
  - destruct (job w); [|discriminate].
    destruct (mineBatch _ _ _ _ _ _); discriminate.
  - destruct (generateExtranonce2 _ rnd); [|discriminate].
    intros [= <- <-]. split; reflexivity.
Qed.

End MailboxFacts.





(** Once the worker does run, its loop takes the ten jobs one after the
    other before it mines again, so that the job of its next batch is the
    last one enqueued. *)
Example drained_mailbox_ends_on_last :
  exists w1 w2,
    Miner.UpdateJobs Scenario.jobs1000 Scenario.workerS = Returns w1 /\
    Miner.run SHA256.Sum256
      (replicate 10 (Miner.ALoop Miner.CaseJob, Scenario.draws)) w1
    = Returns (w2, map (fun i => Miner.JobTaken (Scenario.jobN i)) (seq 991 10)) /\
    Miner.jobChannel w2 = [] /\
    Miner.job w2 = Some (Scenario.jobN 1000).
Proof.
  eexists. eexists.
  split; [vm_compute; reflexivity|].
  split; [vm_compute; reflexivity|].
  split; reflexivity.
Qed.

(** ** Start and Stop *)

Section LifecycleFacts.

Import Stratum Miner.

Variable Sum256 : list Z -> list Z.

Lemma Start_running e1 n rnd w w1 :
  Start e1 n rnd w = Returns w1 -> running w1 = true /\ shutdown w1 = shutdown w.
Proof.
  unfold Start. destruct (running w) eqn:Hr.
  - intros [= <-]. auto.
  - destruct (generateExtranonce2 n rnd); [|discriminate].
    intros [= <-]. auto.
Qed.

(** [Start] on a running worker and [Stop] on a stopped one do nothing. *)
Lemma Start_idempotent e1 n rnd w :
  running w = true -> Start e1 n rnd w = Returns w.
Proof. intros Hr. unfold Start. now rewrite Hr. Qed.

Lemma Stop_idempotent w :
  running w = false -> Stop w = Returns w.
Proof. intros Hr. unfold Stop. now rewrite Hr. Qed.

(** A [Stop] that takes effect leaves the channel closed. *)
Lemma Stop_closes w w1 :
  running w = true -> Stop w = Returns w1 ->
  running w1 = false /\ shutdown w1 = true.
Proof.
  unfold Stop. intros ->. simpl.
  destruct (shutdown w); [discriminate|].
  intros [= <-]. auto.
Qed.

(** With the channel closed an iteration never reaches the default case of
    [select], where the batches are; and the channel stays closed. *)
Lemma closed_iter pick rnd w w' ev :
  shutdown w = true ->
  mineLoop_iter Sum256 pick rnd w = Returns (w', ev) ->
  shutdown w' = true /\ forall share, ev <> Batch share.
Proof.
  intros Hclosed. unfold mineLoop_iter. rewrite Hclosed.
  destruct (jobChannel w) as [|j rest].
  - intros [= <- <-]. split; [reflexivity | discriminate].
  - destruct pick.
    + intros [= <- <-]. split; [reflexivity | discriminate].
    + destruct (generateExtranonce2 _ rnd); [|discriminate].
      intros [= <- <-]. split; [reflexivity | discriminate].
Qed.

Lemma closed_act a rnd w w' evs :
  shutdown w = true ->
  act Sum256 a rnd w = Returns (w', evs) ->
  shutdown w' = true /\ forall share, ~ In (Batch share) evs.
Proof.
  intros Hclosed. destruct a as [e1 n| |j|p|pick]; simpl.
  - destruct (Start e1 n rnd w) as [w1| |] eqn:Hs; try discriminate.
    intros [= <- <-]. destruct (Start_running _ _ _ _ _ Hs) as [_ ->]. auto.
  - unfold Stop. rewrite Hclosed.
    destruct (running w); simpl; [discriminate|].
    intros [= <- <-]. auto.
  - unfold UpdateJob.
    destruct (try_send (jobChannel w) j).
    + intros [= <- <-]. auto.
    + destruct (try_send _ j); [|discriminate].
      intros [= <- <-]. auto.
  - intros [= <- <-]. auto.
  - destruct (loops w).
    + intros [= <- <-]. auto.
    + destruct (mineLoop_iter Sum256 pick rnd w) as [[w1 ev]| |] eqn:Hit; try discriminate.
      simpl. intros [= <- <-].
      destruct (closed_iter _ _ _ _ _ Hclosed Hit) as [Hc Hev].
      split; [exact Hc|]. intros share [Heq|[]]. exact (Hev share Heq).
Qed.

Lemma closed_run acts : forall w w' evs,
  shutdown w = true ->
  run Sum256 acts w = Returns (w', evs) ->
  shutdown w' = true /\ forall share, ~ In (Batch share) evs.
Proof.
  induction acts as [|[a rnd] acts IH]; intros w w' evs Hclosed; simpl.
  - intros [= <- <-]. auto.
  - destruct (act Sum256 a rnd w) as [[w1 ev1]| |] eqn:Hact; try discriminate.
    destruct (run Sum256 acts w1) as [[w2 ev2]| |] eqn:Hrun; try discriminate.
    intros [= <- <-].
    destruct (closed_act _ _ _ _ _ Hclosed Hact) as [Hc1 Hev1].
    destruct (IH _ _ _ Hc1 Hrun) as [Hc2 Hev2].
    split; [exact Hc2|]. intros share Hin.
    apply in_app_or in Hin as [Hin|Hin]; [exact (Hev1 _ Hin) | exact (Hev2 _ Hin)].
Qed.

End LifecycleFacts.

(** C4, where the code departs from it. [Stop] closes the shutdown channel
    and [Start] never makes a new one: a worker started again after a stop
    is flagged running and has its goroutine, but whatever happens next no
    iteration of [mineLoop] mines a batch, and the next [Stop] panics. *)
Theorem restart_never_mines Sum256 e1 n rnd1 e1' n' rnd2 w0 w1 w2 w3 :
  Miner.Start e1 n rnd1 w0 = Returns w1 ->
  Miner.Stop w1 = Returns w2 ->
  Miner.Start e1' n' rnd2 w2 = Returns w3 ->
  Miner.running w2 = false /\
  Miner.running w3 = true /\
  Miner.loops w3 = S (Miner.loops w2) /\
  Miner.Stop w3 = Panics /\
  forall acts w' evs,
    Miner.run Sum256 acts w3 = Returns (w', evs) ->
    forall share, ~ In (Miner.Batch share) evs.
Proof.
  intros Hs1 Hstop Hs2.
  destruct (Start_running _ _ _ _ _ Hs1) as [Hr1 _].
  destruct (Stop_closes _ _ Hr1 Hstop) as [Hr2 Hc2].
  destruct (Start_running _ _ _ _ _ Hs2) as [Hr3 Hc3].
  rewrite Hc2 in Hc3.
  split; [exact Hr2|]. split; [exact Hr3|].
  split.
  { unfold Miner.Start in Hs2. rewrite Hr2 in Hs2.
    destruct (Miner.generateExtranonce2 n' rnd2); [|discriminate].
    injection Hs2 as <-. reflexivity. }
  split.
  { unfold Miner.Stop. rewrite Hr3, Hc3. reflexivity. }
  intros acts w' evs Hrun.
  exact (proj2 (closed_run Sum256 acts w3 w' evs Hc3 Hrun)).
Qed.

Lemma restart_never_mines_witness :
  Miner.Start "81000001" 4 Scenario.draws Scenario.worker0 = Returns Scenario.workerS /\
  Miner.Stop Scenario.workerS = Returns Scenario.workerStopped /\
  Miner.Start "81000001" 4 Scenario.draws Scenario.workerStopped
    = Returns Scenario.workerRestarted /\
  Miner.running Scenario.workerStopped = false /\
  Miner.running Scenario.workerRestarted = true /\
  Miner.loops Scenario.workerRestarted = S (Miner.loops Scenario.workerStopped) /\
  Miner.Stop Scenario.workerRestarted = Panics /\
  forall acts w' evs,
    Miner.run SHA256.Sum256 acts Scenario.workerRestarted = Returns (w', evs) ->
    forall share, ~ In (Miner.Batch share) evs.
Proof.
  assert (H1 : Miner.Start "81000001" 4 Scenario.draws Scenario.worker0
               = Returns Scenario.workerS) by reflexivity.
  assert (H2 : Miner.Stop Scenario.workerS = Returns Scenario.workerStopped)
    by reflexivity.
  assert (H3 : Miner.Start "81000001" 4 Scenario.draws Scenario.workerStopped
               = Returns Scenario.workerRestarted) by reflexivity.
  split; [exact H1|]. split; [exact H2|]. split; [exact H3|].
  exact (restart_never_mines SHA256.Sum256 "81000001" 4 Scenario.draws
           "81000001" 4 Scenario.draws Scenario.worker0 Scenario.workerS
           Scenario.workerStopped Scenario.workerRestarted H1 H2 H3).
Defined.

(** The first start does mine: the started worker takes the job from its
    mailbox and its next iteration is a batch, which finds a share. *)
Example first_start_mines :
  Miner.run SHA256.Sum256
    [(Miner.AStart "81000001" 4, Scenario.draws);
     (Miner.AUpdateJob Scenario.jobA, Scenario.draws);
     (Miner.ALoop Miner.CaseJob, Scenario.draws);
     (Miner.ALoop Miner.CaseJob, Scenario.draws)]
    Scenario.worker0
  = Returns (Scenario.workerA',
             [Miner.JobTaken Scenario.jobA; Miner.Batch (Some Scenario.shareA)]).
Proof. vm_compute. reflexivity. Qed.

(** The same calls after a stop and a second start: the two goroutines
    take the job or leave, and none mines. *)
Example restart_run :
  exists w',
    Miner.run SHA256.Sum256
      [(Miner.AStart "81000001" 4, Scenario.draws);
       (Miner.AStop, Scenario.draws);
       (Miner.AStart "81000001" 4, Scenario.draws);
       (Miner.AUpdateJob Scenario.jobA, Scenario.draws);
       (Miner.ALoop Miner.CaseJob, Scenario.draws);
       (Miner.ALoop Miner.CaseJob, Scenario.draws);
       (Miner.ALoop Miner.CaseJob, Scenario.draws);
       (Miner.ALoop Miner.CaseJob, Scenario.draws)]
      Scenario.worker0
    = Returns (w', [Miner.JobTaken Scenario.jobA; Miner.Exit; Miner.Exit]) /\
    Miner.running w' = true /\ Miner.loops w' = 0%nat.
Proof. eexists. vm_compute. repeat split. Qed.

(** ** The length of extranonce2 *)

Section Extranonce2Facts.

Import Stratum Miner.

Variable Sum256 : list Z -> list Z.
Variable n : Z.

Lemma Read_length rnd k : length (Read rnd k) = k.
Proof. unfold Read. now rewrite length_map, length_seq. Qed.

Lemma generateExtranonce2_length size rnd e2 :
  generateExtranonce2 size rnd = Some e2 ->
  Z.of_nat (String.length e2) = 2 * size /\ 0 <= size <= Big.maxAlloc.
Proof.
  unfold generateExtranonce2.
  destruct (Z.ltb_spec size 0); [discriminate|].
  destruct (Z.ltb_spec Big.maxAlloc size); [discriminate|]. simpl.
  intros [= <-]. rewrite EncodeToString_length, Read_length. lia.
Qed.

Lemma generateExtranonce2_again (w : Worker) rnd :
  extranonce2_ok n w ->
  exists e2,
    generateExtranonce2 (Z.of_nat (String.length (extranonce2 w)) / 2) rnd = Some e2 /\
    Z.of_nat (String.length e2) = 2 * n.
Proof.
  intros [Hlen Hn]. rewrite Hlen.
  replace (2 * n / 2) with n by (rewrite Z.mul_comm, Z.div_mul; lia).
  unfold generateExtranonce2.
  destruct (Z.ltb_spec n 0); [lia|].
  destruct (Z.ltb_spec Big.maxAlloc n); [lia|]. simpl.
  eexists. split; [reflexivity|].
  rewrite EncodeToString_length, Read_length. lia.
Qed.

Lemma extranonce2_iter pick rnd w w' ev :
  extranonce2_ok n w ->
  mineLoop_iter Sum256 pick rnd w = Returns (w', ev) ->
  extranonce2_ok n w' /\
  forall sh, ev = Batch (Some sh) -> Z.of_nat (String.length (shExtranonce2 sh)) = 2 * n.
Proof.
  intros Hok. pose proof Hok as [Hlen Hn].
  destruct (generateExtranonce2_again w rnd Hok) as (e2 & Hgen & He2).
  unfold mineLoop_iter. rewrite Hgen.
  destruct (shutdown w), (jobChannel w) as [|j rest].
  - intros [= <- <-]. split; [exact Hok | discriminate].
  - destruct pick; intros [= <- <-]; (split; [|discriminate]).
    + exact Hok.
    + split; [exact He2 | exact Hn].
  - destruct (job w) as [j|].
    + destruct (mineBatch Sum256 j _ _ _ rnd) as [r|]; [|discriminate].
      intros [= <- <-]. split; [exact Hok|].
      destruct (found r); [|discriminate].
      intros sh [= <-]. exact Hlen.
    + intros [= <- <-]. split; [exact Hok | discriminate].
  - intros [= <- <-]. split; [|discriminate].
    split; [exact He2 | exact Hn].
Qed.

Lemma extranonce2_act a rnd w w' evs :
  start_size_is n a ->
  extranonce2_ok n w ->
  act Sum256 a rnd w = Returns (w', evs) ->
  extranonce2_ok n w' /\
  forall sh, In (Batch (Some sh)) evs ->
             Z.of_nat (String.length (shExtranonce2 sh)) = 2 * n.
Proof.
  intros Hsize Hok. destruct a as [e1 size| |j|p|pick]; simpl.
  - simpl in Hsize. subst size. unfold Start.
    destruct (running w).
    + intros [= <- <-]. split; [exact Hok | intros sh []].
    + destruct (generateExtranonce2 n rnd) as [e2|] eqn:Hgen; [|discriminate].
      intros [= <- <-]. split; [|intros sh []].
      exact (generateExtranonce2_length _ _ _ Hgen).
  - unfold Stop. destruct (running w); simpl.
    + destruct (shutdown w); [discriminate|].
      intros [= <- <-]. split; [exact Hok | intros sh []].
    + intros [= <- <-]. split; [exact Hok | intros sh []].
  - unfold UpdateJob.
    destruct (try_send (jobChannel w) j).
    + intros [= <- <-]. split; [exact Hok | intros sh []].
    + destruct (try_send _ j); [|discriminate].
      intros [= <- <-]. split; [exact Hok | intros sh []].
  - intros [= <- <-]. split; [exact Hok | intros sh []].
  - destruct (loops w).
    + intros [= <- <-]. split; [exact Hok | intros sh []].
    + destruct (mineLoop_iter Sum256 pick rnd w) as [[w1 ev]| |] eqn:Hit; try discriminate.
      simpl. intros [= <- <-].
      destruct (extranonce2_iter _ _ _ _ _ Hok Hit) as [Hok1 Hev].
      split; [exact Hok1|]. intros sh [Heq|[]]. exact (Hev sh Heq).
Qed.

Lemma extranonce2_run acts : forall w w' evs,
  Forall (fun p => start_size_is n (fst p)) acts ->
  extranonce2_ok n w ->
  run Sum256 acts w = Returns (w', evs) ->
  extranonce2_ok n w' /\
  forall sh, In (Batch (Some sh)) evs ->
             Z.of_nat (String.length (shExtranonce2 sh)) = 2 * n.
Proof.
  induction acts as [|[a rnd] acts IH]; intros w w' evs Hall Hok; simpl.
  - intros [= <- <-]. split; [exact Hok | intros sh []].
  - inversion_clear Hall as [|? ? Ha Hrest]. simpl in Ha.
    destruct (act Sum256 a rnd w) as [[w1 ev1]| |] eqn:Hact; try discriminate.
    destruct (run Sum256 acts w1) as [[w2 ev2]| |] eqn:Hrun; try discriminate.
    intros [= <- <-].
    destruct (extranonce2_act _ _ _ _ _ Ha Hok Hact) as [Hok1 Hev1].
    destruct (IH _ _ _ Hrest Hok1 Hrun) as [Hok2 Hev2].
    split; [exact Hok2|]. intros sh Hin.
    apply in_app_or in Hin as [Hin|Hin]; [exact (Hev1 _ Hin) | exact (Hev2 _ Hin)].
Qed.

End Extranonce2Facts.

(** C9. A worker started with [extranonce2_size = n] holds an extranonce2
    of 2n hexadecimal characters, every job it takes from its mailbox
    regenerates one of the same length, and every share it emits carries
    one of that length. *)
Theorem share_extranonce2_length Sum256 e1 n rnd w0 w1 acts w' evs :
  Miner.running w0 = false ->
  Miner.Start e1 n rnd w0 = Returns w1 ->
  Forall (fun p => Miner.start_size_is n (fst p)) acts ->
  Miner.run Sum256 acts w1 = Returns (w', evs) ->
  Z.of_nat (String.length (Miner.extranonce2 w1)) = 2 * n /\
  Z.of_nat (String.length (Miner.extranonce2 w')) = 2 * n /\
  forall sh, In (Miner.Batch (Some sh)) evs ->
             Z.of_nat (String.length (Miner.shExtranonce2 sh)) = 2 * n.
Proof.
  intros Hstopped Hstart Hall Hrun.
  assert (Hok : Miner.extranonce2_ok n w1).
  { unfold Miner.Start in Hstart. rewrite Hstopped in Hstart.
    destruct (Miner.generateExtranonce2 n rnd) as [e2|] eqn:Hgen; [|discriminate].
    injection Hstart as <-.
    exact (generateExtranonce2_length _ _ _ Hgen). }
  destruct (extranonce2_run Sum256 n acts w1 w' evs Hall Hok Hrun) as [[Hlen _] Hev].
  split; [exact (proj1 Hok)|]. split; [exact Hlen | exact Hev].
Qed.

Lemma share_extranonce2_length_witness :
  Miner.running Scenario.worker0 = false /\
  Miner.Start "81000001" 4 Scenario.draws Scenario.worker0 = Returns Scenario.workerS /\
  Forall (fun p => Miner.start_size_is 4 (fst p))
    [(Miner.AUpdateJob Scenario.jobA, Scenario.draws);
     (Miner.ALoop Miner.CaseJob, Scenario.draws);
     (Miner.ALoop Miner.CaseJob, Scenario.draws)] /\
  Miner.run SHA256.Sum256
    [(Miner.AUpdateJob Scenario.jobA, Scenario.draws);
     (Miner.ALoop Miner.CaseJob, Scenario.draws);
     (Miner.ALoop Miner.CaseJob, Scenario.draws)]
    Scenario.workerS
  = Returns (Scenario.workerA',
             [Miner.JobTaken Scenario.jobA; Miner.Batch (Some Scenario.shareA)]) /\
  Z.of_nat (String.length (Miner.extranonce2 Scenario.workerS)) = 2 * 4 /\
  Z.of_nat (String.length (Miner.extranonce2 Scenario.workerA')) = 2 * 4 /\
  forall sh,
    In (Miner.Batch (Some sh))
       [Miner.JobTaken Scenario.jobA; Miner.Batch (Some Scenario.shareA)] ->
    Z.of_nat (String.length (Miner.shExtranonce2 sh)) = 2 * 4.
Proof.
  assert (H0 : Miner.running Scenario.worker0 = false) by reflexivity.
  assert (H1 : Miner.Start "81000001" 4 Scenario.draws Scenario.worker0
               = Returns Scenario.workerS) by reflexivity.
  assert (H2 : Forall (fun p => Miner.start_size_is 4 (fst p))
                 [(Miner.AUpdateJob Scenario.jobA, Scenario.draws);
                  (Miner.ALoop Miner.CaseJob, Scenario.draws);
                  (Miner.ALoop Miner.CaseJob, Scenario.draws)]).
  { repeat constructor. }
  assert (H3 : Miner.run SHA256.Sum256
                 [(Miner.AUpdateJob Scenario.jobA, Scenario.draws);
                  (Miner.ALoop Miner.CaseJob, Scenario.draws);
                  (Miner.ALoop Miner.CaseJob, Scenario.draws)]
                 Scenario.workerS
               = Returns (Scenario.workerA',
                          [Miner.JobTaken Scenario.jobA;
                           Miner.Batch (Some Scenario.shareA)])).
  { vm_compute. reflexivity. }
  split; [exact H0|]. split; [exact H1|]. split; [exact H2|]. split; [exact H3|].
  exact (share_extranonce2_length SHA256.Sum256 "81000001" 4 Scenario.draws
           Scenario.worker0 Scenario.workerS _ _ _ H0 H1 H2 H3).
Defined.


(** ** The Stratum client *)

Section ClientFacts.

Import Stratum.

(** [Subscribe] numbers its request from the counter, wherever it stands,
    and [Connect] leaves the counter alone. *)
Lemma Subscribe_id c :
  conn c = Some SockOpen ->
  snd (fst (Subscribe c)) =
    [Sent (mkRequest (Big.to_int64 (requestID c + 1)) "mining.subscribe" [])] /\
  requestID (fst (fst (Subscribe c))) = Big.to_int64 (requestID c + 1).
Proof. intros Hconn. unfold Subscribe, nextID, send. simpl. rewrite Hconn. auto. Qed.

Lemma Connect_requestID dialed c :
  requestID (fst (fst (Connect dialed c))) = requestID c.
Proof. unfold Connect. destruct dialed; reflexivity. Qed.

(** A response is read as the answer to subscribe or authorize by its id
    alone: with any other id it changes nothing. *)
Lemma handleResponse_other_id resp c :
  RespID resp <> 1 -> RespID resp <> 2 -> handleResponse resp c = (c, []).
Proof.
  intros H1 H2. unfold handleResponse.
  destruct (Error resp); [reflexivity|].
  destruct (Z.eqb_spec (RespID resp) 1); [contradiction|].
  destruct (Z.eqb_spec (RespID resp) 2); [contradiction|].
  reflexivity.
Qed.

End ClientFacts.

(** C5, where the code departs from it. The ids come from one counter that
    [Connect] does not reset: on a client that is connected a second time,
    as the server does after a stop, [mining.subscribe] goes out with id 4
    and [mining.authorize] with id 5 (3 and 4 had no share been submitted),
    and the pool's answers to them, which the client tells by the ids 1 and
    2, leave it neither subscribed nor authorized. *)
Theorem reconnect_request_ids wallet :
  exists c,
    Stratum.run (Scenario.twoSessions wallet) Stratum.NewClient
    = Returns
        (c,
         [Stratum.OnConnected;
          Stratum.Sent (Stratum.mkRequest 1 "mining.subscribe" []);
          Stratum.Sent (Stratum.mkRequest 2 "mining.authorize"
                          [Json.JString wallet; Json.JString "x"]);
          Stratum.Sent (Stratum.mkRequest 3 "mining.submit"
                          [Json.JString wallet; Json.JString "jobA";
                           Json.JString "030a1118"; Json.JString "5f5e1000";
                           Json.JString "0000000a"]);
          Stratum.OnDisconnected;
          Stratum.OnConnected;
          Stratum.Sent (Stratum.mkRequest 4 "mining.subscribe" []);
          Stratum.Sent (Stratum.mkRequest 5 "mining.authorize"
                          [Json.JString wallet; Json.JString "x"])]) /\
    Stratum.run
      [Stratum.CResponse (Stratum.mkResponse 4 (Some Scenario.subscribeResult) None);
       Stratum.CResponse (Stratum.mkResponse 5 (Some (Json.JBool true)) None)] c
    = Returns (c, []) /\
    Stratum.subscribed c = false /\
    Stratum.authorized c = false.
Proof.
  exists (Stratum.mkClient (Some Stratum.SockOpen) "" 0 false false None 5 false true 1).
  vm_compute. repeat split.
Qed.

(** On a client used for the first time the same answers, under the ids 1
    and 2, are taken. *)
Example first_session_handshake :
  exists c,
    Stratum.run
      [Stratum.CConnect true; Stratum.CSubscribe;
       Stratum.CResponse (Stratum.mkResponse 1 (Some Scenario.subscribeResult) None);
       Stratum.CAuthorize "wallet" "";
       Stratum.CResponse (Stratum.mkResponse 2 (Some (Json.JBool true)) None)]
      Stratum.NewClient
    = Returns
        (c,
         [Stratum.OnConnected;
          Stratum.Sent (Stratum.mkRequest 1 "mining.subscribe" []);
          Stratum.OnSubscribed "81000002" 4;
          Stratum.Sent (Stratum.mkRequest 2 "mining.authorize"
                          [Json.JString "wallet"; Json.JString "x"]);
          Stratum.OnAuthorized true]) /\
    Stratum.subscribed c = true /\
    Stratum.authorized c = true /\
    Stratum.extranonce1 c = "81000002"%string /\
    Stratum.extranonce2Size c = 4.
Proof.
  exists (Stratum.mkClient (Some Stratum.SockOpen) "81000002" 4 true true None 2
            false true 1).
  vm_compute. repeat split.
Qed.

(** C8. A [mining.notify] whose params array has fewer than 9 elements is
    dropped: the client, its current job included, is unchanged, and no
    callback is invoked. *)
Theorem short_notify_dropped (params : list Json.value) (c : Stratum.Client) :
  (length params < 9)%nat ->
  Stratum.handleNotification
    (Stratum.mkNotification "mining.notify" (Some (Json.JArray params))) c
  = (c, []).
Proof.
  intros Hshort. unfold Stratum.handleNotification, Stratum.handleMiningNotify.
  cbn [Stratum.Method Stratum.Params Json.unmarshal_array].
  change (String.eqb "mining.notify" "mining.notify") with true. cbv iota.
  destruct (Nat.ltb_spec (length params) 9); [reflexivity | lia].
Qed.

Lemma short_notify_dropped_witness :
  (length Scenario.shortParams < 9)%nat /\
  Stratum.handleNotification
    (Stratum.mkNotification "mining.notify" (Some (Json.JArray Scenario.shortParams)))
    Stratum.NewClient
  = (Stratum.NewClient, []).
Proof.
  assert (Hshort : (length Scenario.shortParams < 9)%nat) by (simpl; lia).
  split; [exact Hshort|].
  exact (short_notify_dropped Scenario.shortParams Stratum.NewClient Hshort).
Defined.

(** With the ninth parameter the job is stored and handed to the callback. *)
Example full_notify_taken :
  exists j,
    Stratum.handleNotification
      (Stratum.mkNotification "mining.notify"
         (Some (Json.JArray (Scenario.shortParams ++ [Json.JBool true]))))
      Stratum.NewClient
    = (Stratum.mkClient None "" 0 false false (Some j) 0 false false 0,
       [Stratum.OnJobReceived j]) /\
    Stratum.ID j = "jobA"%string /\ Stratum.CleanJobs j = true.
Proof.
  exists (Stratum.mkJob "jobA" "00" "01" "ff" [] "20000000" "207fffff" "5f5e1000" true).
  vm_compute. repeat split.
Qed.


(** ** The configuration *)

Section ConfigFacts.

Import Config.

Lemma as_string_match (o : option Json.value) (d : string) :
  match o with Some (Json.JString v) => v | _ => d end =
  match as_string o with Some v => v | None => d end.
Proof. destruct o as [[]|]; reflexivity. Qed.

Lemma as_float64_match (o : option Json.value) (d : Z) :
  match o with Some (Json.JNumber f _) => Json.int_of_float64 f | _ => d end =
  match as_float64 o with Some f => Json.int_of_float64 f | None => d end.
Proof. destruct o as [[]|]; reflexivity. Qed.

End ConfigFacts.

(** C10. [Update] applies the keys pool_url, pool_port, wallet_address,
    max_cpu_percent and num_workers, each only when its value has the
    matching dynamic type (a string for pool_url and wallet_address, a
    number for the others); a key that is absent or has a value of another
    type leaves its field as it was; and nothing else in the map matters:
    two maps that agree on the five keys give the same configuration. *)
Theorem Update_applies_matching_keys (updates : gmap string Json.value)
    (c : Config.Config) :
  Config.PoolURL (Config.Update updates c) =
    match updates !! "pool_url"%string with
    | Some (Json.JString v) => v
    | _ => Config.PoolURL c
    end /\
  Config.PoolPort (Config.Update updates c) =
    match updates !! "pool_port"%string with
    | Some (Json.JNumber f _) => Json.int_of_float64 f
    | _ => Config.PoolPort c
    end /\
  Config.WalletAddress (Config.Update updates c) =
    match updates !! "wallet_address"%string with
    | Some (Json.JString v) => v
    | _ => Config.WalletAddress c
    end /\
  Config.MaxCPUPercent (Config.Update updates c) =
    match updates !! "max_cpu_percent"%string with
    | Some (Json.JNumber f _) => Json.int_of_float64 f
    | _ => Config.MaxCPUPercent c
    end /\
  Config.NumWorkers (Config.Update updates c) =
    match updates !! "num_workers"%string with
    | Some (Json.JNumber f _) => Json.int_of_float64 f
    | _ => Config.NumWorkers c
    end /\
  forall updates' : gmap string Json.value,
    (forall k, In k Config.keys -> updates' !! k = updates !! k) ->
    Config.Update updates' c = Config.Update updates c.
Proof.
  split; [|split; [|split; [|split; [|split]]]].
  1-5: rewrite ?as_string_match, ?as_float64_match; unfold Config.Update;
       destruct (Config.as_string (updates !! "pool_url"%string)),
                (Config.as_float64 (updates !! "pool_port"%string)),
                (Config.as_string (updates !! "wallet_address"%string)),
                (Config.as_float64 (updates !! "max_cpu_percent"%string)),
                (Config.as_float64 (updates !! "num_workers"%string));
       reflexivity.
  intros updates' Hagree. unfold Config.Update.
  rewrite !Hagree by (unfold Config.keys; simpl; tauto).
  reflexivity.
Qed.

(** A port given as a string is ignored, like a key the configuration does
    not have; the pool URL and the CPU percentage are applied. *)
Example Update_updatesA :
  Config.Update Scenario.updatesA Config.DefaultConfig =
  Config.mkConfig "pool.example.org" 3333 "1FngDUBvDhPh9z3paCRHFEtHjnUMAFacn9" 50 4.
Proof. vm_compute. reflexivity. Qed.

(** * More of the worker *)

(** ** Hexadecimal round trips *)

Section HexRoundTrip.

Lemma byte_in_allBytes b : 0 <= b < 256 -> In b Endian.allBytes.
Proof.
  intros Hb. unfold Endian.allBytes. apply in_map_iff.
  exists (Z.to_nat b). split; [lia|]. apply in_seq. lia.
Qed.

(** Every byte is decoded back from its two digits. *)
Lemma byte_digits b :
  0 <= b < 256 ->
  Hex.fromHexChar (Hex.hexdigit (Z.shiftr b 4)) = Some (Z.shiftr b 4) /\
  Hex.fromHexChar (Hex.hexdigit (Z.land b 15)) = Some (Z.land b 15) /\
  Z.lor (Z.shiftl (Z.shiftr b 4) 4) (Z.land b 15) = b.
Proof.
  intros Hb.
  assert (Hall : forallb (fun b =>
            match Hex.fromHexChar (Hex.hexdigit (Z.shiftr b 4)),
                  Hex.fromHexChar (Hex.hexdigit (Z.land b 15)) with
            | Some hi, Some lo =>
                (hi =? Z.shiftr b 4) && (lo =? Z.land b 15) &&
                (Z.lor (Z.shiftl (Z.shiftr b 4) 4) (Z.land b 15) =? b)
            | _, _ => false
            end) Endian.allBytes = true) by (vm_compute; reflexivity).
  rewrite forallb_forall in Hall. specialize (Hall b (byte_in_allBytes b Hb)).
  destruct (Hex.fromHexChar (Hex.hexdigit (Z.shiftr b 4))) as [hi|]; [|discriminate].
  destruct (Hex.fromHexChar (Hex.hexdigit (Z.land b 15))) as [lo|]; [|discriminate].
  apply andb_true_iff in Hall as [Hall H3]. apply andb_true_iff in Hall as [H1 H2].
  apply Z.eqb_eq in H1, H2, H3. subst. auto.
Qed.

Lemma Decode_Encode bs :
  Forall (fun b => 0 <= b < 256) bs -> Hex.Decode (Hex.Encode bs) = (bs, None).
Proof.
  induction 1 as [|b bs Hb _ IH]; [reflexivity|].
  destruct (byte_digits b Hb) as (H1 & H2 & H3).
  cbn [Hex.Encode Hex.Decode]. rewrite H1, H2, IH. cbn [fst snd]. now rewrite H3.
Qed.

Lemma DecodeString_EncodeToString bs :
  Forall (fun b => 0 <= b < 256) bs ->
  Hex.DecodeString (Hex.EncodeToString bs) = (bs, None).
Proof.
  intros Hbs. unfold Hex.DecodeString, Hex.EncodeToString.
  rewrite String.list_ascii_of_string_of_list_ascii. now apply Decode_Encode.
Qed.

Lemma Read_bytes rnd n : Forall (fun b => 0 <= b < 256) (Miner.Read rnd n).
Proof.
  unfold Miner.Read. apply Forall_forall. intros b Hin.
  apply list_elem_of_In, in_map_iff in Hin as (i & <- & _).
  apply Z.mod_pos_bound. lia.
Qed.

(** Decoding goes through a concatenation whose first part decodes without
    an error. *)
Lemma Decode_app a : forall b,
  snd (Hex.Decode a) = None ->
  Hex.Decode (a ++ b) = (fst (Hex.Decode a) ++ fst (Hex.Decode b), snd (Hex.Decode b)).
Proof.
  remember (length a) as n eqn:Hn. revert a Hn.
  induction n as [n IH] using lt_wf_ind. intros a -> b.
  destruct a as [|p [|q rest]].
  - intros _. simpl. now destruct (Hex.Decode b).
  - simpl. destruct (Hex.fromHexChar p); discriminate.
  - cbn [Hex.Decode app].
    destruct (Hex.fromHexChar p) as [x|]; [|discriminate].
    destruct (Hex.fromHexChar q) as [y|]; [|discriminate].
    cbn [fst snd]. intros Hrest.
    rewrite (IH (length rest)) by (simpl; lia || reflexivity || exact Hrest).
    reflexivity.
Qed.

(** An invalid digit ends the decoding whatever follows the text. *)
Lemma Decode_invalid a : forall b c,
  snd (Hex.Decode a) = Some (Hex.InvalidByteError c) ->
  Hex.Decode (a ++ b) = Hex.Decode a.
Proof.
  remember (length a) as n eqn:Hn. revert a Hn.
  induction n as [n IH] using lt_wf_ind. intros a -> b c.
  destruct a as [|p [|q rest]].
  - discriminate.
  - cbn [Hex.Decode app]. destruct (Hex.fromHexChar p) eqn:Hp; [discriminate|].
    intros _. destruct b as [|q b]; simpl; rewrite ?Hp; reflexivity.
  - cbn [Hex.Decode app].
    destruct (Hex.fromHexChar p) as [x|]; [|reflexivity].
    destruct (Hex.fromHexChar q) as [y|]; [|reflexivity].
    cbn [fst snd]. intros Hrest.
    rewrite (IH (length rest) ltac:(simpl; lia) rest eq_refl b c Hrest).
    reflexivity.
Qed.

Lemma list_ascii_of_append s1 s2 :
  String.list_ascii_of_string (String.append s1 s2) =
  String.list_ascii_of_string s1 ++ String.list_ascii_of_string s2.
Proof. induction s1 as [|c s1 IH]; simpl; [reflexivity | now rewrite IH]. Qed.

Lemma DecodeString_append s1 s2 :
  snd (Hex.DecodeString s1) = None ->
  Hex.DecodeString (String.append s1 s2) =
  (fst (Hex.DecodeString s1) ++ fst (Hex.DecodeString s2), snd (Hex.DecodeString s2)).
Proof.
  unfold Hex.DecodeString. rewrite list_ascii_of_append. apply Decode_app.
Qed.

End HexRoundTrip.

(** X1. The extranonce2 a worker generates decodes back, without an error,
    to the [size] bytes that were drawn for it. *)
Theorem extranonce2_decodes size rnd e2 :
  Miner.generateExtranonce2 size rnd = Some e2 ->
  Hex.DecodeString e2 = (Miner.Read rnd (Z.to_nat size), None) /\
  length (fst (Hex.DecodeString e2)) = Z.to_nat size.
Proof.
  unfold Miner.generateExtranonce2.
  destruct ((size <? 0) || (Big.maxAlloc <? size)); [discriminate|].
  intros [= <-].
  rewrite DecodeString_EncodeToString by apply Read_bytes.
  split; [reflexivity|]. cbn [fst]. apply Read_length.
Qed.

Lemma extranonce2_decodes_witness :
  Miner.generateExtranonce2 4 Scenario.draws = Some "030a1118"%string /\
  Hex.DecodeString "030a1118" = (Miner.Read Scenario.draws (Z.to_nat 4), None) /\
  length (fst (Hex.DecodeString "030a1118")) = Z.to_nat 4.
Proof.
  assert (H : Miner.generateExtranonce2 4 Scenario.draws = Some "030a1118"%string)
    by reflexivity.
  split; [exact H|].
  exact (extranonce2_decodes 4 Scenario.draws "030a1118" H).
Defined.

(** X2. When the four hexadecimal parts decode without an error, the
    coinbase the worker hashes is coinbase1, extranonce1, extranonce2 and
    coinbase2 decoded and put end to end. *)
Theorem coinbase_is_concatenation Sum256 job e1 e2 :
  snd (Hex.DecodeString (Stratum.Coinbase1 job)) = None ->
  snd (Hex.DecodeString e1) = None ->
  snd (Hex.DecodeString e2) = None ->
  Miner.coinbaseBytes job e1 e2 =
    fst (Hex.DecodeString (Stratum.Coinbase1 job)) ++ fst (Hex.DecodeString e1) ++
    fst (Hex.DecodeString e2) ++ fst (Hex.DecodeString (Stratum.Coinbase2 job)) /\
  (Stratum.MerkleBranch job = [] ->
   Miner.merkleRoot Sum256 job e1 e2 =
   Miner.doubleSHA256 Sum256
     (fst (Hex.DecodeString (Stratum.Coinbase1 job)) ++ fst (Hex.DecodeString e1) ++
      fst (Hex.DecodeString e2) ++ fst (Hex.DecodeString (Stratum.Coinbase2 job)))).
Proof.
  intros H1 H2 H3.
  assert (E : Miner.coinbaseBytes job e1 e2 =
              fst (Hex.DecodeString (Stratum.Coinbase1 job)) ++ fst (Hex.DecodeString e1) ++
              fst (Hex.DecodeString e2) ++ fst (Hex.DecodeString (Stratum.Coinbase2 job))).
  { unfold Miner.coinbaseBytes.
    rewrite (DecodeString_append _ _ H1). cbn [fst].
    rewrite (DecodeString_append _ _ H2). cbn [fst].
    rewrite (DecodeString_append _ _ H3). reflexivity. }
  split; [exact E|].
  intros Hb. unfold Miner.merkleRoot. rewrite Hb, E. reflexivity.
Qed.

Lemma coinbase_is_concatenation_witness :
  snd (Hex.DecodeString (Stratum.Coinbase1 Scenario.jobB)) = None /\
  snd (Hex.DecodeString "81000001") = None /\
  snd (Hex.DecodeString "00000000") = None /\
  Miner.coinbaseBytes Scenario.jobB "81000001" "00000000" =
    fst (Hex.DecodeString (Stratum.Coinbase1 Scenario.jobB)) ++
    fst (Hex.DecodeString "81000001") ++
    fst (Hex.DecodeString "00000000") ++
    fst (Hex.DecodeString (Stratum.Coinbase2 Scenario.jobB)) /\
  (Stratum.MerkleBranch Scenario.jobB = [] ->
   Miner.merkleRoot SHA256.Sum256 Scenario.jobB "81000001" "00000000" =
   Miner.doubleSHA256 SHA256.Sum256
     (fst (Hex.DecodeString (Stratum.Coinbase1 Scenario.jobB)) ++
      fst (Hex.DecodeString "81000001") ++
      fst (Hex.DecodeString "00000000") ++
      fst (Hex.DecodeString (Stratum.Coinbase2 Scenario.jobB)))).
Proof.
  assert (H1 : snd (Hex.DecodeString (Stratum.Coinbase1 Scenario.jobB)) = None)
    by reflexivity.
  assert (H2 : snd (Hex.DecodeString "81000001") = None) by reflexivity.
  assert (H3 : snd (Hex.DecodeString "00000000") = None) by reflexivity.
  split; [exact H1|]. split; [exact H2|]. split; [exact H3|].
  exact (coinbase_is_concatenation SHA256.Sum256 Scenario.jobB "81000001" "00000000"
           H1 H2 H3).
Defined.

(** X3. When coinbase1 holds an invalid hexadecimal digit, the coinbase is
    what was decoded before that digit: the extranonces and coinbase2 are
    left out without an error, so that the Merkle root and the header no
    longer depend on extranonce1 and extranonce2. *)
Theorem coinbase_cut_at_invalid_digit Sum256 job c e1 e2 e1' e2' :
  snd (Hex.DecodeString (Stratum.Coinbase1 job)) = Some (Hex.InvalidByteError c) ->
  Miner.coinbaseBytes job e1 e2 = fst (Hex.DecodeString (Stratum.Coinbase1 job)) /\
  Miner.blockHeader Sum256 job e1 e2 = Miner.blockHeader Sum256 job e1' e2'.
Proof.
  intros Hbad.
  assert (E : forall x y, Miner.coinbaseBytes job x y
                          = fst (Hex.DecodeString (Stratum.Coinbase1 job))).
  { intros x y. unfold Miner.coinbaseBytes, Hex.DecodeString in *.
    rewrite list_ascii_of_append. now rewrite (Decode_invalid _ _ c Hbad). }
  split; [apply E|].
  unfold Miner.blockHeader, Miner.merkleRoot. now rewrite !E.
Qed.

(** ** Nonces *)

Section NonceFacts.

Lemma land_255 x : 0 <= Z.land x 255 < 256.
Proof. change 255 with (Z.ones 8). rewrite Z.land_ones by lia. apply Z.mod_pos_bound. lia. Qed.

Lemma nonce_bytes_value n :
  0 <= n < 2 ^ 32 ->
  Big.SetBytes [Z.land (Z.shiftr n 24) 255; Z.land (Z.shiftr n 16) 255;
                Z.land (Z.shiftr n 8) 255; Z.land n 255] = n.
Proof.
  intros Hn. unfold Big.SetBytes. cbn [fold_left].
  change 255 with (Z.ones 8). rewrite !Z.land_ones, !Z.shiftr_div_pow2 by lia.
  change (2 ^ 8) with 256. change (2 ^ 16) with 65536. change (2 ^ 24) with 16777216.
  change (2 ^ 32) with 4294967296 in Hn.
  Z.div_mod_to_equations. lia.
Qed.

End NonceFacts.

(** X4. A nonce of 32 bits is reported as eight hexadecimal digits that
    decode, without an error, to its big-endian bytes; the four bytes
    written into the header at [76, 80) are the same bytes in the reverse
    order, and the 76 bytes before them are left as they were. *)
Theorem nonce_encodings nonce hdr :
  0 <= nonce < 2 ^ 32 ->
  length hdr = 80%nat ->
  String.length (Miner.Sprintf_08x nonce) = 8%nat /\
  snd (Hex.DecodeString (Miner.Sprintf_08x nonce)) = None /\
  Big.SetBytes (fst (Hex.DecodeString (Miner.Sprintf_08x nonce))) = nonce /\
  drop 76 (Miner.PutUint32 76 hdr nonce) =
    rev (fst (Hex.DecodeString (Miner.Sprintf_08x nonce))) /\
  take 76 (Miner.PutUint32 76 hdr nonce) = take 76 hdr.
Proof.
  intros Hn Hlen. unfold Miner.Sprintf_08x.
  rewrite EncodeToString_length.
  rewrite DecodeString_EncodeToString by (repeat constructor; apply land_255).
  cbn [fst snd length]. rewrite nonce_bytes_value by exact Hn.
  assert (H76 : length (take 76 hdr) = 76%nat) by (rewrite length_take; lia).
  unfold Miner.PutUint32.
  repeat split.
  - rewrite drop_app_length' by (symmetry; exact H76).
    replace (drop (76 + 4) hdr) with (@nil Z)
      by (symmetry; apply drop_ge; lia).
    reflexivity.
  - rewrite take_app_length' by (symmetry; exact H76). reflexivity.
Qed.

Lemma nonce_encodings_witness :
  0 <= Scenario.genesisNonce < 2 ^ 32 /\
  length Scenario.genesisHeader = 80%nat /\
  String.length (Miner.Sprintf_08x Scenario.genesisNonce) = 8%nat /\
  snd (Hex.DecodeString (Miner.Sprintf_08x Scenario.genesisNonce)) = None /\
  Big.SetBytes (fst (Hex.DecodeString (Miner.Sprintf_08x Scenario.genesisNonce)))
    = Scenario.genesisNonce /\
  drop 76 (Miner.PutUint32 76 Scenario.genesisHeader Scenario.genesisNonce) =
    rev (fst (Hex.DecodeString (Miner.Sprintf_08x Scenario.genesisNonce))) /\
  take 76 (Miner.PutUint32 76 Scenario.genesisHeader Scenario.genesisNonce)
    = take 76 Scenario.genesisHeader.
Proof.
  assert (Hn : 0 <= Scenario.genesisNonce < 2 ^ 32) by (unfold Scenario.genesisNonce; lia).
  assert (Hlen : length Scenario.genesisHeader = 80%nat) by reflexivity.
  split; [exact Hn|]. split; [exact Hlen|].
  exact (nonce_encodings Scenario.genesisNonce Scenario.genesisHeader Hn Hlen).
Defined.

(** ** Integers from digests *)

Section EndianFacts.

Lemma SetBytes_rev d : Big.SetBytes (rev d) = Endian.littleEndian d.
Proof.
  unfold Big.SetBytes, Endian.littleEndian.
  rewrite <- fold_left_rev_right, rev_involutive.
  induction d as [|b d IH]; simpl; [reflexivity|]. rewrite IH. lia.
Qed.

Lemma littleEndian_bound d :
  Forall (fun b => 0 <= b < 256) d ->
  0 <= Endian.littleEndian d < 256 ^ Z.of_nat (length d).
Proof.
  induction 1 as [|b d Hb _ IH]; [simpl; lia|].
  cbn [Endian.littleEndian fold_right length].
  fold (Endian.littleEndian d).
  rewrite Nat2Z.inj_succ, Z.pow_succ_r by lia. lia.
Qed.

End EndianFacts.

(** X5. The integer compared with the target, the big-endian reading of the
    reversed digest, is the little-endian reading of the digest itself;
    reversing twice gives the bytes back; and for a digest of n bytes the
    integer lies in [0, 256^n). *)
Theorem hash_integer_is_little_endian (d : list Z) :
  Big.SetBytes (Miner.reverseBytes d) = Endian.littleEndian d /\
  Miner.reverseBytes (Miner.reverseBytes d) = d /\
  length (Miner.reverseBytes d) = length d /\
  (Forall (fun b => 0 <= b < 256) d ->
   0 <= Big.SetBytes (Miner.reverseBytes d) < 256 ^ Z.of_nat (length d)).
Proof.
  unfold Miner.reverseBytes.
  split; [apply SetBytes_rev|]. split; [apply rev_involutive|].
  split; [apply length_rev|].
  intros Hd. rewrite SetBytes_rev. now apply littleEndian_bound.
Qed.

Lemma coinbase_cut_at_invalid_digit_witness :
  snd (Hex.DecodeString (Stratum.Coinbase1 Cases.jobBadCoinbase))
    = Some (Hex.InvalidByteError "z") /\
  Miner.coinbaseBytes Cases.jobBadCoinbase "81000001" "030a1118"
    = fst (Hex.DecodeString (Stratum.Coinbase1 Cases.jobBadCoinbase)) /\
  Miner.blockHeader SHA256.Sum256 Cases.jobBadCoinbase "81000001" "030a1118"
    = Miner.blockHeader SHA256.Sum256 Cases.jobBadCoinbase "81000002" "ffffffff".
Proof.
  assert (H : snd (Hex.DecodeString (Stratum.Coinbase1 Cases.jobBadCoinbase))
              = Some (Hex.InvalidByteError "z")) by reflexivity.
  split; [exact H|].
  exact (coinbase_cut_at_invalid_digit SHA256.Sum256 Cases.jobBadCoinbase "z"
           "81000001" "030a1118" "81000002" "ffffffff" H).
Defined.

(** ** The accounting of a batch *)

Section BatchAccounting.

Import Stratum Miner.

Variable Sum256 : list Z -> list Z.

(** A batch that finds nothing has made every attempt. *)
Lemma batchLoop_not_found target rnd hdr0 :
  length hdr0 = 80%nat ->
  forall n i hdr best bn hs,
    hdr = hdr0 \/ (exists u, hdr = PutUint32 76 hdr0 u) ->
    0 <= best ->
    found (batchLoop Sum256 target rnd n i hdr best bn hs) = false ->
    hashes (batchLoop Sum256 target rnd n i hdr best bn hs) = hs + Z.of_nat n /\
    (forall j, (i <= j < i + n)%nat -> target < attemptHash Sum256 hdr0 rnd j) /\
    difficulty (batchLoop Sum256 target rnd n i hdr best bn hs)
      = fold_left
          (fun b j => Z.max b (attemptDifficulty (attemptHash Sum256 hdr0 rnd j)))
          (seq i n) best.
Proof.
  intros Hlen. induction n as [|n IH]; intros i hdr best bn hs Hhdr Hbest Hnot.
  - simpl. repeat split; [lia | intros j Hj; lia].
  - cbn [batchLoop] in Hnot |- *.
    rewrite (PutUint32_absorb hdr0 hdr _ Hlen Hhdr) in Hnot |- *.
    fold (attemptHash Sum256 hdr0 rnd i) in Hnot |- *.
    set (h := attemptHash Sum256 hdr0 rnd i) in *.
    pose proof (best_update best h (Uint32 rnd i) bn Hbest) as Hupd.
    destruct (if 0 <? h
              then if best <? Big.float64_of_int64 (Big.Int64 (difficulty1Target / h))
                   then (Big.float64_of_int64 (Big.Int64 (difficulty1Target / h)),
                         Sprintf_08x (Uint32 rnd i))
                   else (best, bn)
              else (best, bn)) as [best' bn'].
    simpl in Hupd. subst best'.
    destruct (Z.leb_spec h target) as [Hle|Hgt]; [discriminate|].
    destruct (IH (S i) (PutUint32 76 hdr0 (Uint32 rnd i))
                 (Z.max best (attemptDifficulty h)) bn' (hs + 1))
      as (Hhs & Hlose & Hdiff); [eauto | lia | exact Hnot |].
    repeat split.
    + rewrite Hhs. lia.
    + intros j Hj. destruct (Nat.eq_dec j i) as [->|Hne]; [exact Hgt|].
      apply Hlose. lia.
    + rewrite Hdiff. reflexivity.
Qed.

(** A batch that finds a share has made one attempt more than the index of
    the first hash within the target. *)
Lemma batchLoop_found_hashes target rnd hdr0 :
  length hdr0 = 80%nat ->
  forall n i hdr best bn hs,
    hdr = hdr0 \/ (exists u, hdr = PutUint32 76 hdr0 u) ->
    found (batchLoop Sum256 target rnd n i hdr best bn hs) = true ->
    exists k,
      (i <= k < i + n)%nat /\
      hashes (batchLoop Sum256 target rnd n i hdr best bn hs)
        = hs + Z.of_nat (k - i) + 1 /\
      nonceHex (batchLoop Sum256 target rnd n i hdr best bn hs)
        = Sprintf_08x (Uint32 rnd k) /\
      attemptHash Sum256 hdr0 rnd k <= target /\
      (forall j, (i <= j < k)%nat -> target < attemptHash Sum256 hdr0 rnd j).
Proof.
  intros Hlen. induction n as [|n IH]; intros i hdr best bn hs Hhdr Hfound.
  - discriminate.
  - cbn [batchLoop] in Hfound |- *.
    rewrite (PutUint32_absorb hdr0 hdr _ Hlen Hhdr) in Hfound |- *.
    fold (attemptHash Sum256 hdr0 rnd i) in Hfound |- *.
    set (h := attemptHash Sum256 hdr0 rnd i) in *.
    destruct (if 0 <? h
              then if best <? Big.float64_of_int64 (Big.Int64 (difficulty1Target / h))
                   then (Big.float64_of_int64 (Big.Int64 (difficulty1Target / h)),
                         Sprintf_08x (Uint32 rnd i))
                   else (best, bn)
              else (best, bn)) as [best' bn'].
    destruct (Z.leb_spec h target) as [Hle|Hgt].
    + exists i. cbn [hashes nonceHex]. rewrite Nat.sub_diag.
      repeat split; try lia.
    + destruct (IH (S i) (PutUint32 76 hdr0 (Uint32 rnd i)) best' bn' (hs + 1))
        as (k & Hk & Hhs & Hnonce & Hwin & Hlose); [eauto | exact Hfound |].
      exists k. repeat split; try lia; try assumption.
      intros j Hj. destruct (Nat.eq_dec j i) as [->|Hne]; [exact Hgt|].
      apply Hlose. lia.
Qed.


End BatchAccounting.

(** X6. A batch that finds no share has hashed [batchSize] headers, every
    one of them above the target, and reports the best difficulty among
    them, with the nonce of no share. *)
Theorem batch_without_share Sum256 job e1 e2 batchSize rnd r T :
  0 <= batchSize ->
  Miner.calculateTarget (Stratum.NBits job) = Some T ->
  Miner.mineBatch Sum256 job e1 e2 batchSize rnd = Some r ->
  Miner.found r = false ->
  Miner.hashes r = batchSize /\
  (forall k, Z.of_nat k < batchSize ->
     T < Miner.attemptHash Sum256 (Miner.blockHeader Sum256 job e1 e2) rnd k) /\
  Miner.difficulty r =
    Miner.bestBefore Sum256 (Miner.blockHeader Sum256 job e1 e2) rnd (Z.to_nat batchSize) /\
  0 <= Miner.difficulty r.
Proof.
  intros Hsize HT. unfold Miner.mineBatch. rewrite HT. intros [= <-] Hnot.
  destruct (batchLoop_not_found Sum256 T rnd (Miner.blockHeader Sum256 job e1 e2)
              (header_length Sum256 job e1 e2)
              (Z.to_nat batchSize) 0 (Miner.blockHeader Sum256 job e1 e2) 0
              String.EmptyString 0)
    as (Hhs & Hlose & Hdiff); [auto | lia | exact Hnot |].
  split; [rewrite Hhs; lia|].
  split; [intros k Hk; apply Hlose; lia|].
  split; [exact Hdiff|].
  rewrite Hdiff. apply bestBefore_nonneg.
Qed.

Lemma batch_without_share_witness :
  0 <= 3 /\
  Miner.calculateTarget (Stratum.NBits Cases.jobHard) = Some Miner.difficulty1Target /\
  Miner.mineBatch SHA256.Sum256 Cases.jobHard "81000001" "030a1118" 3 Scenario.draws
    = Some (Miner.mkBatch false "" 0 3) /\
  Miner.found (Miner.mkBatch false "" 0 3) = false /\
  Miner.hashes (Miner.mkBatch false "" 0 3) = 3 /\
  (forall k, Z.of_nat k < 3 ->
     Miner.difficulty1Target <
     Miner.attemptHash SHA256.Sum256
       (Miner.blockHeader SHA256.Sum256 Cases.jobHard "81000001" "030a1118")
       Scenario.draws k) /\
  Miner.difficulty (Miner.mkBatch false "" 0 3) =
    Miner.bestBefore SHA256.Sum256
      (Miner.blockHeader SHA256.Sum256 Cases.jobHard "81000001" "030a1118")
      Scenario.draws (Z.to_nat 3) /\
  0 <= Miner.difficulty (Miner.mkBatch false "" 0 3).
Proof.
  assert (H0 : 0 <= 3) by lia.
  assert (HT : Miner.calculateTarget (Stratum.NBits Cases.jobHard)
               = Some Miner.difficulty1Target) by (vm_compute; reflexivity).
  assert (Hr : Miner.mineBatch SHA256.Sum256 Cases.jobHard "81000001" "030a1118" 3
                 Scenario.draws = Some (Miner.mkBatch false "" 0 3))
    by (vm_compute; reflexivity).
  assert (Hf : Miner.found (Miner.mkBatch false "" 0 3) = false) by reflexivity.
  split; [exact H0|]. split; [exact HT|]. split; [exact Hr|]. split; [exact Hf|].
  exact (batch_without_share SHA256.Sum256 Cases.jobHard "81000001" "030a1118" 3
           Scenario.draws _ _ H0 HT Hr Hf).
Defined.

(** X7. A batch that finds a share stops there: the share is for the first
    attempt whose hash is within the target, every earlier attempt was
    above it, and the hashes counted are the attempts made, one more than
    the index of the winning one. *)
Theorem batch_stops_at_first_share Sum256 job e1 e2 batchSize rnd r T :
  Miner.calculateTarget (Stratum.NBits job) = Some T ->
  Miner.mineBatch Sum256 job e1 e2 batchSize rnd = Some r ->
  Miner.found r = true ->
  exists k : nat,
    Z.of_nat k < batchSize /\
    Miner.hashes r = Z.of_nat k + 1 /\
    Miner.nonceHex r = Miner.Sprintf_08x (Miner.Uint32 rnd k) /\
    Miner.attemptHash Sum256 (Miner.blockHeader Sum256 job e1 e2) rnd k <= T /\
    forall j, (j < k)%nat ->
      T < Miner.attemptHash Sum256 (Miner.blockHeader Sum256 job e1 e2) rnd j.
Proof.
  intros HT. unfold Miner.mineBatch. rewrite HT. intros [= <-] Hfound.
  destruct (batchLoop_found_hashes Sum256 T rnd (Miner.blockHeader Sum256 job e1 e2)
              (header_length Sum256 job e1 e2)
              (Z.to_nat batchSize) 0 (Miner.blockHeader Sum256 job e1 e2) 0
              String.EmptyString 0)
    as (k & Hk & Hhs & Hnonce & Hwin & Hlose); [auto | exact Hfound |].
  exists k. rewrite Nat.sub_0_r in Hhs.
  split; [lia|]. split; [rewrite Hhs; lia|]. split; [exact Hnonce|].
  split; [exact Hwin|]. intros j Hj. apply Hlose. lia.
Qed.

Lemma batch_stops_at_first_share_witness :
  Miner.calculateTarget (Stratum.NBits Scenario.jobA) = Some (0x7fffff * 2 ^ 232) /\
  Miner.mineBatch SHA256.Sum256 Scenario.jobA "81000001" "030a1118" 1000 Scenario.draws
    = Some (Miner.mkBatch true "0000000a" 0 2) /\
  Miner.found (Miner.mkBatch true "0000000a" 0 2) = true /\
  exists k : nat,
    Z.of_nat k < 1000 /\
    Miner.hashes (Miner.mkBatch true "0000000a" 0 2) = Z.of_nat k + 1 /\
    Miner.nonceHex (Miner.mkBatch true "0000000a" 0 2)
      = Miner.Sprintf_08x (Miner.Uint32 Scenario.draws k) /\
    Miner.attemptHash SHA256.Sum256
      (Miner.blockHeader SHA256.Sum256 Scenario.jobA "81000001" "030a1118")
      Scenario.draws k <= 0x7fffff * 2 ^ 232 /\
    forall j, (j < k)%nat ->
      0x7fffff * 2 ^ 232 <
      Miner.attemptHash SHA256.Sum256
        (Miner.blockHeader SHA256.Sum256 Scenario.jobA "81000001" "030a1118")
        Scenario.draws j.
Proof.
  assert (HT : Miner.calculateTarget (Stratum.NBits Scenario.jobA)
               = Some (0x7fffff * 2 ^ 232)) by (vm_compute; reflexivity).
  assert (Hr : Miner.mineBatch SHA256.Sum256 Scenario.jobA "81000001" "030a1118" 1000
                 Scenario.draws = Some (Miner.mkBatch true "0000000a" 0 2))
    by (vm_compute; reflexivity).
  assert (Hf : Miner.found (Miner.mkBatch true "0000000a" 0 2) = true) by reflexivity.
  split; [exact HT|]. split; [exact Hr|]. split; [exact Hf|].
  exact (batch_stops_at_first_share SHA256.Sum256 Scenario.jobA "81000001" "030a1118"
           1000 Scenario.draws _ _ HT Hr Hf).
Defined.

(** ** The hash counter, and the mailbox *)

Section LoopFacts.

Import Stratum Miner.

Variable Sum256 : list Z -> list Z.



End LoopFacts.



(** X9. With an nbits that does not decode to four bytes the target is
    zero: a batch whose hashes are all positive finds no share, and makes
    all its attempts. *)
Theorem invalid_nbits_finds_nothing Sum256 job e1 e2 batchSize rnd :
  length (fst (Hex.DecodeString (Stratum.NBits job))) <> 4%nat ->
  0 <= batchSize ->
  (forall k, Z.of_nat k < batchSize ->
     0 < Miner.attemptHash Sum256 (Miner.blockHeader Sum256 job e1 e2) rnd k) ->
  exists r,
    Miner.mineBatch Sum256 job e1 e2 batchSize rnd = Some r /\
    Miner.found r = false /\
    Miner.hashes r = batchSize.
Proof.
  intros Hbits Hsize Hpos.
  pose proof (calculateTarget_not_four _ Hbits) as HT.
  unfold Miner.mineBatch. rewrite HT. eexists. split; [reflexivity|].
  set (hdr := Miner.blockHeader Sum256 job e1 e2) in *.
  pose proof (header_length Sum256 job e1 e2) as Hlen. fold hdr in Hlen.
  destruct (Miner.found (Miner.batchLoop Sum256 0 rnd (Z.to_nat batchSize) 0 hdr 0
                           String.EmptyString 0)) eqn:Hf.
  - destruct (batchLoop_found_hashes Sum256 0 rnd hdr Hlen (Z.to_nat batchSize) 0 hdr 0
                String.EmptyString 0) as (k & Hk & _ & _ & Hwin & _);
      [auto | exact Hf |].
    specialize (Hpos k ltac:(lia)). lia.
  - split; [reflexivity|].
    destruct (batchLoop_not_found Sum256 0 rnd hdr Hlen (Z.to_nat batchSize) 0 hdr 0
                String.EmptyString 0) as (Hhs & _); [auto | lia | exact Hf |].
    rewrite Hhs. lia.
Qed.

Lemma invalid_nbits_finds_nothing_witness :
  length (fst (Hex.DecodeString (Stratum.NBits Cases.jobNoBits))) <> 4%nat /\
  0 <= 2 /\
  (forall k, Z.of_nat k < 2 ->
     0 < Miner.attemptHash SHA256.Sum256
           (Miner.blockHeader SHA256.Sum256 Cases.jobNoBits "81000001" "030a1118")
           Scenario.draws k) /\
  exists r,
    Miner.mineBatch SHA256.Sum256 Cases.jobNoBits "81000001" "030a1118" 2 Scenario.draws
      = Some r /\
    Miner.found r = false /\
    Miner.hashes r = 2.
Proof.
  assert (H1 : length (fst (Hex.DecodeString (Stratum.NBits Cases.jobNoBits))) <> 4%nat)
    by (simpl; lia).
  assert (H2 : 0 <= 2) by lia.
  assert (H3 : forall k, Z.of_nat k < 2 ->
                 0 < Miner.attemptHash SHA256.Sum256
                       (Miner.blockHeader SHA256.Sum256 Cases.jobNoBits "81000001"
                          "030a1118") Scenario.draws k).
  { intros [|[|k]] Hk; [vm_compute; reflexivity | vm_compute; reflexivity | lia]. }
  split; [exact H1|]. split; [exact H2|]. split; [exact H3|].
  exact (invalid_nbits_finds_nothing SHA256.Sum256 Cases.jobNoBits "81000001" "030a1118"
           2 Scenario.draws H1 H2 H3).
Defined.



(** * More of the Stratum client *)

Section WireFacts.

Import Stratum Wire.

Lemma send_ids req c :
  sent_ids (fst (send req c)) = [] \/ sent_ids (fst (send req c)) = [ReqID req].
Proof. unfold send. destruct (conn c) as [[]|]; simpl; auto. Qed.

Lemma handleResponse_wire resp c :
  requestID (fst (handleResponse resp c)) = requestID c /\
  sent_ids (snd (handleResponse resp c)) = [].
Proof.
  unfold handleResponse. destruct (Error resp); [auto|].
  destruct (RespID resp =? 1), (RespID resp =? 2);
    destruct (Json.unmarshal_array (Result resp)) as [l|];
    try destruct (3 <=? length l)%nat;
    destruct (Json.unmarshal_bool_checked (Result resp)); simpl; auto.
Qed.

Lemma handleNotification_wire notif c :
  requestID (fst (handleNotification notif c)) = requestID c /\
  sent_ids (snd (handleNotification notif c)) = [].
Proof.
  unfold handleNotification, handleMiningNotify.
  destruct (String.eqb _ "mining.notify"); [|destruct (String.eqb _ _); auto].
  destruct (Json.unmarshal_array (Params notif)) as [p|]; [|auto].
  destruct (length p <? 9)%nat; simpl; auto.
Qed.

(** One call: the counter moves by one for a request and not otherwise,
    and what is written, if anything, carries the new value. *)
Lemma step_ids k c c' effs :
  0 <= requestID c < 2 ^ 63 - 1 ->
  step k c = Returns (c', effs) ->
  requestID c' = requestID c + (if is_request k then 1 else 0) /\
  (sent_ids effs = [] \/ (is_request k = true /\ sent_ids effs = [requestID c + 1])).
Proof.
  intros Hid.
  assert (Hnext : Big.to_int64 (requestID c + 1) = requestID c + 1).
  { unfold Big.to_int64. rewrite Z.mod_small by lia. lia. }
  destruct k as [dialed| |w p|w j e n x| | |resp|notif]; cbn [step is_request].
  - unfold Connect. destruct dialed; intros [= <- <-]; simpl; split; auto; lia.
  - unfold Subscribe, nextID. rewrite Hnext.
    match goal with |- context [send ?r ?cl] =>
      destruct (send_ids r cl) as [Hs|Hs]; intros [= <- <-]; cbn [requestID];
      rewrite Hs; split; auto end.
  - unfold Authorize, nextID. rewrite Hnext.
    match goal with |- context [send ?r ?cl] =>
      destruct (send_ids r cl) as [Hs|Hs]; intros [= <- <-]; cbn [requestID];
      rewrite Hs; split; auto end.
  - unfold Submit, nextID. rewrite Hnext.
    match goal with |- context [send ?r ?cl] =>
      destruct (send_ids r cl) as [Hs|Hs]; intros [= <- <-]; cbn [requestID];
      rewrite Hs; split; auto end.
  - unfold Close. destruct (shutdown c); [discriminate|].
    intros [= <- <-]. simpl. split; auto; lia.
  - unfold readLoop_error. intros [= <- <-]. simpl. split; auto; lia.
  - intros [= Heq]. destruct (handleResponse_wire resp c) as [H1 H2].
    rewrite Heq in H1, H2. cbn [fst snd] in H1, H2. rewrite H1. split; auto; lia.
  - intros [= Heq]. destruct (handleNotification_wire notif c) as [H1 H2].
    rewrite Heq in H1, H2. cbn [fst snd] in H1, H2. rewrite H1. split; auto; lia.
Qed.

Lemma sent_ids_app e1 e2 : sent_ids (e1 ++ e2) = sent_ids e1 ++ sent_ids e2.
Proof. unfold sent_ids. apply flat_map_app. Qed.

Lemma run_ids ks : forall c c' effs,
  0 <= requestID c ->
  requestID c + Z.of_nat (length ks) < 2 ^ 63 ->
  run ks c = Returns (c', effs) ->
  requestID c' = requestID c + requests ks /\
  StronglySorted Z.lt (sent_ids effs) /\
  Forall (fun id => requestID c < id <= requestID c + requests ks) (sent_ids effs).
Proof.
  induction ks as [|k ks IH]; intros c c' effs H0 Hmax.
  - intros [= <- <-]. unfold requests. simpl.
    split; [lia|]. split; constructor.
  - cbn [run]. destruct (step k c) as [[c1 eff1]| |] eqn:Hstep; try discriminate.
    destruct (run ks c1) as [[c2 eff2]| |] eqn:Hrun; try discriminate.
    intros [= <- <-]. cbn [length] in Hmax.
    destruct (step_ids k c c1 eff1 ltac:(lia) Hstep) as [Hid1 Hsent1].
    assert (Hreq : requests (k :: ks)
                   = (if is_request k then 1 else 0) + requests ks).
    { unfold requests. cbn [List.filter]. destruct (is_request k); cbn [length]; lia. }
    assert (Hb : 0 <= (if is_request k then 1 else 0) <= 1)
      by (destruct (is_request k); lia).
    assert (Hrq : 0 <= requests ks) by (unfold requests; lia).
    destruct (IH c1 c2 eff2 ltac:(lia) ltac:(lia) Hrun) as (Hid2 & Hsorted & Hall).
    rewrite Hid1 in Hid2, Hall.
    split; [rewrite Hid2, Hreq; lia|].
    rewrite sent_ids_app, Hreq.
    destruct Hsent1 as [->|[Hk ->]].
    + rewrite app_nil_l. split; [exact Hsorted|].
      eapply Forall_impl; [exact Hall|]. simpl. intros id Hid. lia.
    + rewrite Hk in *. cbn [app]. split.
      * constructor; [exact Hsorted|].
        eapply Forall_impl; [exact Hall|]. simpl. intros id Hid. lia.
      * constructor; [lia|].
        eapply Forall_impl; [exact Hall|]. simpl. intros id Hid. lia.
Qed.

End WireFacts.

(** X11. On a client the n-th request made (subscribe, authorize or submit)
    takes id n, whether or not it could be written and whatever connects,
    closes, responses and notifications come in between: the counter ends
    at the number of requests made, and the ids written are between 1 and
    that number, each larger than the one before. *)
Theorem request_ids_count_requests ks c effs :
  Z.of_nat (length ks) < 2 ^ 63 ->
  Stratum.run ks Stratum.NewClient = Returns (c, effs) ->
  Stratum.requestID c = Wire.requests ks /\
  StronglySorted Z.lt (Wire.sent_ids effs) /\
  Forall (fun id => 1 <= id <= Wire.requests ks) (Wire.sent_ids effs).
Proof.
  intros Hlen Hrun.
  destruct (run_ids ks Stratum.NewClient c effs) as (H1 & H2 & H3);
    [simpl; lia | simpl; lia | exact Hrun |].
  simpl in H1, H3. split; [exact H1|]. split; [exact H2|].
  eapply Forall_impl; [exact H3|]. simpl. intros id Hid. lia.
Qed.

Lemma request_ids_count_requests_witness :
  Z.of_nat (length (Scenario.twoSessions "wallet")) < 2 ^ 63 /\
  Stratum.run (Scenario.twoSessions "wallet") Stratum.NewClient
    = Returns
        (Stratum.mkClient (Some Stratum.SockOpen) "" 0 false false None 5 false true 1,
         [Stratum.OnConnected;
          Stratum.Sent (Stratum.mkRequest 1 "mining.subscribe" []);
          Stratum.Sent (Stratum.mkRequest 2 "mining.authorize"
                          [Json.JString "wallet"; Json.JString "x"]);
          Stratum.Sent (Stratum.mkRequest 3 "mining.submit"
                          [Json.JString "wallet"; Json.JString "jobA";
                           Json.JString "030a1118"; Json.JString "5f5e1000";
                           Json.JString "0000000a"]);
          Stratum.OnDisconnected;
          Stratum.OnConnected;
          Stratum.Sent (Stratum.mkRequest 4 "mining.subscribe" []);
          Stratum.Sent (Stratum.mkRequest 5 "mining.authorize"
                          [Json.JString "wallet"; Json.JString "x"])]) /\
  5 = Wire.requests (Scenario.twoSessions "wallet") /\
  StronglySorted Z.lt [1; 2; 3; 4; 5] /\
  Forall (fun id => 1 <= id <= Wire.requests (Scenario.twoSessions "wallet"))
         [1; 2; 3; 4; 5].
Proof.
  assert (H1 : Z.of_nat (length (Scenario.twoSessions "wallet")) < 2 ^ 63)
    by (simpl; lia).
  assert (H2 : Stratum.run (Scenario.twoSessions "wallet") Stratum.NewClient
    = Returns
        (Stratum.mkClient (Some Stratum.SockOpen) "" 0 false false None 5 false true 1,
         [Stratum.OnConnected;
          Stratum.Sent (Stratum.mkRequest 1 "mining.subscribe" []);
          Stratum.Sent (Stratum.mkRequest 2 "mining.authorize"
                          [Json.JString "wallet"; Json.JString "x"]);
          Stratum.Sent (Stratum.mkRequest 3 "mining.submit"
                          [Json.JString "wallet"; Json.JString "jobA";
                           Json.JString "030a1118"; Json.JString "5f5e1000";
                           Json.JString "0000000a"]);
          Stratum.OnDisconnected;
          Stratum.OnConnected;
          Stratum.Sent (Stratum.mkRequest 4 "mining.subscribe" []);
          Stratum.Sent (Stratum.mkRequest 5 "mining.authorize"
                          [Json.JString "wallet"; Json.JString "x"])]))
    by (vm_compute; reflexivity).
  split; [exact H1|]. split; [exact H2|].
  exact (request_ids_count_requests (Scenario.twoSessions "wallet") _ _ H1 H2).
Defined.



(** X13. A response never touches the connection, the current job, the
    request counter or the loop state, and invokes nothing but the
    subscribed and authorized callbacks; with an error it changes nothing
    at all; the subscription data move only under id 1 and the
    authorization only under id 2. *)
Theorem handleResponse_frame (resp : Stratum.Response) (c : Stratum.Client) :
  let c' := fst (Stratum.handleResponse resp c) in
  let effs := snd (Stratum.handleResponse resp c) in
  Stratum.conn c' = Stratum.conn c /\
  Stratum.currentJob c' = Stratum.currentJob c /\
  Stratum.requestID c' = Stratum.requestID c /\
  Stratum.shutdown c' = Stratum.shutdown c /\
  Stratum.running c' = Stratum.running c /\
  Stratum.readLoops c' = Stratum.readLoops c /\
  Forall (fun e => (exists e1 n, e = Stratum.OnSubscribed e1 n) \/
                   (exists ok, e = Stratum.OnAuthorized ok)) effs /\
  (Stratum.Error resp <> None -> c' = c /\ effs = []) /\
  (Stratum.RespID resp <> 1 ->
   Stratum.extranonce1 c' = Stratum.extranonce1 c /\
   Stratum.extranonce2Size c' = Stratum.extranonce2Size c /\
   Stratum.subscribed c' = Stratum.subscribed c) /\
  (Stratum.RespID resp <> 2 -> Stratum.authorized c' = Stratum.authorized c).
Proof.
  unfold Stratum.handleResponse.
  destruct (Stratum.Error resp) as [e|].
  { simpl. repeat split; try constructor. }
  destruct (Z.eqb_spec (Stratum.RespID resp) 1) as [H1|H1];
    destruct (Z.eqb_spec (Stratum.RespID resp) 2) as [H2|H2];
    destruct (Json.unmarshal_array (Stratum.Result resp)) as [l|];
    try destruct (3 <=? length l)%nat;
    destruct (Json.unmarshal_bool_checked (Stratum.Result resp)) as [b|];
    simpl;
    repeat split; try reflexivity; try congruence; try lia;
    repeat match goal with
           | |- Forall _ [] => constructor
           | |- Forall _ (_ :: _) =>
               constructor;
               [first [left; eexists _, _; reflexivity | right; eexists; reflexivity]|]
           end.
Qed.

(** X14. The answer to subscribe: under id 1 and without an error, a result
    that is an array of three elements or more, with a string second and an
    integer third, is stored as extranonce1 and extranonce2 size, marks the
    client subscribed and is handed to the subscribed callback; the first
    element and those after the third are not looked at. *)
Theorem subscribe_response_stored (c : Stratum.Client) x e1 f n rest :
  Stratum.handleResponse
    (Stratum.mkResponse 1
       (Some (Json.JArray (x :: Json.JString e1 :: Json.JNumber f (Some n) :: rest)))
       None) c
  = (Stratum.mkClient (Stratum.conn c) e1 n true (Stratum.authorized c)
       (Stratum.currentJob c) (Stratum.requestID c) (Stratum.shutdown c)
       (Stratum.running c) (Stratum.readLoops c),
     [Stratum.OnSubscribed e1 n]) /\
  (forall short, (length short < 3)%nat ->
     Stratum.handleResponse
       (Stratum.mkResponse 1 (Some (Json.JArray short)) None) c = (c, [])).
Proof.
  split; [reflexivity|].
  intros short Hshort.
  destruct short as [|a [|b [|d t]]]; simpl in Hshort; try lia; reflexivity.
Qed.

(** X15. A [mining.notify] with nine parameters or more makes its job the
    current job and hands that same job to the job callback. The job is
    made of the first nine parameters, in this order: id, previous hash,
    coinbase1, coinbase2, Merkle branches, version, nbits, ntime and
    clean_jobs; a string field takes a string parameter and is empty for
    one of another type, the branches take the strings of an array, and
    clean_jobs takes a boolean. The parameters after the ninth change
    nothing, and nothing else of the client moves. *)
Theorem full_notify_stored (p extra : list Json.value) (c : Stratum.Client) :
  (9 <= length p)%nat ->
  let str v := match v with Json.JString s => s | _ => String.EmptyString end in
  let field i := str (nth i p Json.JNull) in
  let job :=
    Stratum.mkJob (field 0%nat) (field 1%nat) (field 2%nat) (field 3%nat)
      (match nth 4 p Json.JNull with Json.JArray l => map str l | _ => [] end)
      (field 5%nat) (field 6%nat) (field 7%nat)
      (match nth 8 p Json.JNull with Json.JBool b => b | _ => false end) in
  Stratum.handleNotification
    (Stratum.mkNotification "mining.notify" (Some (Json.JArray p))) c
  = (Stratum.mkClient (Stratum.conn c) (Stratum.extranonce1 c)
       (Stratum.extranonce2Size c) (Stratum.subscribed c) (Stratum.authorized c)
       (Some job) (Stratum.requestID c) (Stratum.shutdown c) (Stratum.running c)
       (Stratum.readLoops c),
     [Stratum.OnJobReceived job]) /\
  Stratum.handleNotification
    (Stratum.mkNotification "mining.notify" (Some (Json.JArray (p ++ extra)))) c
  = Stratum.handleNotification
      (Stratum.mkNotification "mining.notify" (Some (Json.JArray p))) c /\
  (forall id prev cb1 cb2 branches ver nbits ntime clean rest,
     p = Json.JString id :: Json.JString prev :: Json.JString cb1 ::
         Json.JString cb2 :: Json.JArray (map Json.JString branches) ::
         Json.JString ver :: Json.JString nbits :: Json.JString ntime ::
         Json.JBool clean :: rest ->
     job = Stratum.mkJob id prev cb1 cb2 branches ver nbits ntime clean).
Proof.
  intros Hlen str field job.
  destruct p as [|p0 [|p1 [|p2 [|p3 [|p4 [|p5 [|p6 [|p7 [|p8 rest]]]]]]]]];
    simpl in Hlen; try lia.
  assert (Hjob : job =
            Stratum.mkJob (Json.unmarshal_string p0 String.EmptyString)
              (Json.unmarshal_string p1 String.EmptyString)
              (Json.unmarshal_string p2 String.EmptyString)
              (Json.unmarshal_string p3 String.EmptyString)
              (Json.unmarshal_strings p4 [])
              (Json.unmarshal_string p5 String.EmptyString)
              (Json.unmarshal_string p6 String.EmptyString)
              (Json.unmarshal_string p7 String.EmptyString)
              (Json.unmarshal_bool p8 false)).
  { reflexivity. }
  split; [|split].
  - unfold Stratum.handleNotification, Stratum.handleMiningNotify.
    cbn [Stratum.Method Stratum.Params Json.unmarshal_array].
    change (String.eqb "mining.notify" "mining.notify") with true. cbv iota.
    cbn [length Nat.ltb Nat.leb nth]. rewrite Hjob. reflexivity.
  - unfold Stratum.handleNotification, Stratum.handleMiningNotify.
    cbn [Stratum.Method Stratum.Params Json.unmarshal_array].
    change (String.eqb "mining.notify" "mining.notify") with true. cbv iota.
    cbn [length Nat.ltb Nat.leb nth app]. reflexivity.
  - intros id prev cb1 cb2 branches ver nbits ntime clean rest' [= -> -> -> -> -> -> -> -> -> _].
    unfold job, field. cbn [nth str]. f_equal.
    rewrite map_map. apply map_id.
Qed.

Lemma full_notify_stored_witness :
  (9 <= length Wire.nineParams)%nat /\
  Stratum.handleNotification
    (Stratum.mkNotification "mining.notify" (Some (Json.JArray Wire.nineParams)))
    Stratum.NewClient
  = (Stratum.mkClient (Stratum.conn Stratum.NewClient)
       (Stratum.extranonce1 Stratum.NewClient)
       (Stratum.extranonce2Size Stratum.NewClient)
       (Stratum.subscribed Stratum.NewClient) (Stratum.authorized Stratum.NewClient)
       (Some (Stratum.mkJob "jobA" "00" "01" "ff" [] "20000000" "207fffff"
                            "5f5e1000" true))
       (Stratum.requestID Stratum.NewClient)
       (Stratum.shutdown Stratum.NewClient) (Stratum.running Stratum.NewClient)
       (Stratum.readLoops Stratum.NewClient),
     [Stratum.OnJobReceived
        (Stratum.mkJob "jobA" "00" "01" "ff" [] "20000000" "207fffff"
                       "5f5e1000" true)]) /\
  Stratum.handleNotification
    (Stratum.mkNotification "mining.notify"
       (Some (Json.JArray (Wire.nineParams ++ Wire.moreParams)))) Stratum.NewClient
  = Stratum.handleNotification
      (Stratum.mkNotification "mining.notify" (Some (Json.JArray Wire.nineParams)))
      Stratum.NewClient.
Proof.
  assert (H : (9 <= length Wire.nineParams)%nat) by (simpl; lia).
  split; [exact H|].
  destruct (full_notify_stored Wire.nineParams Wire.moreParams Stratum.NewClient H)
    as (H1 & H2 & _).
  split; [exact H1 | exact H2].
Defined.

(** X16. A notification changes nothing but the current job, and invokes
    nothing but the job callback, with the job it has just stored; one
    whose method is not [mining.notify], [mining.set_difficulty] included,
    changes nothing. *)
Theorem handleNotification_frame (notif : Stratum.Notification) (c : Stratum.Client) :
  let c' := fst (Stratum.handleNotification notif c) in
  let effs := snd (Stratum.handleNotification notif c) in
  c' = Stratum.mkClient (Stratum.conn c) (Stratum.extranonce1 c)
         (Stratum.extranonce2Size c) (Stratum.subscribed c) (Stratum.authorized c)
         (Stratum.currentJob c') (Stratum.requestID c) (Stratum.shutdown c)
         (Stratum.running c) (Stratum.readLoops c) /\
  ((effs = [] /\ c' = c) \/
   (exists job, effs = [Stratum.OnJobReceived job] /\ Stratum.currentJob c' = Some job)) /\
  (Stratum.Method notif <> "mining.notify"%string -> c' = c /\ effs = []).
Proof.
  unfold Stratum.handleNotification, Stratum.handleMiningNotify.
  destruct c as [cn e1 sz sb au cj rid sh rn rl].
  destruct (String.eqb_spec (Stratum.Method notif) "mining.notify") as [Heq|Hne].
  - destruct (Json.unmarshal_array (Stratum.Params notif)) as [p|].
    + destruct (length p <? 9)%nat; simpl.
      * split; [reflexivity|]. split; [left; auto | congruence].
      * split; [reflexivity|]. split; [right; eauto | congruence].
    + simpl. split; [reflexivity|]. split; [left; auto | congruence].
  - destruct (String.eqb _ "mining.set_difficulty"); simpl;
      (split; [reflexivity|]; split; [left; auto | auto]).
Qed.

(** * More of the configuration *)

(** [Update] field by field: each field is the update's value when the key
    is present with the matching type, and the old field otherwise. *)
Lemma Update_fields (updates : gmap string Json.value) (c : Config.Config) :
  Config.Update updates c =
  Config.mkConfig
    (default (Config.PoolURL c) (Config.as_string (updates !! "pool_url"%string)))
    (default (Config.PoolPort c)
       (Json.int_of_float64 <$> Config.as_float64 (updates !! "pool_port"%string)))
    (default (Config.WalletAddress c)
       (Config.as_string (updates !! "wallet_address"%string)))
    (default (Config.MaxCPUPercent c)
       (Json.int_of_float64 <$> Config.as_float64 (updates !! "max_cpu_percent"%string)))
    (default (Config.NumWorkers c)
       (Json.int_of_float64 <$> Config.as_float64 (updates !! "num_workers"%string))).
Proof.
  unfold Config.Update.
  destruct (Config.as_string (updates !! "pool_url"%string)),
           (Config.as_float64 (updates !! "pool_port"%string)),
           (Config.as_string (updates !! "wallet_address"%string)),
           (Config.as_float64 (updates !! "max_cpu_percent"%string)),
           (Config.as_float64 (updates !! "num_workers"%string));
    destruct c; reflexivity.
Qed.

(** X17. Applying an update twice is applying it once, and the empty
    update changes nothing. *)
Theorem Update_idempotent (updates : gmap string Json.value) (c : Config.Config) :
  Config.Update updates (Config.Update updates c) = Config.Update updates c /\
  Config.Update ∅ c = c.
Proof.
  split.
  - rewrite (Update_fields updates (Config.Update updates c)).
    rewrite (Update_fields updates c).
    cbn [Config.PoolURL Config.PoolPort Config.WalletAddress
         Config.MaxCPUPercent Config.NumWorkers].
    f_equal.
    + now destruct (Config.as_string _).
    + now destruct (Config.as_float64 _).
    + now destruct (Config.as_string _).
    + now destruct (Config.as_float64 _).
    + now destruct (Config.as_float64 _).
  - rewrite Update_fields.
    rewrite (lookup_empty "pool_url"%string), (lookup_empty "pool_port"%string),
      (lookup_empty "wallet_address"%string),
      (lookup_empty "max_cpu_percent"%string),
      (lookup_empty "num_workers"%string).
    now destruct c.
Qed.

(** * The statistics collector *)

Ltac zbool :=
  repeat match goal with
  | H : (_ <? _) = true |- _ => apply Z.ltb_lt in H
  | H : (_ <? _) = false |- _ => apply Z.ltb_ge in H
  | H : (_ <=? _) = true |- _ => apply Z.leb_le in H
  | H : (_ <=? _) = false |- _ => apply Z.leb_gt in H
  end.

(** ** The in-place reversal *)

Section Reversal.

Context {A : Type}.

Lemma swap_ends (pre mid post : list A) (x y : A) :
  Stats.swap (length pre) (length pre + S (length mid))
             (pre ++ x :: mid ++ y :: post) =
  pre ++ y :: mid ++ x :: post.
Proof.
  unfold Stats.swap.
  rewrite (list_lookup_middle pre (mid ++ y :: post) x (length pre) eq_refl).
  replace (pre ++ x :: mid ++ y :: post) with ((pre ++ x :: mid) ++ y :: post)
    by (now rewrite <- app_assoc).
  rewrite (list_lookup_middle (pre ++ x :: mid) post y)
    by (rewrite length_app; simpl; lia).
  rewrite <- app_assoc. simpl.
  rewrite insert_app_r_alt by lia.
  replace (length pre - length pre)%nat with 0%nat by lia. simpl.
  rewrite insert_app_r_alt by lia.
  replace (length pre + S (length mid) - length pre)%nat with (S (length mid)) by lia.
  simpl. f_equal. f_equal.
  rewrite insert_app_r_alt by lia.
  replace (length mid - length mid)%nat with 0%nat by lia. reflexivity.
Qed.

(** The loop with its two indices inside the list: what lies between them
    gets reversed, what lies outside stays. *)
Lemma reverse_loop_middle (fuel : nat) :
  forall (pre mid post : list A),
    (length mid <= fuel)%nat ->
    Stats.reverse_loop fuel (Z.of_nat (length pre))
      (Z.of_nat (length pre) + Z.of_nat (length mid) - 1)
      (pre ++ mid ++ post) =
    pre ++ reverse mid ++ post.
Proof.
  induction fuel as [|fuel IH]; intros pre mid post Hlen.
  - destruct mid; [reflexivity | simpl in Hlen; lia].
  - cbn [Stats.reverse_loop].
    destruct mid as [|x mid].
    { simpl length. destruct (_ <? _) eqn:E; zbool; [lia | reflexivity]. }
    destruct mid as [|y mid _] using rev_ind.
    { simpl length. destruct (_ <? _) eqn:E; zbool; [lia | reflexivity]. }
    rewrite length_cons, length_app in *. simpl length in *.
    destruct (_ <? _) eqn:E; zbool; [|lia].
    rewrite Nat2Z.id.
    replace (Z.to_nat (Z.of_nat (length pre) + Z.of_nat (S (length mid + 1)) - 1))
      with (length pre + S (length mid))%nat by lia.
    replace (pre ++ (x :: mid ++ [y]) ++ post)
      with (pre ++ x :: mid ++ y :: post)
      by (simpl; now rewrite <- app_assoc).
    rewrite swap_ends.
    replace (pre ++ y :: mid ++ x :: post)
      with ((pre ++ [y]) ++ mid ++ (x :: post))
      by (now rewrite <- app_assoc).
    replace (Z.of_nat (length pre) + 1) with (Z.of_nat (length (pre ++ [y])))
      by (rewrite length_app; simpl; lia).
    replace (Z.of_nat (length pre) + Z.of_nat (S (length mid + 1)) - 1 - 1)
      with (Z.of_nat (length (pre ++ [y])) + Z.of_nat (length mid) - 1)
      by (rewrite length_app; simpl; lia).
    rewrite IH by lia.
    rewrite reverse_cons, reverse_app. simpl.
    rewrite <- !app_assoc. reflexivity.
Qed.

Lemma reverse_loop_reverse (l : list A) :
  Stats.reverse_loop (length l) 0 (Z.of_nat (length l) - 1) l = reverse l.
Proof.
  pose proof (reverse_loop_middle (length l) [] l [] (le_n _)) as H.
  simpl in H. rewrite !app_nil_r in H. exact H.
Qed.

Lemma recent_newest_first (limit : Z) (h : list A) :
  Stats.recent limit h =
  if (0 <? limit) && (limit <=? Z.of_nat (length h))
  then take (Z.to_nat limit) (reverse h)
  else reverse h.
Proof.
  unfold Stats.recent. rewrite reverse_loop_reverse.
  destruct (0 <? limit) eqn:E1, (limit <=? Z.of_nat (length h)) eqn:E2;
    destruct (limit <=? 0) eqn:E3, (Z.of_nat (length h) <? limit) eqn:E4;
    zbool; try lia; cbn [orb andb].
  1: { replace (if Z.of_nat (length h) - limit <? 0 then 0
                else Z.of_nat (length h) - limit)
         with (Z.of_nat (length h) - limit)
         by (destruct (_ <? _) eqn:E; zbool; lia).
       rewrite take_ge by (rewrite length_drop; lia).
       rewrite reverse_drop. f_equal. lia. }
  all: rewrite Z.sub_diag; cbn [Z.ltb Z.compare Z.to_nat drop];
       rewrite Nat2Z.id, firstn_all; reflexivity.
Qed.

(** ** Appending with a bound *)

Lemma push_latest (max : Z) (h : list A) (e : A) :
  Z.of_nat (length h) <= max ->
  Stats.push max h e = drop (length (h ++ [e]) - Z.to_nat max) (h ++ [e]).
Proof.
  intros Hlen. unfold Stats.push. rewrite length_app. simpl length.
  destruct (_ <? _) eqn:E; zbool.
  - replace (length h + 1 - Z.to_nat max)%nat with 1%nat by lia. reflexivity.
  - replace (length h + 1 - Z.to_nat max)%nat with 0%nat by lia. reflexivity.
Qed.

Lemma push_length (max : Z) (h : list A) (e : A) :
  Z.of_nat (length h) <= max -> Z.of_nat (length (Stats.push max h e)) <= max.
Proof.
  intros Hlen. rewrite push_latest by exact Hlen.
  rewrite length_drop, length_app. simpl length. lia.
Qed.

Lemma pushes_latest (max : Z) (es h : list A) :
  Z.of_nat (length h) <= max ->
  fold_left (Stats.push max) es h =
    drop (length (h ++ es) - Z.to_nat max) (h ++ es) /\
  Z.of_nat (length (fold_left (Stats.push max) es h)) <= max.
Proof.
  revert h. induction es as [|e es IH]; intros h Hlen.
  - simpl. rewrite app_nil_r.
    replace (length h - Z.to_nat max)%nat with 0%nat by lia. now split.
  - cbn [fold_left].
    destruct (IH (Stats.push max h e) (push_length max h e Hlen)) as [H1 Hb].
    split; [|exact Hb].
    rewrite H1, push_latest by exact Hlen.
    rewrite <- drop_app_le by (rewrite length_app; simpl; lia).
    rewrite drop_drop, <- app_assoc. simpl. f_equal.
    rewrite !length_app, length_drop, !length_app. simpl length. lia.
Qed.

(** The newest entry is the last one, as long as the bound is positive. *)
Lemma push_last (max : Z) (h : list A) (e : A) :
  0 < max -> last (Stats.push max h e) = Some e.
Proof.
  intros Hmax. unfold Stats.push. rewrite length_app. simpl length.
  destruct (_ <? _) eqn:E; zbool; [|apply last_snoc].
  destruct h as [|x h]; [simpl in E; lia|].
  simpl. rewrite drop_0. apply last_snoc.
Qed.

End Reversal.

(** X18. The three history getters return the newest entries first: the
    [limit] newest when [limit] is positive and not more than the history
    holds, and the whole history reversed otherwise. *)
Theorem history_newest_first {time : Type} (limit : Z) (c : Stats.Collector time) :
  let newest {A} (h : list A) :=
    if (0 <? limit) && (limit <=? Z.of_nat (length h))
    then take (Z.to_nat limit) (reverse h)
    else reverse h in
  Stats.GetShareHistory limit c = newest (Stats.shareHistory c) /\
  Stats.GetBlockHistory limit c = newest (Stats.blockHistory c) /\
  Stats.GetSessionHistory limit c = newest (Stats.sessionHistory c).
Proof.
  cbv zeta. unfold Stats.GetShareHistory, Stats.GetBlockHistory,
    Stats.GetSessionHistory.
  rewrite !recent_newest_first. auto.
Qed.

(** ** Runs of [AddShare] *)

Section ShareRuns.

Context {time : Type}.

Lemma AddShares_shareHistory (ss : list (Stats.share_call time))
    (c : Stats.Collector time) :
  Stats.shareHistory (Stats.AddShares ss c) =
    fold_left (Stats.push (Stats.maxHistorySize c)) (map Stats.entry_of ss)
              (Stats.shareHistory c) /\
  Stats.maxHistorySize (Stats.AddShares ss c) = Stats.maxHistorySize c.
Proof.
  revert c. induction ss as [|s ss IH]; intros c; [now split|].
  unfold Stats.AddShares in *. cbn [fold_left map].
  destruct (IH (Stats.AddShare (Stats.scNow _ s) (Stats.scWorkerID _ s)
                  (Stats.scWorkerName _ s) (Stats.scJobID _ s) (Stats.scNonce _ s)
                  (Stats.scDifficulty s) (Stats.scAccepted s) c)) as [-> ->].
  now split.
Qed.

Lemma AddShares_latest (ss : list (Stats.share_call time))
    (c : Stats.Collector time) :
  Z.of_nat (length (Stats.shareHistory c)) <= Stats.maxHistorySize c ->
  Stats.shareHistory (Stats.AddShares ss c) =
    drop (length (Stats.shareHistory c ++ map Stats.entry_of ss)
          - Z.to_nat (Stats.maxHistorySize c))
         (Stats.shareHistory c ++ map Stats.entry_of ss) /\
  Z.of_nat (length (Stats.shareHistory (Stats.AddShares ss c))) <=
    Stats.maxHistorySize c.
Proof.
  intros Hlen.
  destruct (AddShares_shareHistory ss c) as [-> _].
  apply pushes_latest. exact Hlen.
Qed.

Lemma to_int64_small (x : Z) : - 2 ^ 63 <= x < 2 ^ 63 -> Big.to_int64 x = x.
Proof.
  intros Hx. unfold Big.to_int64.
  rewrite Z.mod_small by lia. lia.
Qed.

Lemma AddShares_bestDifficulty (ss : list (Stats.share_call time))
    (c : Stats.Collector time) :
  Stats.bestDifficulty (Stats.AddShares ss c) =
  fold_left (fun b d => if Stats.float64_lt b d then d else b)
            (map Stats.scDifficulty ss)
            (Stats.bestDifficulty c).
Proof.
  revert c. induction ss as [|s ss IH]; intros c; [reflexivity|].
  unfold Stats.AddShares in *. cbn [fold_left map]. now rewrite IH.
Qed.

End ShareRuns.

(** X19. A run of [AddShare] on a collector whose share history is within
    its bound leaves the history holding the latest [maxHistorySize]
    entries, oldest first, and still within the bound; and
    [GetShareHistory] then returns the newest of them first, [limit] of
    them when [limit] is positive and not more than the history holds,
    and all of them otherwise. *)
Theorem share_history_keeps_latest {time : Type} (limit : Z)
    (ss : list (Stats.share_call time)) (c : Stats.Collector time) :
  Z.of_nat (length (Stats.shareHistory c)) <= Stats.maxHistorySize c ->
  let all := Stats.shareHistory c ++ map Stats.entry_of ss in
  let held := Z.min (Stats.maxHistorySize c) (Z.of_nat (length all)) in
  Stats.shareHistory (Stats.AddShares ss c) =
    drop (length all - Z.to_nat (Stats.maxHistorySize c)) all /\
  Z.of_nat (length (Stats.shareHistory (Stats.AddShares ss c))) <=
    Stats.maxHistorySize c /\
  Stats.GetShareHistory limit (Stats.AddShares ss c) =
    take (Z.to_nat (if (0 <? limit) && (limit <=? held) then limit else held))
         (reverse all).
Proof.
  intros Hlen all held.
  destruct (AddShares_latest ss c Hlen) as [Hh Hb]. fold all in Hh.
  split; [exact Hh|]. split; [exact Hb|].
  unfold Stats.GetShareHistory. rewrite recent_newest_first, Hh.
  rewrite length_drop, reverse_drop.
  replace (Z.of_nat (length all - (length all - Z.to_nat (Stats.maxHistorySize c))))
    with held by (unfold held; lia).
  replace (length all - (length all - Z.to_nat (Stats.maxHistorySize c)))%nat
    with (Z.to_nat held) by (unfold held; lia).
  destruct ((0 <? limit) && (limit <=? held)) eqn:E; [|reflexivity].
  apply andb_true_iff in E. destruct E as [E1 E2]. zbool.
  rewrite take_take. f_equal. lia.
Qed.

Lemma share_history_keeps_latest_witness :
  Z.of_nat (length (Stats.shareHistory StatsCases.small)) <=
    Stats.maxHistorySize StatsCases.small /\
  Stats.shareHistory (Stats.AddShares StatsCases.threeShares StatsCases.small) =
    map Stats.entry_of (drop 1 StatsCases.threeShares) /\
  Z.of_nat (length (Stats.shareHistory
                      (Stats.AddShares StatsCases.threeShares StatsCases.small)))
    <= 2 /\
  Stats.GetShareHistory 10 (Stats.AddShares StatsCases.threeShares StatsCases.small) =
    map Stats.entry_of
      [StatsCases.share 3 (S754_finite false 1 1) true;
       StatsCases.share 2 (S754_finite false 3 0) false].
Proof.
  assert (H : Z.of_nat (length (Stats.shareHistory StatsCases.small)) <=
              Stats.maxHistorySize StatsCases.small) by (vm_compute; discriminate).
  split; [exact H|].
  exact (share_history_keeps_latest 10 StatsCases.threeShares StatsCases.small H).
Defined.

(** X20. As long as the total stays below 2^63, a run of [AddShare] on a
    collector whose total is the sum of its accepted and rejected counts
    adds the number of shares to the total, the number of accepted ones to
    the accepted count and the number of the others to the rejected count,
    so the total stays the sum of the two. *)
Theorem share_counters {time : Type} (ss : list (Stats.share_call time))
    (c : Stats.Collector time) :
  0 <= Stats.acceptedShares c -> 0 <= Stats.rejectedShares c ->
  Stats.totalShares c = Stats.acceptedShares c + Stats.rejectedShares c ->
  Stats.totalShares c + Z.of_nat (length ss) < 2 ^ 63 ->
  let c' := Stats.AddShares ss c in
  Stats.totalShares c' = Stats.totalShares c + Z.of_nat (length ss) /\
  Stats.acceptedShares c' =
    Stats.acceptedShares c + Z.of_nat (length (List.filter Stats.scAccepted ss)) /\
  Stats.rejectedShares c' =
    Stats.rejectedShares c +
    Z.of_nat (length (List.filter (fun s => negb (Stats.scAccepted s)) ss)) /\
  Stats.totalShares c' = Stats.acceptedShares c' + Stats.rejectedShares c'.
Proof.
  cbv zeta. revert c.
  induction ss as [|s ss IH]; intros c Ha Hr Ht Hb.
  - simpl. lia.
  - unfold Stats.AddShares in *. cbn [fold_left List.filter length].
    cbn [length] in Hb.
    set (c1 := Stats.AddShare _ _ _ _ _ _ _ c).
    assert (H1 : Stats.totalShares c1 = Stats.totalShares c + 1)
      by (apply to_int64_small; lia).
    assert (H2 : Stats.acceptedShares c1 =
                 Stats.acceptedShares c + (if Stats.scAccepted s then 1 else 0)).
    { subst c1. cbn. destruct (Stats.scAccepted s); [apply to_int64_small|]; lia. }
    assert (H3 : Stats.rejectedShares c1 =
                 Stats.rejectedShares c + (if Stats.scAccepted s then 0 else 1)).
    { subst c1. cbn. destruct (Stats.scAccepted s); [|apply to_int64_small]; lia. }
    destruct (IH c1) as (E1 & E2 & E3 & E4).
    1-4: destruct (Stats.scAccepted s); lia.
    rewrite E4, E2, E3, H2, H3.
    destruct (Stats.scAccepted s); cbn [negb length]; lia.
Qed.

Lemma share_counters_witness :
  0 <= Stats.acceptedShares StatsCases.small /\
  0 <= Stats.rejectedShares StatsCases.small /\
  Stats.totalShares StatsCases.small =
    Stats.acceptedShares StatsCases.small + Stats.rejectedShares StatsCases.small /\
  Stats.totalShares StatsCases.small + Z.of_nat (length StatsCases.threeShares)
    < 2 ^ 63 /\
  Stats.totalShares (Stats.AddShares StatsCases.threeShares StatsCases.small) = 3 /\
  Stats.acceptedShares (Stats.AddShares StatsCases.threeShares StatsCases.small) = 2 /\
  Stats.rejectedShares (Stats.AddShares StatsCases.threeShares StatsCases.small) = 1 /\
  Stats.totalShares (Stats.AddShares StatsCases.threeShares StatsCases.small) =
    Stats.acceptedShares (Stats.AddShares StatsCases.threeShares StatsCases.small) +
    Stats.rejectedShares (Stats.AddShares StatsCases.threeShares StatsCases.small).
Proof.
  assert (H1 : 0 <= Stats.acceptedShares StatsCases.small)
    by (vm_compute; discriminate).
  assert (H2 : 0 <= Stats.rejectedShares StatsCases.small)
    by (vm_compute; discriminate).
  assert (H3 : Stats.totalShares StatsCases.small =
               Stats.acceptedShares StatsCases.small +
               Stats.rejectedShares StatsCases.small) by reflexivity.
  assert (H4 : Stats.totalShares StatsCases.small +
               Z.of_nat (length StatsCases.threeShares) < 2 ^ 63)
    by (vm_compute; reflexivity).
  split; [exact H1|]. split; [exact H2|]. split; [exact H3|]. split; [exact H4|].
  exact (share_counters StatsCases.threeShares StatsCases.small H1 H2 H3 H4).
Defined.

(** ** The best difficulty *)

Section FloatOrder.

(** Comparing [m1 * 2^e1] with [m2 * 2^e2] at one scale is comparing them
    at any lower one. *)
Lemma scaled_lt (m1 e1 m2 e2 k k' : Z) :
  k' <= k -> k <= e1 -> k <= e2 ->
  (m1 * 2 ^ (e1 - k) < m2 * 2 ^ (e2 - k) <->
   m1 * 2 ^ (e1 - k') < m2 * 2 ^ (e2 - k')).
Proof.
  intros Hk H1 H2.
  replace (e1 - k') with ((e1 - k) + (k - k')) by lia.
  replace (e2 - k') with ((e2 - k) + (k - k')) by lia.
  rewrite !Z.pow_add_r by lia. rewrite !Z.mul_assoc.
  assert (0 < 2 ^ (k - k')) by (apply Z.pow_pos_nonneg; lia).
  split; intros Hlt; nia.
Qed.

Lemma scaled_trans (m1 e1 m2 e2 m3 e3 : Z) :
  m1 * 2 ^ (e1 - Z.min e1 e2) < m2 * 2 ^ (e2 - Z.min e1 e2) ->
  m2 * 2 ^ (e2 - Z.min e2 e3) < m3 * 2 ^ (e3 - Z.min e2 e3) ->
  m1 * 2 ^ (e1 - Z.min e1 e3) < m3 * 2 ^ (e3 - Z.min e1 e3).
Proof.
  intros H12 H23. set (k := Z.min e1 (Z.min e2 e3)).
  apply (scaled_lt m1 e1 m2 e2 (Z.min e1 e2) k) in H12; [|unfold k; lia..].
  apply (scaled_lt m2 e2 m3 e3 (Z.min e2 e3) k) in H23; [|unfold k; lia..].
  apply (scaled_lt m1 e1 m3 e3 (Z.min e1 e3) k); [unfold k; lia..|]. lia.
Qed.

Lemma float64_lt_trans (x y z : Json.float64) :
  Stats.float64_lt x y = true -> Stats.float64_lt y z = true ->
  Stats.float64_lt x z = true.
Proof.
  destruct x as [sx|[]| |sx mx ex], y as [sy|[]| |sy my ey], z as [sz|[]| |sz mz ez];
    cbn [Stats.float64_lt Stats.mantissa_exponent andb negb];
    try discriminate; try reflexivity;
    rewrite !Z.ltb_lt; apply scaled_trans.
Qed.

Lemma float64_lt_irrefl (x : Json.float64) : Stats.float64_lt x x = false.
Proof.
  destruct x as [sx|[]| |sx mx ex];
    cbn [Stats.float64_lt Stats.mantissa_exponent andb negb];
    try reflexivity; apply Z.ltb_irrefl.
Qed.

Lemma float64_lt_asym (x y : Json.float64) :
  Stats.float64_lt x y = true -> Stats.float64_lt y x = false.
Proof.
  intros H. destruct (Stats.float64_lt y x) eqn:E; [|reflexivity].
  pose proof (float64_lt_trans _ _ _ H E) as Hxx.
  rewrite float64_lt_irrefl in Hxx. discriminate.
Qed.

(** Keeping the greater of the best so far and each new value in turn:
    the result is the start or a value greater than the start, and no
    value of the run is greater than the result. *)
Lemma best_fold (ds : list Json.float64) :
  forall b : Json.float64,
    let b' := fold_left (fun b d => if Stats.float64_lt b d then d else b) ds b in
    (b' = b \/ (In b' ds /\ Stats.float64_lt b b' = true)) /\
    forall d, In d ds -> Stats.float64_lt b' d = false.
Proof.
  induction ds as [|d ds IH]; intros b; cbn [fold_left].
  - split; [now left | intros d []].
  - destruct (IH (if Stats.float64_lt b d then d else b)) as [Hfrom Hmax].
    set (b' := fold_left _ ds _) in *.
    destruct (Stats.float64_lt b d) eqn:Hbd.
    + assert (Hd : Stats.float64_lt b' d = false).
      { destruct Hfrom as [-> | [_ Hlt]];
          [apply float64_lt_irrefl | now apply float64_lt_asym]. }
      split.
      * right. destruct Hfrom as [-> | [Hin Hlt]].
        -- split; [now left | exact Hbd].
        -- split; [now right | exact (float64_lt_trans _ _ _ Hbd Hlt)].
      * intros d' [<- | Hin]; [exact Hd | now apply Hmax].
    + split.
      * destruct Hfrom as [-> | [Hin Hlt]]; [now left | right].
        split; [now right | exact Hlt].
      * intros d' [<- | Hin]; [|now apply Hmax].
        destruct Hfrom as [-> | [_ Hlt]]; [exact Hbd|].
        destruct (Stats.float64_lt b' d) eqn:E; [|reflexivity].
        rewrite (float64_lt_trans _ _ _ Hlt E) in Hbd. discriminate.
Qed.

End FloatOrder.

(** The comparison of the collector is the order of the numbers. *)
Section FloatReading.

Import QArith Qpower.
Local Open Scope Z_scope.

Lemma scaled_value (m e k : Z) :
  k <= e -> (inject_Z (m * 2 ^ (e - k)) * 2 ^ k == inject_Z m * 2 ^ e)%Q.
Proof.
  intros Hk. rewrite inject_Z_mult, Zpower_Qpower by lia.
  rewrite <- Qmult_assoc.
  rewrite <- Qpower_plus by discriminate.
  replace (e - k + k) with e by lia. reflexivity.
Qed.

Lemma scaled_Qlt (m1 e1 m2 e2 : Z) :
  m1 * 2 ^ (e1 - Z.min e1 e2) < m2 * 2 ^ (e2 - Z.min e1 e2) <->
  (inject_Z m1 * 2 ^ e1 < inject_Z m2 * 2 ^ e2)%Q.
Proof.
  set (k := Z.min e1 e2).
  rewrite <- (scaled_value m1 e1 k), <- (scaled_value m2 e2 k) by (unfold k; lia).
  rewrite Qmult_lt_r by (apply Qpower_0_lt; reflexivity).
  now rewrite <- Zlt_Qlt.
Qed.

Lemma float64_lt_spec (x y : Json.float64) :
  Stats.float64_lt x y = true <-> Float64.lt x y.
Proof.
  unfold Float64.lt.
  destruct x as [sx|[]| |sx mx ex], y as [sy|[]| |sy my ey];
    cbn [Stats.float64_lt Stats.mantissa_exponent Float64.value Float64.below
         andb negb];
    try (split; [discriminate | contradiction]);
    try (split; [intros _; exact I | reflexivity]);
    rewrite Z.ltb_lt, scaled_Qlt;
    rewrite ?Qpower_0_r, ?Qmult_1_r; reflexivity.
Qed.

End FloatReading.

(** The order is that of the numbers: 2 written as 1 * 2^1 is below 3
    written as 3 * 2^0, one and a half is below 2, and the two zeros are
    equal. *)
Example float64_lt_values :
  Stats.float64_lt (S754_finite false 1 1) (S754_finite false 3 0) = true /\
  Stats.float64_lt (S754_finite false 3 0) (S754_finite false 1 1) = false /\
  Stats.float64_lt (S754_finite false 3 (-1)) (S754_finite false 1 1) = true /\
  Stats.float64_lt (S754_finite true 1 5) (S754_zero true) = true /\
  Stats.float64_lt (S754_zero true) (S754_zero false) = false.
Proof. vm_compute. repeat split. Qed.

(** X21. After a run of [AddShare] the best difficulty is the one the
    collector had, or that of a share of the run which is greater; and no
    share of the run has a difficulty greater than it, in the order of the
    numbers the difficulties stand for. A best difficulty that is not a
    number is therefore never replaced. *)
Theorem best_difficulty_is_maximal {time : Type}
    (ss : list (Stats.share_call time)) (c : Stats.Collector time) :
  let best := Stats.GetBestDifficulty (Stats.AddShares ss c) in
  (best = Stats.bestDifficulty c \/
   exists s, In s ss /\ Stats.scDifficulty s = best /\
             Float64.lt (Stats.bestDifficulty c) best) /\
  (forall s, In s ss -> ~ Float64.lt best (Stats.scDifficulty s)) /\
  (Stats.bestDifficulty c = S754_nan -> best = S754_nan).
Proof.
  cbv zeta. unfold Stats.GetBestDifficulty. rewrite AddShares_bestDifficulty.
  destruct (best_fold (map Stats.scDifficulty ss) (Stats.bestDifficulty c))
    as [Hfrom Hmax].
  split; [|split].
  - destruct Hfrom as [-> | [Hin Hlt]]; [now left | right].
    apply in_map_iff in Hin. destruct Hin as (s & Hs & Hin).
    exists s. split; [exact Hin|]. split; [exact Hs|].
    now apply float64_lt_spec.
  - intros s Hin Hlt. apply float64_lt_spec in Hlt.
    rewrite (Hmax (Stats.scDifficulty s)) in Hlt by now apply in_map.
    discriminate.
  - intros Hnan. destruct Hfrom as [-> | [_ Hlt]]; [exact Hnan|].
    rewrite Hnan in Hlt. discriminate.
Qed.

(** Of the shares of difficulty 1, 3 and 2 the collector keeps 3. *)
Example best_of_threeShares :
  Stats.GetBestDifficulty (Stats.AddShares StatsCases.threeShares StatsCases.small) =
  S754_finite false 3 0.
Proof. vm_compute. reflexivity. Qed.

(** ** Sessions *)

(** X22. The hashes of a session are the total less the total loaded at the
    start, as unsigned 64-bit numbers: when the count passed to
    [UpdateHashes] is below the loaded total, the session recorded by
    [EndSession] has 2^64 less the difference. The session is the last of
    the history, which grows by one up to fifty entries. *)
Theorem session_hashes_wrap {time : Type} (size : Z) (now endTime : time)
    (data : Stats.PersistentData time) (count : Z) (id duration : string) :
  0 <= count < 2 ^ 64 ->
  0 <= Stats.pTotalHashes data < 2 ^ 64 ->
  let c := Stats.EndSession endTime id duration
             (Stats.UpdateHashes count (Stats.NewCollector size now (Some data))) in
  last (Stats.sessionHistory c) =
    Some (Stats.mkSession id now endTime duration
            (if Stats.pTotalHashes data <=? count
             then count - Stats.pTotalHashes data
             else 2 ^ 64 - (Stats.pTotalHashes data - count))
            (Stats.pBestDifficulty data)) /\
  length (Stats.sessionHistory c) =
    if (length (Stats.pSessionHistory data) <? 50)%nat
    then S (length (Stats.pSessionHistory data))
    else length (Stats.pSessionHistory data).
Proof.
  intros Hc Hd c. subst c.
  unfold Stats.EndSession, Stats.UpdateHashes, Stats.NewCollector, Stats.Load.
  cbn [Stats.sessionHistory Stats.totalHashes Stats.startHashes Stats.startTime
       Stats.bestDifficulty].
  split.
  - rewrite push_last by lia. do 2 f_equal.
    unfold Big.to_uint.
    destruct (_ <=? _) eqn:E; zbool.
    + apply Z.mod_small. lia.
    + replace (count - Stats.pTotalHashes data)
        with (2 ^ 64 - (Stats.pTotalHashes data - count) + (-1) * 2 ^ 64) by lia.
      rewrite Z.mod_add by lia. apply Z.mod_small. lia.
  - unfold Stats.push. rewrite length_app. simpl length.
    destruct (_ <? _) eqn:E; zbool;
      destruct (Nat.ltb_spec (length (Stats.pSessionHistory data)) 50);
      try lia.
    + rewrite length_drop, length_app. simpl. lia.
    + rewrite length_app. simpl. lia.
Qed.

Lemma session_hashes_wrap_witness :
  0 <= 10 < 2 ^ 64 /\
  0 <= Stats.pTotalHashes StatsCases.saved < 2 ^ 64 /\
  last (Stats.sessionHistory
          (Stats.EndSession 60 "id" "1m0s"
             (Stats.UpdateHashes 10
                (Stats.NewCollector 0 0 (Some StatsCases.saved))))) =
    Some (Stats.mkSession "id" 0 60 "1m0s" 18446744073709550626 (S754_zero false)).
Proof.
  assert (H1 : 0 <= 10 < 2 ^ 64) by lia.
  assert (H2 : 0 <= Stats.pTotalHashes StatsCases.saved < 2 ^ 64)
    by (unfold StatsCases.saved; cbn; lia).
  split; [exact H1|]. split; [exact H2|].
  exact (proj1 (session_hashes_wrap 0 0 60 StatsCases.saved 10 "id" "1m0s" H1 H2)).
Defined.

(** * The manager *)

Section ManagerFacts.

Import Manager.

(** What an iteration that returns has done: every worker met got what [f]
    made of it, the others are as they were. *)
Lemma for_workers_spec f order (ws ws' : gmap Z Miner.Worker) :
  NoDup order -> (forall id, id ∈ order -> is_Some (ws !! id)) ->
  for_workers f order ws = Returns ws' <->
  (forall id, id ∈ order ->
     exists w w', ws !! id = Some w /\ f w = Returns w' /\ ws' !! id = Some w') /\
  (forall id, id ∉ order -> ws' !! id = ws !! id).
Proof.
  intros Hnd. revert ws. induction Hnd as [|i rest Hi Hnd IH]; intros ws Hin.
  - simpl. split.
    + intros [= <-]. split; [|reflexivity].
      intros id Hid. now apply elem_of_nil in Hid.
    + intros [_ Hsame]. f_equal. apply map_eq. intros id.
      symmetry. apply Hsame. apply not_elem_of_nil.
  - cbn [for_workers]. destruct (Hin i) as [w Hw]; [left|]. rewrite Hw.
    assert (Hrest : forall w1 id, id ∈ rest ->
              (<[i := w1]> ws : gmap Z Miner.Worker) !! id = ws !! id).
    { intros w1 id Hid. apply lookup_insert_ne. intros ->. contradiction. }
    split.
    + destruct (f w) as [w1| |] eqn:Hf; try discriminate.
      intros Hrun. apply IH in Hrun as [Hall Hsame].
      2: { intros id Hid. rewrite Hrest by exact Hid. apply Hin. now right. }
      split.
      * intros id Hid. apply elem_of_cons in Hid as [-> | Hid].
        -- exists w, w1. split; [exact Hw|]. split; [exact Hf|].
           rewrite (Hsame i Hi). apply lookup_insert_eq.
        -- destruct (Hall id Hid) as (x & x' & Hx & Hfx & Hx').
           rewrite Hrest in Hx by exact Hid. eauto.
      * intros id Hid. apply not_elem_of_cons in Hid as [Hne Hid].
        rewrite (Hsame id Hid). apply lookup_insert_ne. congruence.
    + intros [Hall Hsame].
      destruct (Hall i) as (x & x' & Hx & Hfx & Hx'); [left|].
      rewrite Hw in Hx. injection Hx as <-. rewrite Hfx. apply IH.
      * intros id Hid. rewrite Hrest by exact Hid. apply Hin. now right.
      * split.
        -- intros id Hid. destruct (Hall id) as (y & y' & Hy & Hfy & Hy'); [now right|].
           exists y, y'. rewrite Hrest by exact Hid. auto.
        -- intros id Hid. destruct (decide (id = i)) as [->|Hne].
           ++ rewrite lookup_insert_eq. exact Hx'.
           ++ rewrite lookup_insert_ne by congruence.
              apply Hsame. apply not_elem_of_cons. auto.
Qed.

(** A worker on which [f] panics makes the iteration panic, wherever the
    order puts it, when [f] never blocks. *)
Lemma for_workers_panics f order (ws : gmap Z Miner.Worker) i w :
  (forall x, f x <> Blocks) ->
  NoDup order -> (forall id, id ∈ order -> is_Some (ws !! id)) ->
  i ∈ order -> ws !! i = Some w -> f w = Panics ->
  for_workers f order ws = Panics.
Proof.
  intros Hnb Hnd. revert ws.
  induction Hnd as [|h rest Hh Hnd IH]; intros ws Hin Hi Hw Hf.
  - now apply elem_of_nil in Hi.
  - cbn [for_workers]. destruct (Hin h) as [x Hx]; [left|]. rewrite Hx.
    apply elem_of_cons in Hi as [-> | Hi].
    + rewrite Hw in Hx. injection Hx as <-. now rewrite Hf.
    + destruct (f x) as [x1| |] eqn:Hfx; [|now apply Hnb in Hfx|reflexivity].
      assert (Hne : h <> i) by (intros ->; contradiction).
      apply IH.
      * intros id Hid. rewrite lookup_insert_ne by (intros ->; contradiction).
        apply Hin. now right.
      * exact Hi.
      * rewrite lookup_insert_ne by exact Hne. exact Hw.
      * exact Hf.
Qed.

Lemma iteration_order_lookup order m :
  iteration_order order m ->
  NoDup order /\ forall id, id ∈ order <-> is_Some (workers m !! id).
Proof.
  intros [Hnd Hdom]. split; [exact Hnd|]. intros id.
  rewrite <- elem_of_dom, <- Hdom. now rewrite elem_of_list_to_set.
Qed.


(** With an order that meets every worker once and an [f] that returns on
    each, the iteration returns the map of what [f] made of them. *)
Lemma for_workers_all f order m :
  iteration_order order m ->
  (forall id w, workers m !! id = Some w -> exists w', f w = Returns w') ->
  for_workers f order (workers m) =
    Returns ((fun w => match f w with Returns w' => w' | _ => w end) <$> workers m).
Proof.
  intros Hord Hret. apply iteration_order_lookup in Hord as [Hnd Hin].
  apply for_workers_spec; [exact Hnd | intros id; apply Hin |].
  split.
  - intros id Hid. apply Hin in Hid as [w Hw].
    destruct (Hret id w Hw) as [w' Hf]. exists w, w'.
    split; [exact Hw|]. split; [exact Hf|].
    rewrite lookup_fmap, Hw. simpl. now rewrite Hf.
  - intros id Hid. rewrite lookup_fmap.
    destruct (workers m !! id) eqn:E; [|reflexivity].
    exfalso. apply Hid, Hin. eauto.
Qed.

(** A property of each worker that [f] keeps is kept by the iteration,
    whatever the order. *)
Lemma for_workers_preserves (P : Z -> Miner.Worker -> Prop) f order :
  (forall id w w', P id w -> f w = Returns w' -> P id w') ->
  forall ws ws',
    (forall id w, ws !! id = Some w -> P id w) ->
    for_workers f order ws = Returns ws' ->
    forall id w, ws' !! id = Some w -> P id w.
Proof.
  intros Hf. induction order as [|i rest IH]; intros ws ws' HP.
  - intros [= <-]. exact HP.
  - cbn [for_workers]. destruct (ws !! i) as [w|] eqn:Hw; [|now apply IH].
    destruct (f w) as [w1| |] eqn:Hfw; try discriminate.
    apply IH. intros id x Hx.
    destruct (decide (i = id)) as [<-|Hne].
    + rewrite lookup_insert_eq in Hx. injection Hx as <-. eauto.
    + rewrite lookup_insert_ne in Hx by exact Hne. eauto.
Qed.

Lemma Start_WID e1 size rnd w w' :
  Miner.Start e1 size rnd w = Returns w' -> Miner.WID w' = Miner.WID w.
Proof.
  unfold Miner.Start. destruct (Miner.running w); [now intros [= <-]|].
  destruct (Miner.generateExtranonce2 size rnd); [|discriminate].
  now intros [= <-].
Qed.

Lemma Stop_WID w w' : Miner.Stop w = Returns w' -> Miner.WID w' = Miner.WID w.
Proof.
  unfold Miner.Stop. destruct (Miner.running w); cbn [negb]; [|now intros [= <-]].
  destruct (Miner.shutdown w); [discriminate|]. now intros [= <-].
Qed.

Lemma UpdateJob_WID j w w' :
  Miner.UpdateJob j w = Returns w' -> Miner.WID w' = Miner.WID w.
Proof.
  unfold Miner.UpdateJob.
  destruct (Miner.try_send (Miner.jobChannel w) j); [now intros [= <-]|].
  destruct (Miner.try_send _ j); [|discriminate]. now intros [= <-].
Qed.

Lemma Stop_never_blocks w : Miner.Stop w <> Blocks.
Proof.
  unfold Miner.Stop. destruct (Miner.running w), (Miner.shutdown w); discriminate.
Qed.

Lemma act_ids a m m1 ids1 n :
  0 <= n -> (is_add a = true -> n + 1 < 2 ^ 63 - 1) -> ids_below n m ->
  act a m = Returns (m1, ids1) ->
  if is_add a then ids1 = [n + 1] /\ ids_below (n + 1) m1
  else ids1 = [] /\ ids_below n m1.
Proof.
  intros Hn Hb [Hnext Hws].
  assert (Hkeep : forall f order ws',
            (forall w w', f w = Returns w' -> Miner.WID w' = Miner.WID w) ->
            for_workers f order (workers m) = Returns ws' ->
            forall id w, ws' !! id = Some w -> 1 <= id <= n /\ Miner.WID w = id).
  { intros f order ws' Hf.
    apply (for_workers_preserves
             (fun id w => 1 <= id <= n /\ Miner.WID w = id)); [|exact Hws].
    intros id w w' [Hid Hw] Hfw. split; [exact Hid|].
    rewrite (Hf _ _ Hfw). exact Hw. }
  destruct a as [name rnd|id|e1 size|percent order|rnd order|order|job order];
    cbn [act is_add given] in *.
  - specialize (Hb eq_refl). unfold AddWorker.
    set (worker := Miner.NewWorker _ _ _).
    assert (Hstore : forall w, Miner.WID w = nextID m ->
              ids_below (n + 1)
                (mkManager (<[nextID m := w]> (workers m))
                           (Big.to_int64 (nextID m + 1)) (cpuPercent m)
                           (extranonce1 m) (extranonce2Size m))).
    { intros w Hw. split; cbn [nextID workers].
      - rewrite Hnext. apply to_int64_small. lia.
      - intros id x Hx. destruct (decide (nextID m = id)) as [<-|Hne].
        + rewrite lookup_insert_eq in Hx. injection Hx as <-. lia.
        + rewrite lookup_insert_ne in Hx by exact Hne.
          apply Hws in Hx. lia. }
    destruct (String.eqb (extranonce1 m) String.EmptyString).
    + intros [= <- <-]. cbn [fst snd]. split; [now rewrite <- Hnext|].
      now apply Hstore.
    + destruct (Miner.Start _ _ rnd worker) as [w| |] eqn:Hs; try discriminate.
      intros [= <- <-]. cbn [fst snd]. apply Start_WID in Hs.
      split; [now rewrite Hs, <- Hnext|]. apply Hstore. now rewrite Hs.
  - unfold RemoveWorker. destruct (workers m !! id) as [w|] eqn:Hw.
    + destruct (Miner.Stop w); try discriminate. intros [= <- <-].
      split; [reflexivity|]. split; [exact Hnext|].
      cbn [workers set_workers]. intros id' x Hx.
      apply lookup_delete_Some in Hx as [_ Hx]. eauto.
    + intros [= <- <-]. split; [reflexivity|]. now split.
  - intros [= <- <-]. split; [reflexivity|]. now split.
  - unfold SetCPUPercent. cbn [workers].
    destruct (for_workers _ order (workers m)) as [ws'| |] eqn:Hfor; try discriminate.
    intros [= <- <-]. split; [reflexivity|]. split; [exact Hnext|].
    cbn [workers set_workers]. eapply Hkeep; [|exact Hfor].
    now intros w w' [= <-].
  - unfold StartAll.
    destruct (for_workers _ order (workers m)) as [ws'| |] eqn:Hfor; try discriminate.
    intros [= <- <-]. split; [reflexivity|]. split; [exact Hnext|].
    cbn [workers set_workers]. eapply Hkeep; [|exact Hfor].
    intros w w'. cbv beta. destruct (Miner.IsRunning w); [now intros [= <-]|].
    apply Start_WID.
  - unfold StopAll.
    destruct (for_workers _ order (workers m)) as [ws'| |] eqn:Hfor; try discriminate.
    intros [= <- <-]. split; [reflexivity|]. split; [exact Hnext|].
    cbn [workers set_workers]. eapply Hkeep; [|exact Hfor]. apply Stop_WID.
  - unfold BroadcastJob.
    destruct (for_workers _ order (workers m)) as [ws'| |] eqn:Hfor; try discriminate.
    intros [= <- <-]. split; [reflexivity|]. split; [exact Hnext|].
    cbn [workers set_workers]. eapply Hkeep; [|exact Hfor]. apply UpdateJob_WID.
Qed.

Lemma run_ids_given acts :
  forall m m' ids n,
    0 <= n ->
    n + Z.of_nat (length (List.filter is_add acts)) < 2 ^ 63 - 1 ->
    ids_below n m ->
    run acts m = Returns (m', ids) ->
    ids = map (fun k => n + 1 + Z.of_nat k)
              (seq 0 (length (List.filter is_add acts))) /\
    ids_below (n + Z.of_nat (length (List.filter is_add acts))) m'.
Proof.
  induction acts as [|a acts IH]; intros m m' ids n Hn Hb Hinv.
  - intros [= <- <-]. simpl. rewrite Z.add_0_r. now split.
  - cbn [run List.filter]. cbn [List.filter] in Hb.
    destruct (act a m) as [[m1 ids1]| |] eqn:Hact; try discriminate.
    destruct (run acts m1) as [[m2 ids2]| |] eqn:Hrun; try discriminate.
    cbn [given fst snd]. intros [= <- <-].
    destruct (is_add a) eqn:Ha.
    + cbn [length] in Hb |- *.
      pose proof (act_ids a m m1 ids1 n Hn ltac:(intros _; lia) Hinv Hact) as Hstep.
      rewrite Ha in Hstep. destruct Hstep as [-> Hinv1].
      destruct (IH m1 m2 ids2 (n + 1) ltac:(lia) ltac:(lia) Hinv1 Hrun)
        as [-> Hinv2].
      split.
      * cbn [seq map app]. f_equal; [lia|].
        rewrite <- seq_shift, map_map. apply map_ext. intros k. lia.
      * replace (n + Z.of_nat (S (length (List.filter is_add acts))))
          with (n + 1 + Z.of_nat (length (List.filter is_add acts))) by lia.
        exact Hinv2.
    + pose proof (act_ids a m m1 ids1 n Hn ltac:(rewrite Ha; discriminate)
                    Hinv Hact) as Hstep.
      rewrite Ha in Hstep. destruct Hstep as [-> Hinv1].
      exact (IH m1 m2 ids2 n Hn Hb Hinv1 Hrun).
Qed.






Lemma generateExtranonce2_returns size rnd :
  0 <= size <= Big.maxAlloc -> exists e2, Miner.generateExtranonce2 size rnd = Some e2.
Proof.
  intros Hs. unfold Miner.generateExtranonce2.
  destruct (Z.ltb_spec size 0); [lia|].
  destruct (Z.ltb_spec Big.maxAlloc size); [lia|]. simpl. eauto.
Qed.

Lemma iteration_order_set_workers order m ws :
  dom ws = dom (workers m) ->
  iteration_order order m -> iteration_order order (set_workers m ws).
Proof. intros Hdom [Hnd Ho]. split; [exact Hnd|]. cbn. now rewrite Hdom. Qed.

Lemma Start_Name e1 size rnd w w' :
  Miner.Start e1 size rnd w = Returns w' -> Miner.Name w' = Miner.Name w.
Proof.
  unfold Miner.Start. destruct (Miner.running w); [now intros [= <-]|].
  destruct (Miner.generateExtranonce2 size rnd); [|discriminate].
  now intros [= <-].
Qed.

Lemma defaultName_letter id :
  1 <= id < 64 ->
  defaultName id =
  String.append "Worker "
    (String (ascii_of_nat (Z.to_nat (64 + id))) String.EmptyString).
Proof.
  intros Hid. unfold defaultName. f_equal.
  rewrite (to_int64_small (65 + id)) by lia.
  rewrite to_int64_small by lia.
  replace (to_int32 (65 + id - 1)) with (64 + id)
    by (unfold to_int32; rewrite Z.mod_small; lia).
  unfold string_of_rune, encoderune.
  destruct (Z.ltb_spec (64 + id) 0); [lia|].
  destruct (Z.ltb_spec 1114111 (64 + id)); [lia|].
  destruct (Z.leb_spec 55296 (64 + id)); [lia|].
  destruct (Z.ltb_spec (64 + id) 128); [|lia].
  reflexivity.
Qed.

Lemma iteration_order_elem order m id w :
  iteration_order order m -> workers m !! id = Some w -> id ∈ order.
Proof.
  intros Hord Hw. apply iteration_order_lookup in Hord as [_ Hin].
  apply Hin. eauto.
Qed.

End ManagerFacts.

(** X23. Worker ids are given out in order and never again: in a session
    on a new manager that returns, with fewer than 2^63 - 1 calls of
    [AddWorker], the k-th call gets the id k, whatever was removed in
    between, and every worker of the map is under its own id. *)
Theorem worker_ids_never_reused (acts : list Manager.action) (m : Manager.Manager)
    (ids : list Z) :
  Z.of_nat (length (List.filter Manager.is_add acts)) < 2 ^ 63 - 1 ->
  Manager.run acts Manager.NewManager = Returns (m, ids) ->
  let k := length (List.filter Manager.is_add acts) in
  ids = map Z.of_nat (seq 1 k) /\
  Manager.nextID m = Z.of_nat k + 1 /\
  forall id w, Manager.workers m !! id = Some w ->
    1 <= id <= Z.of_nat k /\ Miner.WID w = id.
Proof.
  intros Hb Hrun k.
  assert (H0 : Manager.ids_below 0 Manager.NewManager).
  { split; [reflexivity|]. intros id w Hw. cbn in Hw.
    rewrite lookup_empty in Hw. discriminate. }
  destruct (run_ids_given acts Manager.NewManager m ids 0 ltac:(lia) ltac:(lia)
              H0 Hrun) as [-> [Hnext Hws]].
  fold k in Hnext, Hws |- *. rewrite Z.add_0_l in *.
  split; [|split; [exact Hnext | exact Hws]].
  rewrite <- seq_shift, map_map. apply map_ext. intros i. lia.
Qed.

Lemma worker_ids_never_reused_witness :
  Z.of_nat (length (List.filter Manager.is_add ManagerCases.session)) < 2 ^ 63 - 1 /\
  Manager.run ManagerCases.session Manager.NewManager =
    Returns (ManagerCases.stopped, [1; 2; 3]) /\
  Manager.nextID ManagerCases.stopped = 4 /\
  forall id w, Manager.workers ManagerCases.stopped !! id = Some w ->
    1 <= id <= 3 /\ Miner.WID w = id.
Proof.
  assert (H1 : Z.of_nat (length (List.filter Manager.is_add ManagerCases.session))
               < 2 ^ 63 - 1) by (vm_compute; reflexivity).
  assert (H2 : Manager.run ManagerCases.session Manager.NewManager =
               Returns (ManagerCases.stopped, [1; 2; 3]))
    by (vm_compute; reflexivity).
  split; [exact H1|]. split; [exact H2|].
  exact (proj2 (worker_ids_never_reused ManagerCases.session ManagerCases.stopped
                  [1; 2; 3] H1 H2)).
Defined.



(** X25. [BroadcastJob] on workers whose mailboxes are within their
    capacity returns, never waiting on a full mailbox, with the same
    workers in the map; each worker has got the job as [UpdateJob] gives
    it, as the newest of its mailbox, which is still within capacity. *)
Theorem BroadcastJob_reaches_all (job : Stratum.Job) (order : list Z)
    (m : Manager.Manager) :
  Manager.iteration_order order m ->
  (forall id w, Manager.workers m !! id = Some w ->
                (length (Miner.jobChannel w) <= 10)%nat) ->
  exists m',
    Manager.BroadcastJob job order m = Returns m' /\
    dom (Manager.workers m') = dom (Manager.workers m) /\
    forall id w, Manager.workers m !! id = Some w ->
      exists w', Manager.workers m' !! id = Some w' /\
                 Miner.UpdateJob job w = Returns w' /\
                 last (Miner.jobChannel w') = Some job /\
                 (length (Miner.jobChannel w') <= 10)%nat.
Proof.
  intros Hord Hcap. unfold Manager.BroadcastJob.
  rewrite (for_workers_all (Miner.UpdateJob job) order m Hord).
  2: { intros id w Hw. destruct (UpdateJob_latest job w (Hcap id w Hw))
         as (w1 & Hu & _). eauto. }
  eexists. split; [reflexivity|]. cbn [Manager.workers Manager.set_workers].
  split; [apply dom_fmap_L|].
  intros id w Hw.
  destruct (UpdateJob_latest job w (Hcap id w Hw)) as (w1 & Hu & Hch & Hlen).
  exists w1. rewrite lookup_fmap, Hw. cbn. rewrite Hu.
  split; [reflexivity|]. split; [reflexivity|]. split; [|exact Hlen].
  rewrite Hch, length_app. cbn [length].
  rewrite drop_app_le by lia. apply last_snoc.
Qed.

Lemma BroadcastJob_reaches_all_witness :
  Manager.iteration_order [2; 1] ManagerCases.twoWorkers /\
  (forall id w, Manager.workers ManagerCases.twoWorkers !! id = Some w ->
                (length (Miner.jobChannel w) <= 10)%nat) /\
  exists m',
    Manager.BroadcastJob Scenario.jobA [2; 1] ManagerCases.twoWorkers = Returns m' /\
    dom (Manager.workers m') = dom (Manager.workers ManagerCases.twoWorkers) /\
    forall id w, Manager.workers ManagerCases.twoWorkers !! id = Some w ->
      exists w', Manager.workers m' !! id = Some w' /\
                 Miner.UpdateJob Scenario.jobA w = Returns w' /\
                 last (Miner.jobChannel w') = Some Scenario.jobA /\
                 (length (Miner.jobChannel w') <= 10)%nat.
Proof.
  assert (H1 : Manager.iteration_order [2; 1] ManagerCases.twoWorkers).
  { split; [|vm_compute; reflexivity].
    apply NoDup_ListNoDup. repeat constructor; simpl; intuition lia. }
  assert (H2 : forall id w,
             Manager.workers ManagerCases.twoWorkers !! id = Some w ->
             (length (Miner.jobChannel w) <= 10)%nat).
  { intros id w Hw.
    assert (Hid : id = 1 \/ id = 2).
    { pose proof (iteration_order_elem _ _ _ _ H1 Hw) as Hd.
      apply elem_of_cons in Hd as [->|Hd]; [now right|].
      apply elem_of_cons in Hd as [->|Hd]; [now left|].
      now apply elem_of_nil in Hd. }
    destruct Hid as [-> | ->]; vm_compute in Hw; injection Hw as <-;
      simpl; lia. }
  split; [exact H1|]. split; [exact H2|].
  exact (BroadcastJob_reaches_all Scenario.jobA [2; 1] ManagerCases.twoWorkers H1 H2).
Defined.

(** X26. Stopping, starting and stopping again panics: on a manager with a
    running worker and no worker stopped before, [StopAll] and then
    [StartAll] return, and the next [StopAll] panics on closing a channel
    that is closed, whatever the orders. *)
Theorem second_StopAll_panics (rnd : Z -> nat -> Z) (o1 o2 o3 : list Z)
    (m : Manager.Manager) (i : Z) (w : Miner.Worker) :
  Manager.iteration_order o1 m -> Manager.iteration_order o2 m ->
  Manager.iteration_order o3 m ->
  Manager.workers m !! i = Some w -> Miner.running w = true ->
  (forall id x, Manager.workers m !! id = Some x -> Miner.shutdown x = false) ->
  0 <= Manager.extranonce2Size m <= Big.maxAlloc ->
  exists m1 m2,
    Manager.StopAll o1 m = Returns m1 /\
    Manager.StartAll rnd o2 m1 = Returns m2 /\
    Manager.StopAll o3 m2 = Panics.
Proof.
  intros H1 H2 H3 Hw Hrun Hopen Hsize.
  unfold Manager.StopAll at 1.
  rewrite (for_workers_all Miner.Stop o1 m H1).
  2: { intros id x Hx. unfold Miner.Stop. rewrite (Hopen id x Hx).
       destruct (Miner.running x); cbn; eauto. }
  set (ws1 := _ <$> Manager.workers m).
  set (m1 := Manager.set_workers m ws1).
  assert (Hd1 : dom ws1 = dom (Manager.workers m)) by apply dom_fmap_L.
  assert (H2' : Manager.iteration_order o2 m1)
    by now apply iteration_order_set_workers.
  exists m1. cbn [Manager.lift].
  unfold Manager.StartAll.
  rewrite (for_workers_all _ o2 m1 H2').
  2: { intros id x Hx. destruct (Miner.IsRunning x); [eauto|].
       unfold Miner.Start. destruct (Miner.running x); [eauto|].
       destruct (generateExtranonce2_returns (Manager.extranonce2Size m1)
                   (rnd (Miner.WID x)) Hsize) as [e2 ->]. eauto. }
  set (ws2 := _ <$> Manager.workers m1).
  set (m2 := Manager.set_workers m1 ws2).
  exists m2. cbn [Manager.lift]. split; [reflexivity|]. split; [reflexivity|].
  assert (H3' : Manager.iteration_order o3 m2).
  { apply iteration_order_set_workers; [apply dom_fmap_L|].
    now apply iteration_order_set_workers. }
  apply iteration_order_lookup in H3' as [Hnd3 Hin3].
  unfold Manager.StopAll.
  assert (Hi : exists w2, Manager.workers m2 !! i = Some w2 /\
                          Miner.running w2 = true /\ Miner.shutdown w2 = true).
  { destruct (generateExtranonce2_returns (Manager.extranonce2Size m)
                (rnd (Miner.WID w)) Hsize) as [e2 He2].
    assert (Hl1 : ws1 !! i =
              Some (Miner.mkWorker (Miner.WID w) (Miner.Name w) false
                      (Miner.hashCount w) (Miner.job w) (Miner.extranonce1 w)
                      (Miner.extranonce2 w) (Miner.cpuPercent w) true
                      (Miner.jobChannel w) (Miner.loops w))).
    { unfold ws1. rewrite lookup_fmap, Hw. cbn [fmap option_fmap option_map].
      unfold Miner.Stop. now rewrite Hrun, (Hopen i w Hw). }
    change (Manager.workers m2) with ws2. unfold ws2.
    rewrite lookup_fmap. change (Manager.workers m1) with ws1. rewrite Hl1.
    cbn [fmap option_fmap option_map].
    unfold Miner.IsRunning, Miner.Start.
    cbn [Miner.running Miner.WID].
    change (Manager.extranonce2Size m1) with (Manager.extranonce2Size m).
    rewrite He2. eexists. split; [reflexivity|]. auto. }
  destruct Hi as (w2 & Hw2 & Hr2 & Hs2).
  rewrite (for_workers_panics Miner.Stop o3 (Manager.workers m2) i w2);
    [reflexivity | apply Stop_never_blocks | exact Hnd3
     | intros id; apply Hin3 | apply Hin3; eauto | exact Hw2 |].
  unfold Miner.Stop. now rewrite Hr2, Hs2.
Qed.

Lemma second_StopAll_panics_witness :
  Manager.iteration_order [1; 2] ManagerCases.twoWorkers /\
  Manager.iteration_order [2; 1] ManagerCases.twoWorkers /\
  0 <= Manager.extranonce2Size ManagerCases.twoWorkers <= Big.maxAlloc /\
  exists m1 m2,
    Manager.StopAll [1; 2] ManagerCases.twoWorkers = Returns m1 /\
    Manager.StartAll (fun _ => Scenario.draws) [2; 1] m1 = Returns m2 /\
    Manager.StopAll [2; 1] m2 = Panics.
Proof.
  assert (H1 : Manager.iteration_order [1; 2] ManagerCases.twoWorkers).
  { split; [|vm_compute; reflexivity].
    apply NoDup_ListNoDup. repeat constructor; simpl; intuition lia. }
  assert (H2 : Manager.iteration_order [2; 1] ManagerCases.twoWorkers).
  { split; [|vm_compute; reflexivity].
    apply NoDup_ListNoDup. repeat constructor; simpl; intuition lia. }
  assert (H3 : 0 <= Manager.extranonce2Size ManagerCases.twoWorkers <= Big.maxAlloc)
    by (vm_compute; split; discriminate).
  assert (Hw : Manager.workers ManagerCases.twoWorkers !! 2 =
               Some (Miner.mkWorker 2 "rig" true 0 None "ab01" "01020304" 80
                                    false [] 1))
    by (vm_compute; reflexivity).
  assert (Hopen : forall id x,
             Manager.workers ManagerCases.twoWorkers !! id = Some x ->
             Miner.shutdown x = false).
  { intros id x Hx.
    assert (Hid : id = 1 \/ id = 2).
    { pose proof (iteration_order_elem _ _ _ _ H1 Hx) as Hd.
      apply elem_of_cons in Hd as [->|Hd]; [now left|].
      apply elem_of_cons in Hd as [->|Hd]; [now right|].
      now apply elem_of_nil in Hd. }
    destruct Hid as [-> | ->]; vm_compute in Hx; now injection Hx as <-. }
  split; [exact H1|]. split; [exact H2|]. split; [exact H3|].
  exact (second_StopAll_panics (fun _ => Scenario.draws) [1; 2] [2; 1] [2; 1]
           ManagerCases.twoWorkers 2 _ H1 H2 H2 Hw eq_refl Hopen H3).
Defined.

(** X27. A worker added and removed again leaves the map as it was, with
    its id used up: on a manager with no worker under [nextID],
    [AddWorker] returns a worker under that id, one more than before is
    counted, and [RemoveWorker] of the id returns true and the workers
    there were, while [nextID] stays advanced. *)
Theorem AddWorker_then_RemoveWorker (name : string) (rnd : nat -> Z)
    (m m1 : Manager.Manager) (w : Miner.Worker) :
  Manager.workers m !! Manager.nextID m = None ->
  Manager.AddWorker name rnd m = Returns (m1, w) ->
  Miner.WID w = Manager.nextID m /\
  Manager.GetWorker (Manager.nextID m) m1 = Some w /\
  Manager.WorkerCount m1 = Manager.WorkerCount m + 1 /\
  Manager.RemoveWorker (Miner.WID w) m1 =
    Returns (Manager.mkManager (Manager.workers m)
               (Big.to_int64 (Manager.nextID m + 1)) (Manager.cpuPercent m)
               (Manager.extranonce1 m) (Manager.extranonce2Size m), true).
Proof.
  intros Hfresh Hadd. unfold Manager.AddWorker in Hadd.
  set (worker := Miner.NewWorker _ _ _) in Hadd.
  assert (Hw : Miner.WID w = Manager.nextID m /\ Miner.shutdown w = false /\
               m1 = Manager.mkManager (<[Manager.nextID m := w]> (Manager.workers m))
                      (Big.to_int64 (Manager.nextID m + 1)) (Manager.cpuPercent m)
                      (Manager.extranonce1 m) (Manager.extranonce2Size m)).
  { destruct (String.eqb (Manager.extranonce1 m) String.EmptyString).
    - injection Hadd as <- <-. auto.
    - destruct (Miner.Start _ _ rnd worker) as [w'| |] eqn:Hs; try discriminate.
      injection Hadd as <- <-.
      pose proof (Start_WID _ _ _ _ _ Hs) as Hid.
      apply Start_running in Hs as [_ Hsh]. auto. }
  destruct Hw as (Hid & Hsh & ->).
  split; [exact Hid|]. split; [apply lookup_insert_eq|].
  split.
  { unfold Manager.WorkerCount. cbn [Manager.workers].
    rewrite map_size_insert_None by exact Hfresh. lia. }
  unfold Manager.RemoveWorker. cbn [Manager.workers]. rewrite Hid.
  rewrite lookup_insert_eq.
  assert (Hstop : exists w', Miner.Stop w = Returns w').
  { unfold Miner.Stop. rewrite Hsh. destruct (Miner.running w); cbn; eauto. }
  destruct Hstop as [w' ->]. unfold Manager.set_workers. cbn.
  rewrite delete_insert_eq, delete_id by exact Hfresh. reflexivity.
Qed.

Lemma AddWorker_then_RemoveWorker_witness :
  Manager.workers ManagerCases.twoWorkers !! Manager.nextID ManagerCases.twoWorkers
    = None /\
  exists m1 w,
    Manager.AddWorker String.EmptyString Scenario.draws ManagerCases.twoWorkers
      = Returns (m1, w) /\
    Miner.WID w = 3 /\
    Manager.WorkerCount m1 = 3 /\
    exists m2, Manager.RemoveWorker 3 m1 = Returns (m2, true) /\
               Manager.workers m2 = Manager.workers ManagerCases.twoWorkers /\
               Manager.nextID m2 = 4.
Proof.
  assert (H1 : Manager.workers ManagerCases.twoWorkers
                 !! Manager.nextID ManagerCases.twoWorkers = None)
    by (vm_compute; reflexivity).
  split; [exact H1|].
  destruct (Manager.AddWorker String.EmptyString Scenario.draws
              ManagerCases.twoWorkers) as [[m1 w]| |] eqn:Hadd;
    [|vm_compute in Hadd; discriminate..].
  exists m1, w. split; [reflexivity|].
  destruct (AddWorker_then_RemoveWorker String.EmptyString Scenario.draws
              ManagerCases.twoWorkers m1 w H1 Hadd) as (Hid & _ & Hcount & Hrm).
  split; [exact Hid|]. split; [exact Hcount|].
  rewrite Hid in Hrm. eexists. split; [exact Hrm|]. split; reflexivity.
Defined.

(** The name [AddWorker] gives: the one passed when it is not empty,
    and for the first 63 workers otherwise ["Worker "] followed by the
    character of code 64 plus the id, the letters A to Z for the first 26. *)
Lemma default_worker_name (name : string) (rnd : nat -> Z)
    (m m1 : Manager.Manager) (w : Miner.Worker) :
  1 <= Manager.nextID m < 64 ->
  Manager.AddWorker name rnd m = Returns (m1, w) ->
  Miner.Name w =
    if String.eqb name String.EmptyString
    then String.append "Worker "
           (String (ascii_of_nat (Z.to_nat (64 + Manager.nextID m)))
                   String.EmptyString)
    else name.
Proof.
  intros Hid Hadd. unfold Manager.AddWorker in Hadd.
  rewrite <- (defaultName_letter _ Hid).
  set (worker := Miner.NewWorker _ _ _) in Hadd.
  assert (Hname : Miner.Name w = Miner.Name worker).
  { destruct (String.eqb (Manager.extranonce1 m) String.EmptyString).
    - now injection Hadd as <- <-.
    - destruct (Miner.Start _ _ rnd worker) as [w'| |] eqn:Hs; try discriminate.
      injection Hadd as <- <-. now apply Start_Name in Hs. }
  rewrite Hname. reflexivity.
Qed.

(** The third worker of a manager is Worker C. *)
Example third_worker_name :
  1 <= Manager.nextID ManagerCases.twoWorkers < 64 /\
  exists m1 w,
    Manager.AddWorker String.EmptyString Scenario.draws ManagerCases.twoWorkers
      = Returns (m1, w) /\
    Miner.Name w = "Worker C"%string.
Proof.
  assert (H1 : 1 <= Manager.nextID ManagerCases.twoWorkers < 64)
    by (vm_compute; split; [discriminate | reflexivity]).
  split; [exact H1|].
  destruct (Manager.AddWorker String.EmptyString Scenario.draws
              ManagerCases.twoWorkers) as [[m1 w]| |] eqn:Hadd;
    [|vm_compute in Hadd; discriminate..].
  exists m1, w. split; [reflexivity|].
  exact (default_worker_name String.EmptyString Scenario.draws
           ManagerCases.twoWorkers m1 w H1 Hadd).
Qed.

(** * The WebSocket hub *)

Section HubFacts.

Context {data : Type} (Marshal : Hub.event data -> option (list Z)).

(** Replaying the history into an open channel: the entries that encode
    are appended in order when they fit, and the call waits for ever
    otherwise. *)
Lemma replay_spec (entries : list (Hub.event data)) :
  forall cl : Hub.WSClient,
    Hub.closed cl = false -> (length (Hub.send cl) <= 256)%nat ->
    Hub.replay Marshal entries cl =
      if (length (Hub.send cl) + length (omap Marshal entries) <=? 256)%nat
      then Returns (Hub.mkClient (Hub.send cl ++ omap Marshal entries) false)
      else Blocks.
Proof.
  induction entries as [|e rest IH]; intros cl Hopen Hlen.
  - cbn [Hub.replay omap list_omap length]. rewrite Nat.add_0_r, app_nil_r.
    destruct (Nat.leb_spec (length (Hub.send cl)) 256); [|lia].
    destruct cl as [s c]. cbn in *. now subst c.
  - cbn [Hub.replay omap list_omap]. destruct (Marshal e) as [m|]; [|now apply IH].
    unfold Hub.chan_send, Hub.sendCap. rewrite Hopen. cbn [length].
    destruct (Nat.ltb_spec (length (Hub.send cl)) 256) as [Hlt|Hge].
    + rewrite IH by (cbn [Hub.closed Hub.send]; rewrite ?length_app; cbn; lia).
      cbn [Hub.send]. rewrite length_app. cbn [length].
      replace (length (Hub.send cl) + 1 + length (omap Marshal rest))%nat
        with (length (Hub.send cl) + S (length (omap Marshal rest)))%nat by lia.
      rewrite <- app_assoc. reflexivity.
    + destruct (Nat.leb_spec (length (Hub.send cl) + S (length (omap Marshal rest)))
                             256); [lia | reflexivity].
Qed.

Lemma omap_length_le {A B} (f : A -> option B) (l : list A) :
  (length (omap f l) <= length l)%nat.
Proof.
  induction l as [|x l IH]; [reflexivity|].
  cbn [omap list_omap]. destruct (f x); cbn [length]; lia.
Qed.

Lemma fresh_pointer (h : Hub.WSHub data) :
  Hub.heap h !! fresh (dom (Hub.heap h)) = None.
Proof. apply not_elem_of_dom, is_fresh. Qed.

Lemma HandleWebSocket_spec (h : Hub.WSHub data) :
  Hub.HandleWebSocket Marshal true h =
    if (length (omap Marshal (Hub.logHistory h)) <=? 256)%nat
    then Returns
           (Hub.mkHub
              (<[fresh (dom (Hub.heap h)) :=
                   Hub.mkClient (omap Marshal (Hub.logHistory h)) false]>
                 (Hub.heap h))
              ({[fresh (dom (Hub.heap h))]} ∪ Hub.clients h)
              (Hub.logHistory h),
            Some (fresh (dom (Hub.heap h))))
    else Blocks.
Proof.
  unfold Hub.HandleWebSocket, Hub.AddClient.
  cbn [Hub.logHistory Hub.heap Hub.clients].
  rewrite lookup_insert_eq.
  destruct (omap Marshal (Hub.logHistory h)) as [|m ms] eqn:Hm.
  - reflexivity.
  - rewrite replay_spec by (cbn; lia). cbn [Hub.send length Nat.add app].
    rewrite Hm. cbn [length].
    destruct (_ <=? _)%nat; [|reflexivity].
    now rewrite insert_insert_eq.
Qed.

(** Open channels let [Broadcast] go through, and stay open. *)
Lemma broadcast_to_open (m : list Z) (order : list Z) :
  forall hp : gmap Z Hub.WSClient,
    (forall c, c ∈ order ->
       exists cl, hp !! c = Some cl /\ Hub.closed cl = false) ->
    exists hp',
      Hub.broadcast_to m order hp = Returns hp' /\
      forall c cl, hp !! c = Some cl ->
        exists cl', hp' !! c = Some cl' /\ Hub.closed cl' = Hub.closed cl.
Proof.
  induction order as [|c rest IH]; intros hp Hopen.
  - exists hp. split; [reflexivity|]. eauto.
  - cbn [Hub.broadcast_to].
    destruct (Hopen c) as (cl & Hcl & Hc); [left|]. rewrite Hcl.
    unfold Hub.chan_try_send. rewrite Hc.
    set (cl1 := if (length (Hub.send cl) <? Hub.sendCap)%nat
                then Hub.mkClient (Hub.send cl ++ [m]) false else cl).
    assert (Hc1 : Hub.closed cl1 = false)
      by (unfold cl1; destruct (_ <? _)%nat; [reflexivity | exact Hc]).
    replace (if (length (Hub.send cl) <? Hub.sendCap)%nat
             then Returns (Hub.mkClient (Hub.send cl ++ [m]) false)
             else Returns cl) with (Returns cl1)
      by (unfold cl1; now destruct (_ <? _)%nat).
    assert (Hkeep : forall c' x, hp !! c' = Some x ->
              exists x', (<[c := cl1]> hp : gmap Z Hub.WSClient) !! c' = Some x' /\
                         Hub.closed x' = Hub.closed x).
    { intros c' x Hx. destruct (decide (c = c')) as [<-|Hne].
      - rewrite lookup_insert_eq. exists cl1. split; [reflexivity|].
        rewrite Hcl in Hx. injection Hx as <-. now rewrite Hc1, Hc.
      - rewrite lookup_insert_ne by exact Hne. eauto. }
    destruct (IH (<[c := cl1]> hp)) as (hp' & Hrun & Hsame).
    { intros c' Hc'. destruct (Hopen c') as (x & Hx & Hxc); [now right|].
      destruct (Hkeep c' x Hx) as (x' & Hx' & Hcx). exists x'.
      split; [exact Hx' | now rewrite Hcx]. }
    exists hp'. split; [exact Hrun|].
    intros c' x Hx. destruct (Hkeep c' x Hx) as (x' & Hx' & Hcx).
    destruct (Hsame c' x' Hx') as (x'' & Hx'' & Hcx'').
    exists x''. split; [exact Hx'' | now rewrite Hcx'', Hcx].
Qed.

(** With an order that meets every client once: a client that has room
    gets the message as its newest, a full one is passed over. *)
Lemma broadcast_to_spec (m : list Z) (order : list Z) :
  NoDup order ->
  forall hp : gmap Z Hub.WSClient,
    (forall c, c ∈ order ->
       exists cl, hp !! c = Some cl /\ Hub.closed cl = false) ->
    exists hp',
      Hub.broadcast_to m order hp = Returns hp' /\
      forall c,
        hp' !! c =
        if decide (c ∈ order)
        then (fun cl => if (length (Hub.send cl) <? Hub.sendCap)%nat
                        then Hub.mkClient (Hub.send cl ++ [m]) false
                        else cl) <$> hp !! c
        else hp !! c.
Proof.
  induction 1 as [|c rest Hc Hnd IH]; intros hp Hopen.
  - exists hp. split; [reflexivity|]. intros c.
    destruct (decide (c ∈ [])) as [Hin|_]; [|reflexivity].
    now apply elem_of_nil in Hin.
  - cbn [Hub.broadcast_to].
    destruct (Hopen c) as (cl & Hcl & Hcc); [left|]. rewrite Hcl.
    unfold Hub.chan_try_send. rewrite Hcc.
    set (cl1 := if (length (Hub.send cl) <? Hub.sendCap)%nat
                then Hub.mkClient (Hub.send cl ++ [m]) false else cl).
    replace (if (length (Hub.send cl) <? Hub.sendCap)%nat
             then Returns (Hub.mkClient (Hub.send cl ++ [m]) false)
             else Returns cl) with (Returns cl1)
      by (unfold cl1; now destruct (_ <? _)%nat).
    destruct (IH (<[c := cl1]> hp)) as (hp' & Hrun & Hspec).
    { intros c' Hc'. rewrite lookup_insert_ne by (intros ->; contradiction).
      apply Hopen. now right. }
    exists hp'. split; [exact Hrun|]. intros c'. rewrite (Hspec c').
    destruct (decide (c' = c)) as [->|Hne].
    + destruct (decide (c ∈ rest)) as [Hin|_]; [contradiction|].
      destruct (decide (c ∈ c :: rest)) as [_|Hout]; [|exfalso; apply Hout; left].
      rewrite lookup_insert_eq, Hcl. reflexivity.
    + rewrite lookup_insert_ne by congruence.
      destruct (decide (c' ∈ rest)) as [Hin|Hout];
        destruct (decide (c' ∈ c :: rest)) as [Hin'|Hout']; try reflexivity.
      * exfalso. apply Hout'. now right.
      * exfalso. apply elem_of_cons in Hin' as [?|?]; contradiction.
Qed.

Lemma pick_clients (pick : list Z -> list Z) (h : Hub.WSHub data) :
  (forall l : list Z, pick l ≡ₚ l) ->
  NoDup (pick (elements (Hub.clients h))) /\
  forall c, c ∈ pick (elements (Hub.clients h)) <-> c ∈ Hub.clients h.
Proof.
  intros Hp. split.
  - rewrite Hp. apply NoDup_elements.
  - intros c. rewrite Hp. apply elem_of_elements.
Qed.

Lemma Broadcast_sound (m : list Z) (pick : list Z -> list Z) (h : Hub.WSHub data) :
  (forall l : list Z, pick l ≡ₚ l) -> Hub.sound h ->
  exists h', Hub.Broadcast m pick h = Returns h' /\ Hub.sound h' /\
             Hub.logHistory h' = Hub.logHistory h.
Proof.
  intros Hp [Hopen Hlog]. destruct (pick_clients pick h Hp) as [_ Hin].
  unfold Hub.Broadcast.
  destruct (broadcast_to_open m (pick (elements (Hub.clients h))) (Hub.heap h))
    as (hp' & -> & Hsame).
  { intros c Hc. apply Hopen, Hin, Hc. }
  eexists. split; [reflexivity|]. split; [|reflexivity].
  split; [|exact Hlog]. cbn [Hub.clients Hub.heap].
  intros c Hc. destruct (Hopen c Hc) as (cl & Hcl & Hcc).
  destruct (Hsame c cl Hcl) as (cl' & Hcl' & Hcc').
  exists cl'. split; [exact Hcl' | now rewrite Hcc'].
Qed.

(** One step of a hub: it returns, keeps the hub sound, and appends to the
    log history the log event it has, if any. *)
Lemma act_sound (a : Hub.action data) (h : Hub.WSHub data) :
  Hub.picks_permute [a] -> Hub.sound h ->
  exists h', Hub.act Marshal a h = Returns h' /\ Hub.sound h' /\
             Hub.logHistory h' =
               fold_left (Stats.push 50) (Hub.logs_of [a]) (Hub.logHistory h).
Proof.
  intros Hp Hs. apply Forall_cons in Hp as [Hp _].
  destruct a as [[]|c|ty d now pick|m pick|c];
    cbn [Hub.act Hub.logs_of omap list_omap fold_left].
  - rewrite HandleWebSocket_spec. destruct Hs as [Hopen Hlog].
    pose proof (omap_length_le Marshal (Hub.logHistory h)) as Hle.
    destruct (Nat.leb_spec (length (omap Marshal (Hub.logHistory h))) 256); [|lia].
    eexists. split; [reflexivity|]. split; [|reflexivity].
    split; [|exact Hlog]. cbn [Hub.clients Hub.heap].
    intros c Hc. apply elem_of_union in Hc as [Hc|Hc].
    + apply elem_of_singleton in Hc as ->. rewrite lookup_insert_eq. eauto.
    + destruct (Hopen c Hc) as (cl & Hcl & Hcc). exists cl.
      split; [|exact Hcc]. rewrite lookup_insert_ne; [exact Hcl|].
      intros <-. rewrite fresh_pointer in Hcl. discriminate.
  - exists h. cbn. auto.
  - unfold Hub.RemoveClient. destruct Hs as [Hopen Hlog].
    destruct (decide (c ∈ Hub.clients h)) as [Hc|Hc]; [|exists h; now repeat split].
    destruct (Hopen c Hc) as (cl & -> & ->).
    eexists. split; [reflexivity|]. split; [|reflexivity].
    split; [|exact Hlog]. cbn [Hub.clients Hub.heap].
    intros c' Hc'. apply elem_of_difference in Hc' as [Hc' Hne].
    rewrite lookup_insert_ne by (intros ->; apply Hne; now apply elem_of_singleton).
    now apply Hopen.
  - unfold Hub.BroadcastEvent.
    set (ev := Hub.mkEvent ty d now).
    set (h1 := if String.eqb ty "log" then _ else h).
    assert (Hs1 : Hub.sound h1 /\
                  Hub.logHistory h1 =
                    fold_left (Stats.push 50)
                      (if String.eqb ty "log" then [ev] else [])
                      (Hub.logHistory h)).
    { unfold h1. destruct (String.eqb ty "log"); [|now split].
      destruct Hs as [Hopen Hlog]. split; [|reflexivity].
      split; [exact Hopen|]. cbn [Hub.logHistory].
      pose proof (push_length 50 (Hub.logHistory h) ev ltac:(lia)). lia. }
    destruct Hs1 as [Hs1 Hl1].
    replace (match (if String.eqb ty "log" then Some ev else None) with
             | Some y => [y]
             | None => []
             end) with (if String.eqb ty "log" then [ev] else [])
      by (now destruct (String.eqb ty "log")).
    rewrite <- Hl1. destruct (Marshal ev) as [m|]; [|exists h1; auto].
    apply Broadcast_sound; assumption.
  - apply Broadcast_sound; assumption.
  - exists (Hub.receive c h). split; [reflexivity|]. split; [|].
    + destruct Hs as [Hopen Hlog]. unfold Hub.receive.
      destruct (Hub.heap h !! c) as [cl|] eqn:Hcl; [|now split].
      split; [|exact Hlog]. cbn [Hub.clients Hub.heap].
      intros c' Hc'. destruct (Hopen c' Hc') as (x & Hx & Hxc).
      destruct (decide (c = c')) as [<-|Hne].
      * rewrite lookup_insert_eq. eexists. split; [reflexivity|].
        rewrite Hcl in Hx. injection Hx as <-. exact Hxc.
      * rewrite lookup_insert_ne by exact Hne. eauto.
    + unfold Hub.receive. now destruct (Hub.heap h !! c).
Qed.

Lemma run_sound (acts : list (Hub.action data)) :
  forall h : Hub.WSHub data,
    Hub.picks_permute acts -> Hub.sound h ->
    exists h', Hub.run Marshal acts h = Returns h' /\ Hub.sound h' /\
               Hub.logHistory h' =
                 fold_left (Stats.push 50) (Hub.logs_of acts) (Hub.logHistory h).
Proof.
  induction acts as [|a acts IH]; intros h Hp Hs.
  - exists h. auto.
  - apply Forall_cons in Hp as [Hpa Hp].
    destruct (act_sound a h) as (h1 & Ha & Hs1 & Hl1);
      [now apply Forall_cons | exact Hs |].
    destruct (IH h1 Hp Hs1) as (h' & Hrun & Hs' & Hl').
    exists h'. cbn [Hub.run]. rewrite Ha. split; [exact Hrun|].
    split; [exact Hs'|]. rewrite Hl', Hl1.
    change (a :: acts) with ([a] ++ acts).
    unfold Hub.logs_of. rewrite omap_app, fold_left_app. reflexivity.
Qed.

End HubFacts.

(** X28. A hub never stops: whatever connections come and go, whatever
    events and messages are broadcast and whatever the clients take, in
    any order of iteration, each call returns, none waits on a full
    channel and none sends on or closes a closed one; every client of the
    map has an open channel; and the log history is the last fifty log
    events, oldest first. *)
Theorem hub_run_returns {data : Type} (Marshal : Hub.event data -> option (list Z))
    (acts : list (Hub.action data)) :
  Hub.picks_permute acts ->
  exists h,
    Hub.run Marshal acts Hub.NewWSHub = Returns h /\
    (forall c, c ∈ Hub.clients h ->
       exists cl, Hub.heap h !! c = Some cl /\ Hub.closed cl = false) /\
    Hub.logHistory h = drop (length (Hub.logs_of acts) - 50) (Hub.logs_of acts).
Proof.
  intros Hp.
  assert (H0 : Hub.sound (@Hub.NewWSHub data)).
  { split; [|cbn; lia]. intros c Hc. cbn in Hc. now apply elem_of_empty in Hc. }
  destruct (run_sound Marshal acts Hub.NewWSHub Hp H0) as (h & Hrun & [Hopen _] & Hl).
  exists h. split; [exact Hrun|]. split; [exact Hopen|].
  rewrite Hl. cbn [Hub.logHistory Hub.NewWSHub].
  destruct (pushes_latest 50 (Hub.logs_of acts) []) as [-> _]; [cbn; lia|].
  reflexivity.
Qed.

Lemma hub_run_returns_witness :
  Hub.picks_permute HubCases.session /\
  exists h,
    Hub.run HubCases.Marshal HubCases.session Hub.NewWSHub = Returns h /\
    (forall c, c ∈ Hub.clients h ->
       exists cl, Hub.heap h !! c = Some cl /\ Hub.closed cl = false) /\
    Hub.logHistory h = [Hub.mkEvent "log" "started" 1000].
Proof.
  assert (H : Hub.picks_permute HubCases.session)
    by (repeat constructor; intros l; reflexivity).
  split; [exact H|].
  exact (hub_run_returns HubCases.Marshal HubCases.session H).
Defined.

(** X29. A connection that comes in gets, at a pointer not in use, a
    client whose channel holds the log entries that encode, oldest first,
    when there are at most 256 of them; with more the call waits for
    ever, the hub locked. A connection that is not upgraded changes
    nothing. *)
Theorem new_client_gets_history {data : Type}
    (Marshal : Hub.event data -> option (list Z)) (h : Hub.WSHub data) :
  let c := fresh (dom (Hub.heap h)) in
  let msgs := omap Marshal (Hub.logHistory h) in
  Hub.heap h !! c = None /\
  Hub.HandleWebSocket Marshal true h =
    (if (length msgs <=? 256)%nat
     then Returns (Hub.mkHub (<[c := Hub.mkClient msgs false]> (Hub.heap h))
                             ({[c]} ∪ Hub.clients h) (Hub.logHistory h),
                   Some c)
     else Blocks) /\
  Hub.HandleWebSocket Marshal false h = Returns (h, None).
Proof.
  cbv zeta. split; [apply fresh_pointer|]. split; [|reflexivity].
  apply HandleWebSocket_spec.
Qed.

(** X30. [Broadcast] on a hub whose clients have open channels returns with
    the same clients and log history; a client of the map with room in its
    channel has the message as its newest, a client whose channel is full
    is passed over, and a client that is not in the map is not touched. *)
Theorem Broadcast_passes_over_full {data : Type} (m : list Z)
    (pick : list Z -> list Z) (h : Hub.WSHub data) :
  (forall l : list Z, pick l ≡ₚ l) ->
  (forall c, c ∈ Hub.clients h ->
     exists cl, Hub.heap h !! c = Some cl /\ Hub.closed cl = false) ->
  exists h',
    Hub.Broadcast m pick h = Returns h' /\
    Hub.clients h' = Hub.clients h /\
    Hub.logHistory h' = Hub.logHistory h /\
    forall c,
      Hub.heap h' !! c =
      if decide (c ∈ Hub.clients h)
      then (fun cl => if (length (Hub.send cl) <? 256)%nat
                      then Hub.mkClient (Hub.send cl ++ [m]) false
                      else cl) <$> Hub.heap h !! c
      else Hub.heap h !! c.
Proof.
  intros Hp Hopen. destruct (pick_clients pick h Hp) as [Hnd Hin].
  unfold Hub.Broadcast.
  destruct (broadcast_to_spec m (pick (elements (Hub.clients h))) Hnd (Hub.heap h))
    as (hp' & -> & Hspec).
  { intros c Hc. apply Hopen, Hin, Hc. }
  eexists. split; [reflexivity|]. split; [reflexivity|]. split; [reflexivity|].
  intros c. cbn [Hub.heap]. rewrite (Hspec c).
  destruct (decide (c ∈ pick (elements (Hub.clients h)))) as [Hc|Hc];
    destruct (decide (c ∈ Hub.clients h)) as [Hc'|Hc']; try reflexivity.
  - exfalso. apply Hc', Hin, Hc.
  - exfalso. apply Hc, Hin, Hc'.
Qed.

Lemma Broadcast_passes_over_full_witness :
  (forall l : list Z, (fun l => l) l ≡ₚ l) /\
  (forall c, c ∈ Hub.clients HubCases.oneClient ->
     exists cl, Hub.heap HubCases.oneClient !! c = Some cl /\
                Hub.closed cl = false) /\
  exists h',
    Hub.Broadcast [104; 105] (fun l => l) HubCases.oneClient = Returns h' /\
    Hub.heap h' !! 7 = Some (Hub.mkClient [[104; 105]] false) /\
    Hub.heap h' !! 8 = None.
Proof.
  assert (H1 : forall l : list Z, (fun l => l) l ≡ₚ l) by reflexivity.
  assert (H2 : forall c, c ∈ Hub.clients HubCases.oneClient ->
                 exists cl, Hub.heap HubCases.oneClient !! c = Some cl /\
                            Hub.closed cl = false).
  { intros c Hc. cbn in Hc. apply elem_of_singleton in Hc as ->.
    exists (Hub.mkClient [] false). split; reflexivity. }
  split; [exact H1|]. split; [exact H2|].
  destruct (Broadcast_passes_over_full [104; 105] (fun l => l) HubCases.oneClient
              H1 H2) as (h' & Hb & _ & _ & Hheap).
  exists h'. split; [exact Hb|].
  split; [rewrite (Hheap 7) | rewrite (Hheap 8)]; reflexivity.
Defined.
